(** * Kube Copilot: the orchestration core, embedded and verified

    A shallow embedding of [src/extension.ts] and [src/kubernetes.ts]:
    the tool classifier, the tool dispatcher [executeTool], the planner
    ([planWithLm], [fallbackPlan]), the formatter [formatWithLm] and the
    per-turn state machine ([handleChatRequest], [handlePendingAction],
    [runAgentLoop]).

    Conventions of the embedding.
    - A JavaScript string is its sequence of UTF-16 code units, restricted
      to code units below 256: one [ascii] per code unit.
    - JavaScript values that are only produced by JSON ([args], result
      payloads, response bodies) are terms of [JsVal]; numbers are integers.
    - A thrown value is an [Error] object carrying its [message].
    - [console.log] and [console.warn] have no effect on the state modelled
      here and are left out.
    - Objects list their own properties in insertion order.
    - The cluster, the language model and the two JSON library functions
      ([jsonrepair], [JSON.parse]) are collaborators outside the repository:
      they are the fields of the class [Collaborators], and every theorem
      holds for all of its instances. *)

From Stdlib Require Import String Ascii List ZArith NArith Bool Lia.
From stdpp Require Import base option gmap strings list pretty.
Import ListNotations.
Local Open Scope string_scope.
Local Open Scope list_scope.

(* ===================================================================== *)
(** ** JavaScript strings *)
(* ===================================================================== *)

Module JsString.

Definition code (c : ascii) : N := N_of_ascii c.

(** [WhiteSpace] and [LineTerminator] code units below 256: TAB, LF, VT,
    FF, CR, SP and NBSP. This is the class [\s], and what [trim] strips. *)
Definition isSpace (c : ascii) : bool :=
  let n := code c in
  ((9 <=? n) && (n <=? 13) || (n =? 32) || (n =? 160))%N.

(** [.] matches every code unit except the line terminators LF and CR. *)
Definition isLineTerminator (c : ascii) : bool :=
  let n := code c in ((n =? 10) || (n =? 13))%N.

Definition isDigit (c : ascii) : bool :=
  let n := code c in ((48 <=? n) && (n <=? 57))%N.

(** [toLowerCase] on one code unit below 256: A-Z, and the Latin-1 capitals
    U+00C0..U+00DE except the multiplication sign U+00D7. *)
Definition toLowerChar (c : ascii) : ascii :=
  let n := code c in
  if ((65 <=? n) && (n <=? 90)
      || (192 <=? n) && (n <=? 222) && negb (n =? 215))%N
  then ascii_of_N (n + 32) else c.

Fixpoint toLowerCase (s : string) : string :=
  match s with
  | EmptyString => EmptyString
  | String c s' => String (toLowerChar c) (toLowerCase s')
  end.

(** Comparison of one code unit under the [i] flag against a pattern
    character: both sides are canonicalised; below 256 no code unit
    outside ASCII canonicalises to an ASCII letter, so this is equality
    up to ASCII case. *)
Definition asciiLower (c : ascii) : ascii :=
  let n := code c in
  if ((65 <=? n) && (n <=? 90))%N then ascii_of_N (n + 32) else c.

Definition eqChar (ignoreCase : bool) (p c : ascii) : bool :=
  if ignoreCase then Ascii.eqb (asciiLower p) (asciiLower c)
  else Ascii.eqb p c.

(** [s.startsWith(p)] *)
Definition startsWith (s p : string) : bool := String.prefix p s.

(** [s.includes(pat)] *)
Fixpoint includes (s pat : string) : bool :=
  String.prefix pat s ||
  match s with
  | EmptyString => false
  | String _ s' => includes s' pat
  end.

Fixpoint drop (n : nat) (s : string) : string :=
  match n, s with
  | O, _ => s
  | S _, EmptyString => EmptyString
  | S n', String _ s' => drop n' s'
  end.

(** [s.replace(pat, rep)] with a string pattern: the first occurrence
    only. ([rep] holds no [$] in the program.) *)
Fixpoint replace (s pat rep : string) : string :=
  if String.prefix pat s then String.append rep (drop (String.length pat) s)
  else match s with
       | EmptyString => EmptyString
       | String c s' => String c (replace s' pat rep)
       end.

Fixpoint trimStart (s : string) : string :=
  match s with
  | EmptyString => EmptyString
  | String c s' => if isSpace c then trimStart s' else s
  end.

Fixpoint trimEnd (s : string) : string :=
  match s with
  | EmptyString => EmptyString
  | String c s' =>
      match trimEnd s' with
      | EmptyString => if isSpace c then EmptyString else String c EmptyString
      | t => String c t
      end
  end.

(** [s.trim()] *)
Definition trim (s : string) : string := trimEnd (trimStart s).

Definition isEmpty (s : string) : bool :=
  match s with EmptyString => true | _ => false end.

(** [Number(digits)] for a string of decimal digits (as [\d+] captures).
    The integer is kept exact: above [2^53], where [Number] rounds to the
    nearest double, the two differ. *)
Definition digitsToZ (s : string) : Z :=
  (fix go (s : string) (acc : Z) : Z :=
     match s with
     | EmptyString => acc
     | String c s' => go s' (10 * acc + (Z.of_N (code c) - 48))%Z
     end) s 0%Z.

End JsString.

(* ===================================================================== *)
(** ** Regular expressions of the program

    The regular expressions of [src/extension.ts] are concatenations of
    literals, alternations of literals, greedy repetitions of a character
    class, and the anchors. [matchHere] is the backtracking matcher of
    ECMAScript restricted to these forms: alternatives are tried left to
    right, repetitions take the longest run first and give characters back
    one at a time. *)
(* ===================================================================== *)

Module Regex.
Import JsString.

Inductive CharClass := ClassSpace | ClassNonSpace | ClassDigit | ClassDot.

Definition inClass (k : CharClass) (c : ascii) : bool :=
  match k with
  | ClassSpace => isSpace c
  | ClassNonSpace => negb (isSpace c)
  | ClassDigit => isDigit c
  | ClassDot => negb (isLineTerminator c)
  end.

Inductive Atom :=
| Lit (l : string)                        (* literal characters      *)
| Alt (capture : bool) (alts : list string) (* (a|b) or (?:a|b)      *)
| Plus (capture : bool) (k : CharClass)   (* (k+) or k+              *)
| Star (k : CharClass)                    (* k*                      *)
| Bol                                     (* ^                       *)
| Eol.                                    (* $ (no m flag)           *)

(** A literal at the head of the input: the matched text and the rest. *)
Fixpoint stripPrefix (ignoreCase : bool) (l s : string) : option (string * string) :=
  match l with
  | EmptyString => Some (EmptyString, s)
  | String p l' =>
      match s with
      | EmptyString => None
      | String c s' =>
          if eqChar ignoreCase p c then
            match stripPrefix ignoreCase l' s' with
            | Some (m, rest) => Some (String c m, rest)
            | None => None
            end
          else None
      end
  end.

Definition pushCapture (capture : bool) (caps : list string) (m : string) : list string :=
  if capture then caps ++ [m] else caps.

(** [bol] tells whether the current position is the start of the input. *)
Fixpoint matchHere (ignoreCase : bool) (re : list Atom) (bol : bool)
         (s : string) (caps : list string) {struct re} : option (list string) :=
  match re with
  | [] => Some caps
  | Lit l :: re' =>
      match stripPrefix ignoreCase l s with
      | Some (m, rest) => matchHere ignoreCase re' (bol && isEmpty m) rest caps
      | None => None
      end
  | Alt capture alts :: re' =>
      (fix try (alts : list string) : option (list string) :=
         match alts with
         | [] => None
         | l :: alts' =>
             match stripPrefix ignoreCase l s with
             | Some (m, rest) =>
                 match matchHere ignoreCase re' (bol && isEmpty m) rest
                                 (pushCapture capture caps m) with
                 | Some r => Some r
                 | None => try alts'
                 end
             | None => try alts'
             end
         end) alts
  | Plus capture k :: re' =>
      (fix rep (s : string) (taken : string) (n : nat) {struct s} : option (list string) :=
         let stop :=
           if (1 <=? n)%nat
           then matchHere ignoreCase re' false s (pushCapture capture caps taken)
           else None in
         match s with
         | String c s' =>
             if inClass k c then
               match rep s' (String.append taken (String c EmptyString)) (S n) with
               | Some r => Some r
               | None => stop
               end
             else stop
         | EmptyString => stop
         end) s EmptyString O
  | Star k :: re' =>
      (fix rep (s : string) (n : nat) {struct s} : option (list string) :=
         let stop := matchHere ignoreCase re' (bol && (n =? 0)%nat) s caps in
         match s with
         | String c s' =>
             if inClass k c then
               match rep s' (S n) with
               | Some r => Some r
               | None => stop
               end
             else stop
         | EmptyString => stop
         end) s O
  | Bol :: re' => if bol then matchHere ignoreCase re' bol s caps else None
  | Eol :: re' => if isEmpty s then matchHere ignoreCase re' bol s caps else None
  end.

Fixpoint searchFrom (ignoreCase : bool) (re : list Atom) (bol : bool) (s : string)
  : option (list string) :=
  match matchHere ignoreCase re bol s [] with
  | Some caps => Some caps
  | None =>
      match s with
      | EmptyString => None
      | String _ s' => searchFrom ignoreCase re false s'
      end
  end.

(** [text.match(re)] without the [g] flag: the capture groups of the
    leftmost match ([m[1]], [m[2]], ...), or [None] for [null]. *)
Definition matchGroups (re : list Atom) (text : string) : option (list string) :=
  searchFrom false re true text.

(** [re.test(text)], with or without the [i] flag. *)
Definition test (ignoreCase : bool) (re : list Atom) (text : string) : bool :=
  match searchFrom ignoreCase re true text with Some _ => true | None => false end.

End Regex.

(* ===================================================================== *)
(** ** JavaScript values *)
(* ===================================================================== *)

(** A thrown value: [new Error(message)], or a [TypeError] of the engine. *)
Inductive Exn := Error (message : string).

Definition message (e : Exn) : string := match e with Error m => m end.

(** A computation without side effects that returns or throws. *)
Definition Res (A : Type) : Type := Exn + A.

#[global] Instance Res_ret : MRet Res := fun A a => inr a.
#[global] Instance Res_bind : MBind Res := fun A B f m =>
  match m with inl e => inl e | inr a => f a end.

Definition throwR {A} (e : Exn) : Res A := inl e.

Fixpoint mapR {A B} (f : A -> Res B) (l : list A) : Res (list B) :=
  match l with
  | [] => inr []
  | x :: l' => y ← f x; ys ← mapR f l'; mret (y :: ys)
  end.

#[local] Set Warnings "-register-all".

Inductive JsVal :=
| JUndefined
| JNull
| JBool (b : bool)
| JNum (z : Z)
| JStr (s : string)
| JArr (items : list JsVal)
| JObj (fields : list (string * JsVal)).

(** [Record<string, any>]: the own properties, in insertion order. *)
Definition JsObject : Type := list (string * JsVal).

Module Js.
Import JsString.

Fixpoint lookupField (fields : JsObject) (k : string) : option JsVal :=
  match fields with
  | [] => None
  | (k', v) :: rest => if String.eqb k' k then Some v else lookupField rest k
  end.

(** [o.k] on an object known to be one: [undefined] when absent. *)
Definition field (o : JsObject) (k : string) : JsVal :=
  match lookupField o k with Some v => v | None => JUndefined end.

Fixpoint setField (fields : JsObject) (k : string) (x : JsVal) : JsObject :=
  match fields with
  | [] => [(k, x)]
  | (k', v) :: rest =>
      if String.eqb k' k then (k', x) :: rest else (k', v) :: setField rest k x
  end.

Definition nullish (v : JsVal) : bool :=
  match v with JUndefined | JNull => true | _ => false end.

(** [ToBoolean] *)
Definition truthy (v : JsVal) : bool :=
  match v with
  | JUndefined | JNull => false
  | JBool b => b
  | JNum z => negb (z =? 0)%Z
  | JStr s => negb (isEmpty s)
  | JArr _ | JObj _ => true
  end.

(** [a ?? b] and [a || b] *)
Definition coalesce (a b : JsVal) : JsVal := if nullish a then b else a.
Definition orElse (a b : JsVal) : JsVal := if truthy a then a else b.

(** [typeof v === "object"] *)
Definition typeofObject (v : JsVal) : bool :=
  match v with JNull | JArr _ | JObj _ => true | _ => false end.

(** The decimal index denoted by a property key, when it is one. *)
Definition indexOfKey (k : string) : option nat :=
  match k with
  | EmptyString => None
  | _ => if forallb isDigit (list_ascii_of_string k)
         then Some (Z.to_nat (digitsToZ k)) else None
  end.

(** Property read on a value that is not [null] or [undefined]: own
    properties of objects, [length] and the elements of arrays, [length]
    of strings. (No other property of a prototype is read by the
    program on such values.) *)
Definition prop (v : JsVal) (k : string) : JsVal :=
  match v with
  | JObj o => field o k
  | JArr l =>
      if String.eqb k "length" then JNum (Z.of_nat (length l))
      else match indexOfKey k with
           | Some i => nth i l JUndefined
           | None => JUndefined
           end
  | JStr s =>
      if String.eqb k "length" then JNum (Z.of_nat (String.length s))
      else match indexOfKey k with
           | Some i => match String.get i s with
                       | Some c => JStr (String c EmptyString)
                       | None => JUndefined
                       end
           | None => JUndefined
           end
  | _ => JUndefined
  end.

(** The [TypeError] of reading [k] from [undefined]. It also stands for the
    one of reading from [null], whose text names [null] instead. *)
Definition typeErrorRead (k : string) : Exn :=
  Error ("Cannot read properties of undefined (reading '" +:+ k +:+ "')").

(** [v.k]: a [TypeError] on [null] and [undefined]. *)
Definition getProp (v : JsVal) (k : string) : Res JsVal :=
  if nullish v then throwR (typeErrorRead k) else inr (prop v k).

(** [v?.k] *)
Definition optProp (v : JsVal) (k : string) : JsVal :=
  if nullish v then JUndefined else prop v k.

Definition typeErrorSet (k : string) : Exn :=
  Error ("Cannot set properties of undefined (setting '" +:+ k +:+ "')").

(** [v.k = x] in strict mode, giving the updated [v]: a [TypeError] on
    [null], [undefined] and primitives. On an array only an element in
    range is replaced; any other key leaves its elements as they are. *)
Definition setProp (v : JsVal) (k : string) (x : JsVal) : Res JsVal :=
  match v with
  | JObj o => inr (JObj (setField o k x))
  | JArr l =>
      match indexOfKey k with
      | Some i => inr (JArr (<[i:=x]> l))
      | None => inr v
      end
  | _ => throwR (typeErrorSet k)
  end.

(** [Array.isArray(v)] *)
Definition isArray (v : JsVal) : bool :=
  match v with JArr _ => true | _ => false end.

Definition typeErrorNotFunction (k : string) : Exn :=
  Error (k +:+ " is not a function").

(** The elements of [v] for a call [v.map(..)], [v.filter(..)]:
    a [TypeError] unless [v] is an array. (The engine's text for a value
    without the method also names the callee as the compiled program
    writes it; the text here holds the method only.) *)
Definition arrayItems (v : JsVal) (method : string) : Res (list JsVal) :=
  match v with
  | JArr l => inr l
  | JUndefined | JNull => throwR (typeErrorRead method)
  | _ => throwR (typeErrorNotFunction method)
  end.

(** The own enumerable properties copied by an object spread [{...v}]. *)
Definition spreadOf (v : JsVal) : JsObject :=
  match v with
  | JObj o => o
  | JArr l => imap (fun i x => (pretty i, x)) l
  | JStr s => imap (fun i c => (pretty i, JStr (String c EmptyString)))
                   (list_ascii_of_string s)
  | _ => []
  end.

(** [{...a, ...b}] *)
Definition spread2 (a b : JsVal) : JsVal :=
  JObj (fold_left (fun o kv => setField o kv.1 kv.2) (spreadOf b) (spreadOf a)).

(** [String(v)] *)
Fixpoint toString (v : JsVal) : string :=
  match v with
  | JUndefined => "undefined"
  | JNull => "null"
  | JBool true => "true"
  | JBool false => "false"
  | JNum z => pretty z
  | JStr s => s
  | JArr l =>
      (fix join (l : list JsVal) : string :=
         match l with
         | [] => ""
         | [x] => if nullish x then "" else toString x
         | x :: l' => (if nullish x then "" else toString x) +:+ "," +:+ join l'
         end) l
  | JObj _ => "[object Object]"
  end.

(** [v === s] for a string literal [s] *)
Definition strictEqStr (v : JsVal) (s : string) : bool :=
  match v with JStr t => String.eqb t s | _ => false end.

End Js.

Import JsString Js Regex.

(* ===================================================================== *)
(** ** Data model ([src/kubernetes.ts], [src/extension.ts]) *)
(* ===================================================================== *)

(** The operation enumeration [ToolName]. *)
Inductive ToolName :=
| listNamespaces | listNamespacedPod | listNamespacedEvent
| listNamespacedDeployment | listNamespacedService | getService
| listNamespacedConfigMap | getConfigMap | listIstioObject | getIstioObject
| getNamespace | createNamespace | createPod | createDeployment
| updateDeployment | updateDeploymentImage | createIstioObject
| updateIstioObject | createConfigMap | updateConfigMap | createService
| updateService | deleteDeployment | scaleDeployment | getDeploymentStatus.

Definition toolString (t : ToolName) : string :=
  match t with
  | listNamespaces => "listNamespaces"
  | listNamespacedPod => "listNamespacedPod"
  | listNamespacedEvent => "listNamespacedEvent"
  | listNamespacedDeployment => "listNamespacedDeployment"
  | listNamespacedService => "listNamespacedService"
  | getService => "getService"
  | listNamespacedConfigMap => "listNamespacedConfigMap"
  | getConfigMap => "getConfigMap"
  | listIstioObject => "listIstioObject"
  | getIstioObject => "getIstioObject"
  | getNamespace => "getNamespace"
  | createNamespace => "createNamespace"
  | createPod => "createPod"
  | createDeployment => "createDeployment"
  | updateDeployment => "updateDeployment"
  | updateDeploymentImage => "updateDeploymentImage"
  | createIstioObject => "createIstioObject"
  | updateIstioObject => "updateIstioObject"
  | createConfigMap => "createConfigMap"
  | updateConfigMap => "updateConfigMap"
  | createService => "createService"
  | updateService => "updateService"
  | deleteDeployment => "deleteDeployment"
  | scaleDeployment => "scaleDeployment"
  | getDeploymentStatus => "getDeploymentStatus"
  end.

Definition allTools : list ToolName :=
  [ listNamespaces; listNamespacedPod; listNamespacedEvent;
    listNamespacedDeployment; listNamespacedService; getService;
    listNamespacedConfigMap; getConfigMap; listIstioObject; getIstioObject;
    getNamespace; createNamespace; createPod; createDeployment;
    updateDeployment; updateDeploymentImage; createIstioObject;
    updateIstioObject; createConfigMap; updateConfigMap; createService;
    updateService; deleteDeployment; scaleDeployment; getDeploymentStatus ].

(** The [case] labels of the [switch (call.tool)] of [executeTool]: the
    label equal to the string, if there is one. At run time [call.tool] is
    any string the planner produced. *)
Definition toolOfString (s : string) : option ToolName :=
  List.find (fun t => String.eqb s (toolString t)) allTools.

Record ToolCall := { tool : string; args : JsObject }.

Record ToolResult := { rtool : string; rargs : JsObject; rok : bool; result : JsVal }.

Record Plan := { summary : string; toolCalls : list ToolCall; done : bool }.

(** An entry of a result history: [executeTool] hands back [undefined]
    ([None]) when no [case] matches, and the callers push what they get. *)
Definition History : Type := list (option ToolResult).

Record PendingAction := {
  originalUserText : string;
  plan : Plan;
  pendingToolCalls : list ToolCall;
  priorResults : History
}.

Record ExtensionConfig := {
  defaultNamespace : string;
  allowedNamespaces : gset string;
  maxReplicas : Z;
  allowedImages : list string
}.

(** [isMutating] *)
Definition isMutating (tool : string) : bool :=
  String.eqb tool "createNamespace" ||
  String.eqb tool "createPod" ||
  String.eqb tool "createDeployment" ||
  String.eqb tool "updateDeployment" ||
  String.eqb tool "updateDeploymentImage" ||
  String.eqb tool "createIstioObject" ||
  String.eqb tool "updateIstioObject" ||
  String.eqb tool "createConfigMap" ||
  String.eqb tool "updateConfigMap" ||
  String.eqb tool "createService" ||
  String.eqb tool "updateService" ||
  String.eqb tool "deleteDeployment" ||
  String.eqb tool "scaleDeployment".

(** [splitToolCalls] *)
Definition splitToolCalls (toolCalls : list ToolCall) : list ToolCall * list ToolCall :=
  (List.filter (fun c => negb (isMutating (tool c))) toolCalls,
   List.filter (fun c => isMutating (tool c)) toolCalls).

(** The [as Plan] casts of [planWithLm] are unchecked. [decodePlan] reads
    a parsed JSON value at type [Plan]; it is defined exactly on the values
    that have that type. *)
Definition decodeToolCall (v : JsVal) : option ToolCall :=
  match v with
  | JObj o =>
      match lookupField o "tool", lookupField o "args" with
      | Some (JStr t), Some (JObj a) => Some {| tool := t; args := a |}
      | _, _ => None
      end
  | _ => None
  end.

Definition decodePlan (v : JsVal) : option Plan :=
  match v with
  | JObj o =>
      match lookupField o "summary", lookupField o "toolCalls", lookupField o "done" with
      | Some (JStr s), Some (JArr cs), Some (JBool d) =>
          calls ← mapM decodeToolCall cs;
          Some {| summary := s; toolCalls := calls; done := d |}
      | _, _, _ => None
      end
  | _ => None
  end.

(* ===================================================================== *)
(** ** The cluster backend: [@kubernetes/client-node] *)
(* ===================================================================== *)

(** The client methods that [executeTool] calls. *)
Inductive ApiMethod :=
| CoreV1_listNamespace
| CoreV1_listNamespacedPod
| CoreV1_listNamespacedEvent
| CoreV1_listNamespacedService
| CoreV1_readNamespacedService
| CoreV1_listNamespacedConfigMap
| CoreV1_readNamespacedConfigMap
| CoreV1_readNamespace
| CoreV1_createNamespace
| CoreV1_createNamespacedPod
| CoreV1_createNamespacedService
| CoreV1_createNamespacedConfigMap
| CoreV1_replaceNamespacedConfigMap
| CoreV1_replaceNamespacedService
| AppsV1_listNamespacedDeployment
| AppsV1_createNamespacedDeployment
| AppsV1_patchNamespacedDeployment
| AppsV1_readNamespacedDeployment
| AppsV1_replaceNamespacedDeployment
| AppsV1_deleteNamespacedDeployment
| Custom_listNamespacedCustomObject
| Custom_getNamespacedCustomObject
| Custom_createNamespacedCustomObject
| Custom_patchNamespacedCustomObject.

(** One backend invocation: the method and its positional arguments. *)
Record ApiCall := { method : ApiMethod; params : list JsVal }.

(** The methods that create, patch, replace or delete a resource. *)
Definition apiMutates (m : ApiMethod) : bool :=
  match m with
  | CoreV1_createNamespace | CoreV1_createNamespacedPod
  | CoreV1_createNamespacedService | CoreV1_createNamespacedConfigMap
  | CoreV1_replaceNamespacedConfigMap | CoreV1_replaceNamespacedService
  | AppsV1_createNamespacedDeployment | AppsV1_patchNamespacedDeployment
  | AppsV1_replaceNamespacedDeployment | AppsV1_deleteNamespacedDeployment
  | Custom_createNamespacedCustomObject | Custom_patchNamespacedCustomObject => true
  | _ => false
  end.

(* ===================================================================== *)
(** ** The language model: [vscode.lm] *)
(* ===================================================================== *)

(** The chat messages the program builds; the text templates around the
    interpolated values are fixed, so a message is identified by its
    template and the values interpolated. *)
Inductive Message :=
| UserRequest (userText : string)
| AssistantContext
| UserPreviousResults (priorResults : History)
| UserFormatRequest (userText summary : string) (results : History)
| AssistantFormatInstruction.

Definition Model : Type := string.

(** [resp.text]: the fragments received, and the error that ends the
    stream if it fails before its end. *)
Record Response := { chunks : list string; failure : option Exn }.

(* ===================================================================== *)
(** ** The response stream and the trace of a turn *)
(* ===================================================================== *)

(** The arguments of [stream.markdown]: one constructor per template. *)
Inductive Markdown :=
| MdHelp
| MdKubeconfigFailed (msg : string)
| MdConfirmed
| MdCancelled
| MdPlanFailed (msg : string)
| MdMaxIterations
| MdPlannedChanges (summary : string) (mutatingCalls : list ToolCall)
| MdChunk (chunk : string).

(** What a turn does, in order. [EvExecuteTool], [EvPlanWithLm] and
    [EvFormatWithLm] record the entry into the function of that name; the
    others are the calls to the collaborators. *)
Inductive Event :=
| EvMarkdown (md : Markdown)
| EvButton (command title : string)
| EvExecuteTool (call : ToolCall)
| EvApi (call : ApiCall)
| EvPlanWithLm (userText : string) (priorResults : History)
| EvSendRequest (model : Model) (messages : list Message)
| EvFormatWithLm (userText summary : string) (results : History).

(** How a call ends. [Stuck] marks a run the embedding does not follow
    further: an unchecked [as Plan] cast let through a value that is not a
    [Plan]. (It also stands for a loop out of recursion fuel, which
    [agentLoop_fuel] shows never happens.) *)
Inductive Outcome (A : Type) :=
| Returned (a : A)
| Threw (e : Exn)
| Stuck.
Arguments Returned {A} a.
Arguments Threw {A} e.
Arguments Stuck {A}.

(** [getIstioResource] *)
Definition getIstioResource (kind : JsVal) : Res (string * string * string) :=
  let normalized := toLowerCase (toString (orElse kind (JStr ""))) in
  if String.eqb normalized "virtualservice" then
    inr ("networking.istio.io", "v1beta1", "virtualservices")
  else if String.eqb normalized "destinationrule" then
    inr ("networking.istio.io", "v1beta1", "destinationrules")
  else if String.eqb normalized "gateway" then
    inr ("networking.istio.io", "v1beta1", "gateways")
  else if String.eqb normalized "serviceentry" then
    inr ("networking.istio.io", "v1beta1", "serviceentries")
  else if String.eqb normalized "authorizationpolicy" then
    inr ("security.istio.io", "v1beta1", "authorizationpolicies")
  else if String.eqb normalized "peerauthentication" then
    inr ("security.istio.io", "v1beta1", "peerauthentications")
  else if String.eqb normalized "requestauthentication" then
    inr ("security.istio.io", "v1beta1", "requestauthentications")
  else throwR (Error ("Unsupported Istio kind: " +:+ toString kind)).

(** [a.b?.c?.d]: the first access throws on [null] and [undefined]. *)
Definition getThenOpt (v : JsVal) (k : string) (ks : list string) : Res JsVal :=
  x ← getProp v k; mret (fold_left optProp ks x).

(** [v.k1.k2...] *)
Fixpoint getPath (v : JsVal) (path : list string) : Res JsVal :=
  match path with
  | [] => inr v
  | k :: rest => x ← getProp v k; getPath x rest
  end.

(** [v.k1.k2...kn = x], giving the updated [v] *)
Fixpoint setPath (v : JsVal) (path : list string) (x : JsVal) : Res JsVal :=
  match path with
  | [] => inr x
  | [k] => setProp v k x
  | k :: rest => inner ← getProp v k; inner' ← setPath inner rest x; setProp v k inner'
  end.

(** [if (!v.k1...kn) v.k1...kn = {}] *)
Definition initPath (v : JsVal) (path : list string) : Res JsVal :=
  cur ← getPath v path;
  if truthy cur then inr v else setPath v path (JObj []).

(** [extractImagesFromDeploymentPatch] *)
Definition extractImagesFromDeploymentPatch (patch : JsVal) : list string :=
  let containers := fold_left optProp ["spec"; "template"; "spec"; "containers"] patch in
  match containers with
  | JArr cs =>
      omap (fun c => match optProp c "image" with JStr img => Some img | _ => None end) cs
  | _ => []
  end.

(** The image check of the [updateDeployment] case. *)
Definition imagesAllowed (allowedImages images : list string) : bool :=
  negb (negb (length allowedImages =? 0)%nat &&
        existsb (fun img => negb (existsb (fun p => startsWith img p) allowedImages)) images).

Record OkOptions := { summarizeList : bool; kindHint : JsVal }.

(** The collaborators outside the repository. [backend] is the cluster
    behind the client library: one invocation answers with a response body
    or rejects, and may change the cluster. [selectChatModels] and
    [sendRequest] are [vscode.lm]. [jsonrepair] and [JSON_parse] are the two
    JSON functions that [planWithLm] calls. *)
Class Collaborators := {
  Cluster : Type;
  Oracle : Type;
  backend : ApiCall -> Cluster -> Res JsVal * Cluster;
  selectChatModels : string -> Oracle -> Res (option (list Model)) * Oracle;
  sendRequest : Model -> list Message -> Oracle -> Res Response * Oracle;
  jsonrepair : string -> Res string;
  JSON_parse : string -> Res JsVal
}.

(** [Object.keys(v)] *)
Definition objectKeys (v : JsVal) : JsVal := JArr (List.map (fun kv => JStr kv.1) (spreadOf v)).

(** [summarizeK8sItem] *)
Definition summarizeK8sItem (item kindHint : JsVal) : Res JsVal :=
  let kind := coalesce kindHint (optProp item "kind") in
  let meta := coalesce (optProp item "metadata") (JObj []) in
  let name := optProp meta "name" in
  let namespace := optProp meta "namespace" in
  let labels := optProp meta "labels" in
  if strictEqStr kindHint "Pod" || strictEqStr kind "Pod" then
    let status := coalesce (optProp item "status") (JObj []) in
    let containers := coalesce (optProp (optProp item "spec") "containers") (JArr []) in
    cs ← arrayItems containers "map";
    mret (JObj [("kind", JStr "Pod"); ("name", name); ("namespace", namespace);
                ("phase", prop status "phase"); ("nodeName", prop status "nodeName");
                ("podIP", prop status "podIP");
                ("containers",
                 JArr (List.map (fun c => JObj [("name", optProp c "name");
                                                ("image", optProp c "image")]) cs));
                ("labels", labels)])
  else if strictEqStr kindHint "Deployment" || strictEqStr kind "Deployment" then
    let spec := coalesce (optProp item "spec") (JObj []) in
    let status := coalesce (optProp item "status") (JObj []) in
    mret (JObj [("kind", JStr "Deployment"); ("name", name); ("namespace", namespace);
                ("replicas", prop spec "replicas");
                ("availableReplicas", prop status "availableReplicas");
                ("updatedReplicas", prop status "updatedReplicas");
                ("strategy", optProp (optProp spec "strategy") "type");
                ("labels", labels)])
  else if strictEqStr kindHint "Service" || strictEqStr kind "Service" then
    let spec := coalesce (optProp item "spec") (JObj []) in
    ports ← (let ps := prop spec "ports" in
             if nullish ps then inr JUndefined
             else l ← arrayItems ps "map";
                  mret (JArr (List.map (fun p => JObj [("port", optProp p "port");
                                                       ("targetPort", optProp p "targetPort");
                                                       ("protocol", optProp p "protocol")]) l)));
    mret (JObj [("kind", JStr "Service"); ("name", name); ("namespace", namespace);
                ("type", prop spec "type"); ("clusterIP", prop spec "clusterIP");
                ("ports", ports); ("selector", prop spec "selector"); ("labels", labels)])
  else if strictEqStr kindHint "ConfigMap" || strictEqStr kind "ConfigMap" then
    let data := coalesce (optProp item "data") (JObj []) in
    let binaryData := coalesce (optProp item "binaryData") (JObj []) in
    mret (JObj [("kind", JStr "ConfigMap"); ("name", name); ("namespace", namespace);
                ("dataKeys", objectKeys data); ("binaryDataKeys", objectKeys binaryData);
                ("labels", labels)])
  else
    let spec := coalesce (optProp item "spec") (JObj []) in
    let istioSummary : JsObject :=
      [("kind", coalesce kindHint kind); ("name", name); ("namespace", namespace);
       ("labels", labels)] in
    let copyArray (k : string) (o : JsObject) : JsObject :=
      if isArray (prop spec k) then setField o k (prop spec k) else o in
    let istioSummary := copyArray "hosts" istioSummary in
    let istioSummary := copyArray "gateways" istioSummary in
    let istioSummary :=
      if truthy (prop spec "selector")
      then setField istioSummary "selector" (prop spec "selector") else istioSummary in
    let istioSummary := copyArray "ports" istioSummary in
    let istioSummary := copyArray "servers" istioSummary in
    mret (JObj istioSummary).

Section Orchestrator.

Context `{C : Collaborators}.

(** The state a turn reads and writes: the module-level map
    [pendingBySession], the cluster and the language model. *)
Record World := {
  pendingBySession : gmap string PendingAction;
  cluster : Cluster;
  oracle : Oracle
}.

(** An [async] function: from a state to how it ends, the state it
    leaves, and what it did. State changes made before a throw stay. *)
Definition M (A : Type) : Type := World -> Outcome A * World * list Event.

#[global] Instance M_ret : MRet M := fun A a w => (Returned a, w, []).

#[global] Instance M_bind : MBind M := fun A B f m w =>
  match m w with
  | (Returned a, w1, evs1) => let '(o, w2, evs2) := f a w1 in (o, w2, evs1 ++ evs2)
  | (Threw e, w1, evs1) => (Threw e, w1, evs1)
  | (Stuck, w1, evs1) => (Stuck, w1, evs1)
  end.

Definition throw {A} (e : Exn) : M A := fun w => (Threw e, w, []).
Definition stuck {A} : M A := fun w => (Stuck, w, []).
Definition conclude {A} (o : Outcome A) : M A := fun w => (o, w, []).
Definition emit (ev : Event) : M unit := fun w => (Returned tt, w, [ev]).

Definition liftR {A} (r : Res A) : M A :=
  match r with inl e => throw e | inr a => mret a end.

(** [try { m } catch (e) { h e }] *)
Definition tryCatch {A} (m : M A) (h : Exn -> M A) : M A := fun w =>
  match m w with
  | (Threw e, w1, evs1) => let '(o, w2, evs2) := h e w1 in (o, w2, evs1 ++ evs2)
  | r => r
  end.

(** [await client.method(params)]: the response body, or a rejection. *)
Definition callApi (m : ApiMethod) (ps : list JsVal) : M JsVal := fun w =>
  let call := {| method := m; params := ps |} in
  let '(r, k) := backend call (cluster w) in
  (match r with inl e => Threw e | inr body => Returned body end,
   {| pendingBySession := pendingBySession w; cluster := k; oracle := oracle w |},
   [EvApi call]).

(** [summarizeK8sList] *)
Definition summarizeK8sList (items : list JsVal) (kindHint : JsVal) : Res (list JsVal) :=
  mapR (fun item => summarizeK8sItem item kindHint) items.

(** [ok] *)
Definition ok (call : ToolCall) (result : JsVal) (options : option OkOptions)
  : Res ToolResult :=
  let plain :=
    {| rtool := tool call; rargs := args call; rok := true; result := result |} in
  match options with
  | Some opts =>
      if summarizeList opts && truthy result then
        match prop result "items" with
        | JArr resultItems =>
            let continueToken :=
              coalesce (optProp (prop result "metadata") "continue")
                       (optProp (prop result "metadata") "_continue") in
            items ← summarizeK8sList resultItems (kindHint opts);
            mret {| rtool := tool call; rargs := args call; rok := true;
                    result := JObj [("items", JArr items);
                                    ("continueToken", continueToken)] |}
        | _ => mret plain
        end
      else mret plain
  | None => mret plain
  end.

Definition okM (call : ToolCall) (result : Res JsVal) (options : option OkOptions)
  : M (option ToolResult) :=
  liftR (v ← result; r ← ok call v options; mret (Some r)).

Definition strategicMergePatchOptions : JsVal :=
  JObj [("headers", JObj [("Content-Type", JStr "application/strategic-merge-patch+json")])].
Definition mergePatchOptions : JsVal :=
  JObj [("headers", JObj [("Content-Type", JStr "application/merge-patch+json")])].

(** [{ name: body.metadata?.name }] *)
Definition nameOf (body : JsVal) : Res JsVal :=
  n ← getThenOpt body "metadata" ["name"]; mret (JObj [("name", n)]).

(** The arguments common to the list operations, in the order the client
    method takes them. *)
Definition listParams (a : string -> JsVal) : list JsVal :=
  [a "namespace"; JUndefined; JUndefined; a "continueToken"; a "fieldSelector";
   a "labelSelector"; coalesce (a "limit") (JNum 50)].

(** The body of the [try] of [executeTool]: the [switch] on [call.tool].
    No [case] matches a string outside the enumeration, and the function
    then ends without a [return]. *)
Definition executeToolBody (call : ToolCall) (allowedNamespaces : gset string)
           (allowedImages : list string) (maxReplicas : Z) : M (option ToolResult) :=
  let a := field (args call) in
  match toolOfString (tool call) with
  | None => mret None
  | Some listNamespaces =>
      res ← callApi CoreV1_listNamespace [];
      okM call
          (items ← getProp res "items";
           l ← arrayItems items "map";
           names ← mapR (fun i => getThenOpt i "metadata" ["name"]) l;
           mret (JArr (List.filter truthy names)))
          None
  | Some listNamespacedPod =>
      res ← callApi CoreV1_listNamespacedPod (listParams a);
      okM call (inr res) (Some {| summarizeList := true; kindHint := JStr "Pod" |})
  | Some listNamespacedEvent =>
      let namespace := orElse (a "namespace") (JStr "default") in
      res ← callApi CoreV1_listNamespacedEvent
              [namespace; JUndefined; JUndefined; JUndefined;
               JStr ("involvedObject.namespace=" +:+ toString namespace)];
      okM call
          (items ← getProp res "items";
           l ← arrayItems items "map";
           evs ← mapR (fun i =>
                         n ← getThenOpt i "metadata" ["name"];
                         ns ← getThenOpt i "metadata" ["namespace"];
                         mret (JObj [("name", n); ("message", optProp i "message");
                                     ("namespace", ns)])) l;
           mret (JArr evs))
          None
  | Some listNamespacedDeployment =>
      res ← callApi AppsV1_listNamespacedDeployment (listParams a);
      okM call (inr res) (Some {| summarizeList := true; kindHint := JStr "Deployment" |})
  | Some listNamespacedService =>
      res ← callApi CoreV1_listNamespacedService (listParams a);
      okM call (inr res) (Some {| summarizeList := true; kindHint := JStr "Service" |})
  | Some getService =>
      res ← callApi CoreV1_readNamespacedService [a "name"; a "namespace"];
      okM call (inr res) None
  | Some listNamespacedConfigMap =>
      res ← callApi CoreV1_listNamespacedConfigMap (listParams a);
      okM call (inr res) (Some {| summarizeList := true; kindHint := JStr "ConfigMap" |})
  | Some getConfigMap =>
      res ← callApi CoreV1_readNamespacedConfigMap [a "name"; a "namespace"];
      okM call (inr res) None
  | Some listIstioObject =>
      '(group, version, plural) ← liftR (getIstioResource (a "kind"));
      res ← callApi Custom_listNamespacedCustomObject
              [JStr group; JStr version; a "namespace"; JStr plural;
               JUndefined; JUndefined;
               coalesce (a "continueToken") JNull;
               coalesce (a "fieldSelector") JNull;
               coalesce (a "labelSelector") JNull;
               coalesce (coalesce (a "limit") (JNum 50)) JNull];
      okM call (inr res) (Some {| summarizeList := true; kindHint := a "kind" |})
  | Some getIstioObject =>
      '(group, version, plural) ← liftR (getIstioResource (a "kind"));
      res ← callApi Custom_getNamespacedCustomObject
              [JStr group; JStr version; a "namespace"; JStr plural; a "name"];
      okM call (inr res) None
  | Some getNamespace =>
      res ← callApi CoreV1_readNamespace [a "name"];
      okM call (nameOf res) None
  | Some createNamespace =>
      res ← callApi CoreV1_createNamespace [JObj [("metadata", JObj [("name", a "name")])]];
      okM call (nameOf res) None
  | Some createPod =>
      (* the namespace and image checks are commented out in the source *)
      let pod :=
        JObj [("apiVersion", JStr "v1"); ("kind", JStr "Pod");
              ("metadata", JObj [("name", a "name")]);
              ("spec", JObj [("restartPolicy", JStr "Never");
                             ("containers",
                              JArr [JObj [("name", JStr "main"); ("image", a "image")]])])] in
      res ← callApi CoreV1_createNamespacedPod [a "namespace"; pod];
      okM call (nameOf res) None
  | Some createDeployment =>
      let name := a "name" in
      let replicas := coalesce (a "replicas") (JNum 1) in
      let port := a "port" in
      let deployment :=
        JObj [("apiVersion", JStr "apps/v1"); ("kind", JStr "Deployment");
              ("metadata", JObj [("name", name)]);
              ("spec",
               JObj [("replicas", replicas);
                     ("selector", JObj [("matchLabels", JObj [("app", name)])]);
                     ("template",
                      JObj [("metadata", JObj [("labels", JObj [("app", name)])]);
                            ("spec",
                             JObj [("containers",
                                    JArr [JObj [("name", JStr "app");
                                                ("image", a "image");
                                                ("ports",
                                                 if truthy port
                                                 then JArr [JObj [("containerPort", port)]]
                                                 else JUndefined)]])])])])] in
      res ← callApi AppsV1_createNamespacedDeployment [a "namespace"; deployment];
      okM call (nameOf res) None
  | Some updateDeployment =>
      let patch := a "patch" in
      if negb (truthy patch) || negb (typeofObject patch)
      then throw (Error "Patch must be an object")
      else
        let images := extractImagesFromDeploymentPatch patch in
        if negb (imagesAllowed allowedImages images)
        then throw (Error "Image not allowed")
        else
          res ← callApi AppsV1_patchNamespacedDeployment
                  [a "name"; a "namespace"; patch; JUndefined; JUndefined; JUndefined;
                   JUndefined; JUndefined; strategicMergePatchOptions];
          okM call (nameOf res) None
  | Some createIstioObject =>
      let manifest := a "manifest" in
      if negb (truthy manifest) || negb (typeofObject manifest)
      then throw (Error "Manifest must be an object")
      else
        '(group, version, plural) ← liftR (getIstioResource (a "kind"));
        res ← callApi Custom_createNamespacedCustomObject
                [JStr group; JStr version; a "namespace"; JStr plural; manifest];
        okM call (inr res) None
  | Some updateIstioObject =>
      let patch := a "patch" in
      if negb (truthy patch) || negb (typeofObject patch)
      then throw (Error "Patch must be an object")
      else
        '(group, version, plural) ← liftR (getIstioResource (a "kind"));
        res ← callApi Custom_patchNamespacedCustomObject
                [JStr group; JStr version; a "namespace"; JStr plural; a "name"; patch;
                 JUndefined; JUndefined; JUndefined; mergePatchOptions];
        okM call (inr res) None
  | Some createService =>
      let port := a "port" in
      let service :=
        JObj [("apiVersion", JStr "v1"); ("kind", JStr "Service");
              ("metadata", JObj [("name", a "name")]);
              ("spec",
               JObj [("type", coalesce (a "type") (JStr "ClusterIP"));
                     ("selector", a "selector");
                     ("ports",
                      JArr [JObj [("port", port);
                                  ("targetPort", coalesce (a "targetPort") port)]])])] in
      res ← callApi CoreV1_createNamespacedService [a "namespace"; service];
      okM call (nameOf res) None
  | Some createConfigMap =>
      let cm :=
        JObj [("apiVersion", JStr "v1"); ("kind", JStr "ConfigMap");
              ("metadata", JObj [("name", a "name")]);
              ("data", a "data"); ("binaryData", a "binaryData")] in
      res ← callApi CoreV1_createNamespacedConfigMap [a "namespace"; cm];
      okM call (nameOf res) None
  | Some updateConfigMap =>
      let data := a "data" in
      let binaryData := a "binaryData" in
      if negb (truthy data) && negb (truthy binaryData)
      then throw (Error "No ConfigMap data to update")
      else
        cm ← callApi CoreV1_readNamespacedConfigMap [a "name"; a "namespace"];
        cm ← liftR (d ← getProp cm "data";
                    cm ← setProp cm "data"
                           (spread2 (coalesce d (JObj [])) (coalesce data (JObj [])));
                    b ← getProp cm "binaryData";
                    setProp cm "binaryData"
                      (spread2 (coalesce b (JObj [])) (coalesce binaryData (JObj []))));
        updated ← callApi CoreV1_replaceNamespacedConfigMap [a "name"; a "namespace"; cm];
        okM call (nameOf updated) None
  | Some updateService =>
      let selector := a "selector" in
      let port := a "port" in
      let targetPort := a "targetPort" in
      let type := a "type" in
      if negb (truthy selector) && negb (truthy port) && negb (truthy targetPort)
         && negb (truthy type)
      then throw (Error "No service fields to update")
      else
        service ← callApi CoreV1_readNamespacedService [a "name"; a "namespace"];
        service ← liftR (
          service ← initPath service ["spec"];
          service ← (if truthy type then setPath service ["spec"; "type"] type
                     else inr service);
          service ← (if truthy selector then setPath service ["spec"; "selector"] selector
                     else inr service);
          if truthy port || truthy targetPort then
            setPath service ["spec"; "ports"]
              (JArr [JObj [("port", coalesce port (JNum 80));
                           ("targetPort",
                            coalesce (coalesce targetPort port) (JNum 80))]])
          else inr service);
        updated ← callApi CoreV1_replaceNamespacedService [a "name"; a "namespace"; service];
        okM call (nameOf updated) None
  | Some updateDeploymentImage =>
      (* the namespace and image checks are commented out in the source *)
      deployment ← callApi AppsV1_readNamespacedDeployment [a "name"; a "namespace"];
      deployment ← liftR (
        cs ← getThenOpt deployment "spec" ["template"; "spec"; "containers"];
        let containers := coalesce cs (JArr []) in
        if negb (truthy (prop containers "length"))
        then throwR (Error "No containers found to update")
        else
          containers ← setPath containers ["0"; "image"] (a "image");
          deployment ← initPath deployment ["spec"];
          deployment ← initPath deployment ["spec"; "template"];
          deployment ← initPath deployment ["spec"; "template"; "spec"];
          setPath deployment ["spec"; "template"; "spec"; "containers"] containers);
      updated ← callApi AppsV1_replaceNamespacedDeployment
                  [a "name"; a "namespace"; deployment];
      okM call (nameOf updated) None
  | Some deleteDeployment =>
      res ← callApi AppsV1_deleteNamespacedDeployment [a "name"; a "namespace"];
      okM call (inr (JObj [("status", optProp res "status");
                           ("details", optProp res "details")])) None
  | Some scaleDeployment =>
      (* the namespace and replica checks are commented out in the source *)
      deployment ← callApi AppsV1_readNamespacedDeployment [a "name"; a "namespace"];
      deployment ← liftR (
        deployment ← initPath deployment ["spec"];
        setPath deployment ["spec"; "replicas"] (a "replicas"));
      updated ← callApi AppsV1_replaceNamespacedDeployment
                  [a "name"; a "namespace"; deployment];
      okM call
          (n ← getThenOpt updated "metadata" ["name"];
           r ← getThenOpt updated "spec" ["replicas"];
           mret (JObj [("name", n); ("replicas", r)]))
          None
  | Some getDeploymentStatus =>
      res ← callApi AppsV1_readNamespacedDeployment [a "name"; a "namespace"];
      okM call (getProp res "status") None
  end.

(** [executeTool]: the [try] around the [switch], and its [catch]. The
    [KubeConfig] argument of the source selects the cluster, which here
    is the [cluster] of the state. *)
Definition executeTool (call : ToolCall) (allowedNamespaces : gset string)
           (allowedImages : list string) (maxReplicas : Z) : M (option ToolResult) :=
  emit (EvExecuteTool call);;
  tryCatch
    (executeToolBody call allowedNamespaces allowedImages maxReplicas)
    (fun e => mret (Some {| rtool := tool call; rargs := args call;
                            rok := false; result := JStr (message e) |})).


(* ------------------------------------------------------------------- *)
(** *** The planner *)
(* ------------------------------------------------------------------- *)

(** The regular expressions of [fallbackPlan]. *)
Definition reCreateDeployment : list Atom :=   (* /(?:create|deploy)\s+deployment\s+(\S+)/ *)
  [Alt false ["create"; "deploy"]; Plus false ClassSpace; Lit "deployment";
   Plus false ClassSpace; Plus true ClassNonSpace].
Definition reUpdateImage : list Atom :=   (* /update\s+deployment\s+(\S+).*image\s+(\S+)/ *)
  [Lit "update"; Plus false ClassSpace; Lit "deployment"; Plus false ClassSpace;
   Plus true ClassNonSpace; Star ClassDot; Lit "image"; Plus false ClassSpace;
   Plus true ClassNonSpace].
Definition reDeleteDeployment : list Atom :=   (* /(?:delete|remove)\s+deployment\s+(\S+)/ *)
  [Alt false ["delete"; "remove"]; Plus false ClassSpace; Lit "deployment";
   Plus false ClassSpace; Plus true ClassNonSpace].
Definition reCreateService : list Atom :=   (* /(?:create|expose)\s+service\s+(\S+)/ *)
  [Alt false ["create"; "expose"]; Plus false ClassSpace; Lit "service";
   Plus false ClassSpace; Plus true ClassNonSpace].
Definition reUpdateService : list Atom :=   (* /update\s+service\s+(\S+)/ *)
  [Lit "update"; Plus false ClassSpace; Lit "service"; Plus false ClassSpace;
   Plus true ClassNonSpace].
Definition reGetService : list Atom :=   (* /(?:get|describe)\s+service\s+(\S+)/ *)
  [Alt false ["get"; "describe"]; Plus false ClassSpace; Lit "service";
   Plus false ClassSpace; Plus true ClassNonSpace].
Definition reScale : list Atom :=   (* /scale\s+(\S+)\s+to\s+(\d+)/ *)
  [Lit "scale"; Plus false ClassSpace; Plus true ClassNonSpace; Plus false ClassSpace;
   Lit "to"; Plus false ClassSpace; Plus true ClassDigit].

(** [m[i]] for a capture group [i >= 1] of a match *)
Definition group (m : list string) (i : nat) : string := nth (i - 1) m "".

Definition single (summary : string) (tool : string) (args : JsObject) : Plan :=
  {| summary := summary; toolCalls := [{| tool := tool; args := args |}]; done := true |}.

(** The first [if] of [fallbackPlan]: the plan it returns, [None] when
    control falls through. *)
Definition podsOfNamespaces (text : string) (priorResults : History) : Res (option Plan) :=
  match priorResults with
  | [] => inr None
  | None :: _ => throwR (typeErrorRead "tool")
  | Some r0 :: _ =>
      if String.eqb (rtool r0) "listNamespaces" then
        let namespaces := result r0 in
        if includes text "pod" && includes text "all" then
          l ← arrayItems namespaces "map";
          mret (Some {| summary := "List pods in all namespaces";
                        toolCalls :=
                          List.map (fun ns => {| tool := "listNamespacedPod";
                                                 args := [("namespace", ns)] |}) l;
                        done := true |})
        else inr None
      else inr None
  end.

(** [fallbackPlan] *)
Definition fallbackPlan (userText defaultNamespace : string) (priorResults : History)
  : Res Plan :=
  let text := toLowerCase userText in
  let ns := JStr defaultNamespace in
  first ← podsOfNamespaces text priorResults;
  match first with
  | Some plan => inr plan
  | None =>
  if includes text "namespace" && (includes text "list" || includes text "what") then
    inr (single "List all namespaces" "listNamespaces" [])
  else if includes text "pod" && includes text "all" then
    inr {| summary := "List all namespaces first";
           toolCalls := [{| tool := "listNamespaces"; args := [] |}];
           done := false |}
  else if includes text "deploy" && includes text "nginx" then
    inr {| summary := "Deploy nginx pod";
           toolCalls :=
             [{| tool := "getNamespace"; args := [("name", ns)] |};
              {| tool := "createPod";
                 args := [("namespace", ns); ("name", JStr "nginx");
                          ("image", JStr "nginx:latest")] |}];
           done := true |}
  else
  match matchGroups reCreateDeployment text with
  | Some m =>
      inr (single ("Create deployment " +:+ group m 1) "createDeployment"
                  [("namespace", ns); ("name", JStr (group m 1));
                   ("image", JStr "nginx:latest")])
  | None =>
  match matchGroups reUpdateImage text with
  | Some m =>
      inr (single ("Update deployment " +:+ group m 1 +:+ " image") "updateDeploymentImage"
                  [("namespace", ns); ("name", JStr (group m 1));
                   ("image", JStr (group m 2))])
  | None =>
  match matchGroups reDeleteDeployment text with
  | Some m =>
      inr (single ("Delete deployment " +:+ group m 1) "deleteDeployment"
                  [("namespace", ns); ("name", JStr (group m 1))])
  | None =>
  if includes text "deployment" && (includes text "list" || includes text "show") then
    inr (single "List deployments" "listNamespacedDeployment" [("namespace", ns)])
  else
  match matchGroups reCreateService text with
  | Some m =>
      inr (single ("Create service " +:+ group m 1) "createService"
                  [("namespace", ns); ("name", JStr (group m 1));
                   ("selector", JObj [("app", JStr (group m 1))]); ("port", JNum 80)])
  | None =>
  match matchGroups reUpdateService text with
  | Some m =>
      inr (single ("Update service " +:+ group m 1) "updateService"
                  [("namespace", ns); ("name", JStr (group m 1)); ("port", JNum 80)])
  | None =>
  match matchGroups reGetService text with
  | Some m =>
      inr (single ("Get service " +:+ group m 1) "getService"
                  [("namespace", ns); ("name", JStr (group m 1))])
  | None =>
  if includes text "service" && (includes text "list" || includes text "show") then
    inr (single "List services" "listNamespacedService" [("namespace", ns)])
  else
  match matchGroups reScale text with
  | Some m =>
      inr (single ("Scale deployment " +:+ group m 1 +:+ " to " +:+ group m 2)
                  "scaleDeployment"
                  [("name", JStr (group m 1)); ("namespace", ns);
                   ("replicas", JNum (digitsToZ (group m 2)))])
  | None => throwR (Error "Unable to understand request")
  end end end end end end end
  end.

(** [rawText.replace("```json", "").replace("```", "")] *)
Definition stripFences (rawText : string) : string :=
  replace (replace rawText "```json" "") "```" "".

Definition hasKey (o : JsObject) (k : string) : bool :=
  match lookupField o k with Some _ => true | None => false end.

(** The test on an element in the array scan of [planWithLm]. *)
Definition planShaped (elementJson : JsVal) : bool :=
  match elementJson with
  | JObj o =>
      hasKey o "summary" && hasKey o "toolCalls" && hasKey o "done" &&
      match field o "done" with JBool _ => true | _ => false end
  | _ => false
  end.

Fixpoint scanElements (elements : list JsVal) (parsedJson : JsVal) : Res JsVal :=
  match elements with
  | [] => inr parsedJson
  | element :: rest =>
      elementJson ←
        match element with
        | JStr s => if startsWith (trim s) "{" then JSON_parse s else inr element
        | _ => inr element
        end;
      if planShaped elementJson then inr elementJson
      else scanElements rest parsedJson
  end.

(** The [try] block of [planWithLm]: the value it returns [as Plan]. *)
Definition parsePlanText (rawText : string) : Res JsVal :=
  cleanedJson ← jsonrepair (stripFences rawText);
  parsedJson ← JSON_parse cleanedJson;
  match parsedJson with
  | JArr elements => scanElements elements parsedJson
  | _ => inr parsedJson
  end.

(** What [planWithLm] makes of a non-empty response text. *)
Definition planOfText (rawText userText defaultNamespace : string)
           (priorResults : History) : Outcome Plan :=
  match parsePlanText rawText with
  | inr v => match decodePlan v with Some p => Returned p | None => Stuck end
  | inl _ =>
      match fallbackPlan userText defaultNamespace priorResults with
      | inr p => Returned p
      | inl e => Threw e
      end
  end.

(** The ambient values of one turn: [getExtensionConfig()], whether
    [kc.loadFromDefault()] throws, [getSessionKey()], and whether
    [vscode.lm] is defined. *)
Record Env := {
  cfg : ExtensionConfig;
  kubeConfigError : option Exn;
  sessionKey : string;
  lm : bool
}.

(** [request.prompt] and [request.model.family] *)
Record Request := { prompt : string; modelFamily : string }.

Definition selectModels (family : string) : M (option (list Model)) := fun w =>
  let '(r, o) := selectChatModels family (oracle w) in
  (match r with inl e => Threw e | inr ms => Returned ms end,
   {| pendingBySession := pendingBySession w; cluster := cluster w; oracle := o |},
   []).

Definition send (model : Model) (messages : list Message) : M Response := fun w =>
  let '(r, o) := sendRequest model messages (oracle w) in
  (match r with inl e => Threw e | inr resp => Returned resp end,
   {| pendingBySession := pendingBySession w; cluster := cluster w; oracle := o |},
   [EvSendRequest model messages]).

(** The end of a [for await] over [resp.text]. *)
Definition endOfStream (resp : Response) : M unit :=
  match failure resp with Some e => throw e | None => mret tt end.

(** [planWithLm] *)
Definition planWithLm (env : Env) (userText : string) (ctx : ExtensionConfig)
           (priorResults : History) (modelFamily : string) : M Plan :=
  emit (EvPlanWithLm userText priorResults);;
  if negb (lm env) then throw (Error "Language Model API not available")
  else
    models ← selectModels modelFamily;
    match models with
    | None => throw (Error "No Copilot model available")
    | Some models =>
        let messages :=
          [UserRequest userText; AssistantContext] ++
          (if (0 <? length priorResults)%nat
           then [UserPreviousResults priorResults] else []) in
        match models with
        | [] => throw (typeErrorRead "sendRequest")
        | model :: _ =>
            resp ← send model messages;
            endOfStream resp;;
            let rawText := String.concat "" (chunks resp) in
            if isEmpty rawText
            then liftR (fallbackPlan userText (defaultNamespace ctx) priorResults)
            else conclude (planOfText rawText userText (defaultNamespace ctx)
                                      priorResults)
        end
    end.

(** [extractTextFromLmResponse]: the text of a response object of the
    older language-model API. *)
Definition extractTextFromLmResponse (resp : JsVal) : Res string :=
  if negb (truthy resp) then inr ""
  else
    match prop resp "content" with
    | JArr content =>
        texts ← mapR (fun c =>
                        type ← getProp c "type";
                        if strictEqStr type "text" then
                          match prop c "text" with
                          | JStr text => inr (Some text)
                          | _ => inr None
                          end
                        else inr None) content;
        mret (trim (String.concat "" (omap id texts)))
    | content =>
        match prop resp "text" with
        | JStr text => inr (trim text)
        | _ => match content with
               | JStr content => inr (trim content)
               | _ => inr ""
               end
        end
    end.

(* ------------------------------------------------------------------- *)
(** *** The formatter *)
(* ------------------------------------------------------------------- *)

(** The string [formatWithLm] returns: [JSON.stringify(results, null, 2)]
    or the response text. No caller uses it. *)
Inductive Formatted :=
| RawDump (results : History)
| ResponseText (text : string).

Fixpoint streamChunks (cs : list string) (responseText : string) : M string :=
  match cs with
  | [] => mret responseText
  | chunk :: rest =>
      emit (EvMarkdown (MdChunk chunk));;
      streamChunks rest (responseText +:+ chunk)
  end.

(** [formatWithLm] *)
Definition formatWithLm (env : Env) (userText summary : string) (results : History)
           (modelFamily : string) : M Formatted :=
  emit (EvFormatWithLm userText summary results);;
  if negb (lm env) then mret (RawDump results)
  else
    models ← selectModels modelFamily;
    match models with
    | None => throw (typeErrorRead "0")
    | Some [] => mret (RawDump results)
    | Some (model :: _) =>
        resp ← send model [UserFormatRequest userText summary results;
                           AssistantFormatInstruction];
        responseText ← streamChunks (chunks resp) "";
        endOfStream resp;;
        mret (ResponseText responseText)
    end.

(* ------------------------------------------------------------------- *)
(** *** The orchestration loop *)
(* ------------------------------------------------------------------- *)

Definition getPending (key : string) : M (option PendingAction) := fun w =>
  (Returned (pendingBySession w !! key), w, []).

Definition setPending (key : string) (p : PendingAction) : M unit := fun w =>
  (Returned tt,
   {| pendingBySession := <[key := p]> (pendingBySession w);
      cluster := cluster w; oracle := oracle w |}, []).

Definition deletePending (key : string) : M unit := fun w =>
  (Returned tt,
   {| pendingBySession := delete key (pendingBySession w);
      cluster := cluster w; oracle := oracle w |}, []).

(** [executeReadonlyCalls]: the extended [allResults] *)
Fixpoint executeReadonlyCalls (calls : list ToolCall) (cfg : ExtensionConfig)
         (allResults : History) : M History :=
  match calls with
  | [] => mret allResults
  | call :: rest =>
      result ← executeTool call (allowedNamespaces cfg) (allowedImages cfg)
                           (maxReplicas cfg);
      executeReadonlyCalls rest cfg (allResults ++ [result])
  end.

(** [queuePendingActions] *)
Definition queuePendingActions (sessionKey userText : string) (plan : Plan)
           (mutatingCalls : list ToolCall) (priorResults : History) : M unit :=
  setPending sessionKey
    {| originalUserText := userText; plan := plan;
       pendingToolCalls := mutatingCalls; priorResults := priorResults |}.

(** [promptForConfirmation] *)
Definition promptForConfirmation (plan : Plan) (mutatingCalls : list ToolCall) : M unit :=
  emit (EvMarkdown (MdPlannedChanges (summary plan) mutatingCalls));;
  emit (EvButton "kubeCopilot.kube.confirm" "Confirm");;
  emit (EvButton "kubeCopilot.kube.cancel" "Cancel").

Definition MAX_ITERATIONS : nat := 10.

(** How the [while] loop of [runAgentLoop] is left: by a [return] inside
    it, or by [break] or a false condition, with the locals then. *)
Inductive LoopExit :=
| ExitReturn
| ExitLoop (iterationCount : nat) (allResults : History) (currentSummary : string)
| OutOfFuel.

(** The [try] around the call of [planWithLm] in the loop, and its
    [catch], which reports the failure and makes the function return:
    the plan, or [None] after the report. *)
Definition tryPlan (env : Env) (userText : string) (allResults : History)
           (modelFamily : string) : M (option Plan) :=
  tryCatch
    (plan ← planWithLm env userText (cfg env) allResults modelFamily;
     mret (Some plan))
    (fun e => emit (EvMarkdown (MdPlanFailed (message e)));; mret None).

(** The [while] loop of [runAgentLoop]. [fuel] bounds the recursion. *)
Fixpoint agentLoop (fuel : nat) (env : Env) (userText modelFamily : string)
         (iterationCount : nat) (allResults : History) (currentSummary : string)
  : M LoopExit :=
  if (iterationCount <? MAX_ITERATIONS)%nat then
    match fuel with
    | O => mret OutOfFuel
    | S fuel' =>
        let iterationCount := S iterationCount in
        planned ← tryPlan env userText allResults modelFamily;
        match planned with
        | None => mret ExitReturn
        | Some plan =>
            let currentSummary := summary plan in
            if (length (toolCalls plan) =? 0)%nat && done plan
            then mret (ExitLoop iterationCount allResults currentSummary)
            else
              let '(readonlyCalls, mutatingCalls) := splitToolCalls (toolCalls plan) in
              allResults ← executeReadonlyCalls readonlyCalls (cfg env) allResults;
              if (0 <? length mutatingCalls)%nat then
                queuePendingActions (sessionKey env) userText plan mutatingCalls allResults;;
                promptForConfirmation plan mutatingCalls;;
                mret ExitReturn
              else if done plan
              then mret (ExitLoop iterationCount allResults currentSummary)
              else agentLoop fuel' env userText modelFamily iterationCount allResults
                             currentSummary
        end
    end
  else mret (ExitLoop iterationCount allResults currentSummary).

(** [initialResults ? [...initialResults] : []] *)
Definition copyOrEmpty (initialResults : option History) : History :=
  match initialResults with Some rs => rs | None => [] end.

(** [runAgentLoop] *)
Definition runAgentLoop (env : Env) (userText modelFamily : string)
           (initialResults : option History) : M unit :=
  let allResults := copyOrEmpty initialResults in
  exit ← agentLoop MAX_ITERATIONS env userText modelFamily 0 allResults "";
  match exit with
  | ExitReturn => mret tt
  | OutOfFuel => stuck
  | ExitLoop iterationCount allResults currentSummary =>
      (if (MAX_ITERATIONS <=? iterationCount)%nat
       then emit (EvMarkdown MdMaxIterations) else mret tt);;
      formatWithLm env userText currentSummary allResults modelFamily;;
      mret tt
  end.

(** [/^(confirm|yes|proceed|ok)$/i] and [/^(cancel|no|stop)$/i] *)
Definition reAffirmative : list Atom := [Bol; Alt true ["confirm"; "yes"; "proceed"; "ok"]; Eol].
Definition reNegative : list Atom := [Bol; Alt true ["cancel"; "no"; "stop"]; Eol].
Definition isAffirmative (userText : string) : bool := test true reAffirmative userText.
Definition isNegative (userText : string) : bool := test true reNegative userText.

(** The [for] loop of [handlePendingAction]: the extended [results] *)
Fixpoint executePendingCalls (calls : list ToolCall) (cfg : ExtensionConfig)
         (results : History) : M History :=
  match calls with
  | [] => mret results
  | call :: rest =>
      r ← executeTool call (allowedNamespaces cfg) (allowedImages cfg) (maxReplicas cfg);
      executePendingCalls rest cfg (results ++ [r])
  end.

(** [handlePendingAction] *)
Definition handlePendingAction (env : Env) (userText : string) (pending : PendingAction)
           (modelFamily : string) : M bool :=
  if isAffirmative userText then
    emit (EvMarkdown MdConfirmed);;
    results ← executePendingCalls (pendingToolCalls pending) (cfg env)
                                  (priorResults pending);
    deletePending (sessionKey env);;
    if negb (done (plan pending)) then
      runAgentLoop env (originalUserText pending) modelFamily (Some results);;
      mret true
    else
      formatWithLm env (originalUserText pending) (summary (plan pending)) results
                   modelFamily;;
      mret true
  else if isNegative userText then
    deletePending (sessionKey env);;
    emit (EvMarkdown MdCancelled);;
    mret true
  else mret false.

(** [handleChatRequest]: one user turn *)
Definition handleChatRequest (env : Env) (request : Request) : M unit :=
  let userText := trim (prompt request) in
  if isEmpty userText then emit (EvMarkdown MdHelp)
  else
    match kubeConfigError env with
    | Some e => emit (EvMarkdown (MdKubeconfigFailed (message e)))
    | None =>
        pending ← getPending (sessionKey env);
        handled ← match pending with
                  | Some pending =>
                      handlePendingAction env userText pending (modelFamily request)
                  | None => mret false
                  end;
        if handled : bool then mret tt
        else runAgentLoop env userText (modelFamily request) None
    end.

End Orchestrator.

(* ===================================================================== *)
(** ** A concrete instance of the collaborators

    Used to run the program on explicit inputs. [Demo.parse] reads JSON
    (integers, strings with the escapes for quote, backslash and newline);
    [Demo.repair] stands in for the [jsonrepair] package on the inputs of
    the examples: it drops a comma before a closing bracket and code
    fences around the document. *)
(* ===================================================================== *)

Module Demo.

Definition quote : ascii := ascii_of_N 34.
Definition backslash : ascii := ascii_of_N 92.


Inductive Token :=
| TLBrace | TRBrace | TLBracket | TRBracket | TColon | TComma
| TString (s : string) | TNumber (z : Z) | TLit (v : JsVal) | TFence.

(** After an opening quote: the string and the text after its end. *)
Fixpoint lexString (s acc : string) : option (string * string) :=
  match s with
  | EmptyString => None
  | String c s' =>
      if Ascii.eqb c quote then Some (acc, s')
      else if Ascii.eqb c backslash then
        match s' with
        | String e s'' =>
            if Ascii.eqb e "n"
            then lexString s'' (acc +:+ String (ascii_of_N 10) EmptyString)
            else if Ascii.eqb e quote || Ascii.eqb e backslash
            then lexString s'' (acc +:+ String e EmptyString)
            else None
        | EmptyString => None
        end
      else lexString s' (acc +:+ String c EmptyString)
  end.

Fixpoint lexDigits (s acc : string) : string * string :=
  match s with
  | String c s' => if isDigit c then lexDigits s' (acc +:+ String c EmptyString) else (acc, s)
  | EmptyString => (acc, s)
  end.

Fixpoint tokenize (fuel : nat) (s : string) : option (list Token) :=
  match fuel with
  | O => None
  | S fuel' =>
      let next (t : Token) (rest : string) := ts ← tokenize fuel' rest; Some (t :: ts) in
      match s with
      | EmptyString => Some []
      | String c s' =>
          if isSpace c then tokenize fuel' s'
          else if Ascii.eqb c "{" then next TLBrace s'
          else if Ascii.eqb c "}" then next TRBrace s'
          else if Ascii.eqb c "[" then next TLBracket s'
          else if Ascii.eqb c "]" then next TRBracket s'
          else if Ascii.eqb c ":" then next TColon s'
          else if Ascii.eqb c "," then next TComma s'
          else if Ascii.eqb c quote then
            match lexString s' "" with
            | Some (str, rest) => next (TString str) rest
            | None => None
            end
          else if isDigit c then
            let '(ds, rest) := lexDigits s "" in next (TNumber (digitsToZ ds)) rest
          else if Ascii.eqb c "-" then
            match lexDigits s' "" with
            | (EmptyString, _) => None
            | (ds, rest) => next (TNumber (- digitsToZ ds)) rest
            end
          else if String.prefix "true" s then next (TLit (JBool true)) (drop 4 s)
          else if String.prefix "false" s then next (TLit (JBool false)) (drop 5 s)
          else if String.prefix "null" s then next (TLit JNull) (drop 4 s)
          else if String.prefix "```" s then next TFence (drop 3 s)
          else None
      end
  end.

Fixpoint parseValue (fuel : nat) (ts : list Token) : option (JsVal * list Token) :=
  match fuel with
  | O => None
  | S fuel' =>
      match ts with
      | TString s :: r => Some (JStr s, r)
      | TNumber z :: r => Some (JNum z, r)
      | TLit v :: r => Some (v, r)
      | TLBracket :: TRBracket :: r => Some (JArr [], r)
      | TLBracket :: r => parseElements fuel' r []
      | TLBrace :: TRBrace :: r => Some (JObj [], r)
      | TLBrace :: r => parseMembers fuel' r []
      | _ => None
      end
  end
with parseElements (fuel : nat) (ts : list Token) (acc : list JsVal)
  : option (JsVal * list Token) :=
  match fuel with
  | O => None
  | S fuel' =>
      match parseValue fuel' ts with
      | Some (v, TComma :: r) => parseElements fuel' r (acc ++ [v])
      | Some (v, TRBracket :: r) => Some (JArr (acc ++ [v]), r)
      | _ => None
      end
  end
with parseMembers (fuel : nat) (ts : list Token) (acc : JsObject)
  : option (JsVal * list Token) :=
  match fuel with
  | O => None
  | S fuel' =>
      match ts with
      | TString k :: TColon :: r =>
          match parseValue fuel' r with
          | Some (v, TComma :: r') => parseMembers fuel' r' (setField acc k v)
          | Some (v, TRBrace :: r') => Some (JObj (setField acc k v), r')
          | _ => None
          end
      | _ => None
      end
  end.

Definition syntaxError : Exn := Error "Unexpected token in JSON".

Definition parse (s : string) : Res JsVal :=
  match tokenize (S (String.length s)) s with
  | Some ts =>
      match parseValue (S (length ts)) ts with
      | Some (v, []) => inr v
      | _ => inl syntaxError
      end
  | None => inl syntaxError
  end.

Fixpoint repairTokens (ts : list Token) : list Token :=
  match ts with
  | [] => []
  | TFence :: r => repairTokens r
  | TComma :: r =>
      match r with
      | TRBrace :: _ | TRBracket :: _ => repairTokens r
      | _ => TComma :: repairTokens r
      end
  | t :: r => t :: repairTokens r
  end.

Fixpoint escape (s : string) : string :=
  match s with
  | EmptyString => EmptyString
  | String c s' =>
      if Ascii.eqb c quote || Ascii.eqb c backslash then String backslash (String c (escape s'))
      else if Ascii.eqb c (ascii_of_N 10) then String backslash (String "n" (escape s'))
      else String c (escape s')
  end.

Definition printToken (t : Token) : string :=
  match t with
  | TLBrace => "{" | TRBrace => "}" | TLBracket => "[" | TRBracket => "]"
  | TColon => ":" | TComma => ","
  | TString s => String quote (escape s +:+ String quote EmptyString)
  | TNumber z => pretty z
  | TLit v => toString v
  | TFence => "```"
  end.

Definition repair (s : string) : Res string :=
  match tokenize (S (String.length s)) s with
  | Some ts => inr (String.concat "" (List.map printToken (repairTokens ts)))
  | None => inl (Error "Unexpected character")
  end.

(** The cluster counts the invocations it has served. It rejects the
    deletion of a deployment and answers every other call with a small
    body. *)
Definition body : JsVal :=
  JObj [("metadata", JObj [("name", JStr "demo")]); ("items", JArr [])].

Definition serve (call : ApiCall) (served : nat) : Res JsVal * nat :=
  (match method call with
   | AppsV1_deleteNamespacedDeployment => inl (Error "deployments.apps not found")
   | _ => inr body
   end, S served).

(** The language model answers with the texts of a script, one per
    request, each in one fragment; after the script, with nothing. Only
    the family [none] has no model. *)
Definition models (family : string) (script : list string)
  : Res (option (list Model)) * list string :=
  (inr (Some (if String.eqb family "none" then [] else ["copilot"])), script).

Definition answer (model : Model) (messages : list Message) (script : list string)
  : Res Response * list string :=
  match script with
  | [] => (inr {| chunks := []; failure := None |}, [])
  | text :: rest => (inr {| chunks := [text]; failure := None |}, rest)
  end.

Definition collaborators : Collaborators := {|
  Cluster := nat;
  Oracle := list string;
  backend := serve;
  selectChatModels := models;
  sendRequest := answer;
  jsonrepair := repair;
  JSON_parse := parse
|}.

Definition world (script : list string) : @World collaborators :=
  @Build_World collaborators ∅ 0%nat script.

Definition config : ExtensionConfig :=
  {| defaultNamespace := "dev"; allowedNamespaces := {["dev"; "qa"]};
     maxReplicas := 20; allowedImages := ["nginx:"] |}.

Definition env : @Env :=
  {| cfg := config; kubeConfigError := None; sessionKey := "no-workspace"; lm := true |}.

Definition say (text : string) : Request := {| prompt := text; modelFamily := "gpt-4o" |}.

(** A conversation: the turns in order, each from the state the one
    before left. The events of each turn, and the final state. *)
Fixpoint converse (turns : list Request) (w : @World collaborators)
  : list (list Event) * @World collaborators :=
  match turns with
  | [] => ([], w)
  | r :: rest =>
      let '(_, w1, evs) := handleChatRequest (C := collaborators) env r w in
      let '(evss, w2) := converse rest w1 in
      (evs :: evss, w2)
  end.

(** A second cluster, which holds a service and a deployment named [web]
    and three namespaces, one of them without a name: it answers a read
    with the stored object, the listing of namespaces with these three, and
    a replacement with the object it is sent. *)
Definition webService : JsVal :=
  JObj [("metadata", JObj [("name", JStr "web"); ("namespace", JStr "dev")]);
        ("spec",
         JObj [("type", JStr "ClusterIP");
               ("selector", JObj [("app", JStr "web")]);
               ("ports", JArr [JObj [("port", JNum 8080)]; JObj [("port", JNum 9090)]])])].

Definition webDeployment : JsVal :=
  JObj [("metadata", JObj [("name", JStr "web"); ("namespace", JStr "dev")]);
        ("spec",
         JObj [("replicas", JNum 1);
               ("template",
                JObj [("spec",
                       JObj [("containers",
                              JArr [JObj [("name", JStr "main");
                                          ("image", JStr "nginx:1.25")];
                                    JObj [("name", JStr "sidecar");
                                          ("image", JStr "envoy:1.30")]])])])])].

Definition namespaceList : JsVal :=
  JObj [("items",
         JArr [JObj [("metadata", JObj [("name", JStr "dev")])];
               JObj [("metadata", JObj [])];
               JObj [("metadata", JObj [("name", JStr "qa")])]])].

Definition stock (call : ApiCall) (served : nat) : Res JsVal * nat :=
  (match method call with
   | CoreV1_listNamespace => inr namespaceList
   | CoreV1_readNamespacedService => inr webService
   | AppsV1_readNamespacedDeployment => inr webDeployment
   | CoreV1_replaceNamespacedService | AppsV1_replaceNamespacedDeployment =>
       inr (nth 2 (params call) JUndefined)
   | _ => inr body
   end, S served).

Definition stocked : Collaborators := {|
  Cluster := nat;
  Oracle := list string;
  backend := stock;
  selectChatModels := models;
  sendRequest := answer;
  jsonrepair := repair;
  JSON_parse := parse
|}.

Definition shop : @World stocked := @Build_World stocked ∅ 0%nat [].

End Demo.


(* ===================================================================== *)
(** ** Vocabulary of the properties *)
(* ===================================================================== *)

(** The calls [executeTool] was entered with, the backend invocations and
    the markdown written to the stream, each in order. *)
Definition executed (evs : list Event) : list ToolCall :=
  omap (fun e => match e with EvExecuteTool c => Some c | _ => None end) evs.

Definition invoked (evs : list Event) : list ApiCall :=
  omap (fun e => match e with EvApi c => Some c | _ => None end) evs.

Definition streamed (evs : list Event) : list Markdown :=
  omap (fun e => match e with EvMarkdown md => Some md | _ => None end) evs.

(** A mutating invocation: [executeTool] entered with a mutating tool, or
    a backend method that creates, patches, replaces or deletes. *)
Definition isMutatingEvent (e : Event) : bool :=
  match e with
  | EvExecuteTool c => isMutating (tool c)
  | EvApi c => apiMutates (method c)
  | _ => false
  end.

Definition isPlanEvent (e : Event) : bool :=
  match e with EvPlanWithLm _ _ => true | _ => false end.

(** The number of planner calls in a trace. *)
Definition planCalls (evs : list Event) : nat := length (List.filter isPlanEvent evs).

(** The turn reported a planning failure; the turn suspended on a
    confirmation prompt. *)
Definition planFailed (evs : list Event) : bool :=
  existsb (fun e => match e with EvMarkdown (MdPlanFailed _) => true | _ => false end) evs.

Definition suspended (evs : list Event) : bool :=
  existsb (fun e => match e with EvMarkdown (MdPlannedChanges _ _) => true | _ => false end) evs.

(** The events of a confirmation prompt. *)
Definition promptEvents (summary : string) (mutatingCalls : list ToolCall) : list Event :=
  [EvMarkdown (MdPlannedChanges summary mutatingCalls);
   EvButton "kubeCopilot.kube.confirm" "Confirm";
   EvButton "kubeCopilot.kube.cancel" "Cancel"].

(** The events after the loop of [runAgentLoop] when it was left with
    iteration count [n], summary [s] and results [rs]: the notice if the
    count has reached the maximum, then one formatter call, whose own
    events are [fevs]. *)
Definition afterLoop (n : nat) (userText s : string) (rs : History) (fevs : list Event)
  : list Event :=
  (if (MAX_ITERATIONS <=? n)%nat then [EvMarkdown MdMaxIterations] else [])
  ++ EvFormatWithLm userText s rs :: fevs.

(** The events of one [executeTool]: its entry, then backend invocations. *)
Definition toolBlock (call : ToolCall) (block : list Event) : Prop :=
  exists apis, block = EvExecuteTool call :: List.map EvApi apis.

(** A text with its ASCII capitals lowered: the comparison key of a
    case-insensitive match against lowercase ASCII words. *)
Fixpoint lowerAscii (s : string) : string :=
  match s with
  | EmptyString => EmptyString
  | String c s' => String (asciiLower c) (lowerAscii s')
  end.

(** The text is one of the words, up to ASCII case. *)
Definition oneOf (words : list string) (text : string) : bool :=
  existsb (String.eqb (lowerAscii text)) words.



(** The lowercased request text matches a pattern of [fallbackPlan]. *)
Definition recognized (text : string) : bool :=
  includes text "namespace" && (includes text "list" || includes text "what")
  || includes text "pod" && includes text "all"
  || includes text "deploy" && includes text "nginx"
  || bool_decide (is_Some (matchGroups reCreateDeployment text))
  || bool_decide (is_Some (matchGroups reUpdateImage text))
  || bool_decide (is_Some (matchGroups reDeleteDeployment text))
  || includes text "deployment" && (includes text "list" || includes text "show")
  || bool_decide (is_Some (matchGroups reCreateService text))
  || bool_decide (is_Some (matchGroups reUpdateService text))
  || bool_decide (is_Some (matchGroups reGetService text))
  || includes text "service" && (includes text "list" || includes text "show")
  || bool_decide (is_Some (matchGroups reScale text)).

(** The three components of a run. *)
Definition outcomeOf {W A} (r : Outcome A * W * list Event) : Outcome A := r.1.1.
Definition stateOf {W A} (r : Outcome A * W * list Event) : W := r.1.2.
Definition eventsOf {W A} (r : Outcome A * W * list Event) : list Event := r.2.

(** Properties of a computation, for every state it is run from:
    [keeps P m], it leaves [pendingBySession] as it is and all its events
    satisfy [P]; [proceeds m], it does not get stuck; [answers call m], it
    throws or returns a successful result for [call]. *)
Definition keeps `{C : Collaborators} {A} (P : Event -> bool) (m : M A) : Prop :=
  forall w, pendingBySession (stateOf (m w)) = pendingBySession w
            /\ forallb P (eventsOf (m w)) = true.

Definition proceeds `{C : Collaborators} {A} (m : M A) : Prop :=
  forall w, outcomeOf (m w) <> Stuck.

Definition answers `{C : Collaborators} (call : ToolCall) (m : M (option ToolResult)) : Prop :=
  forall w, match outcomeOf (m w) with
            | Returned (Some r) => rtool r = tool call /\ rargs r = args call /\ rok r = true
            | Returned None => False
            | Threw _ => True
            | Stuck => False
            end.

(** The state with the session's record removed. *)
Definition cleared `{C : Collaborators} (env : Env) (w : World) : World :=
  {| pendingBySession := delete (sessionKey env) (pendingBySession w);
     cluster := cluster w; oracle := oracle w |}.

(** The state in which [p] is the session's stored record. *)
Definition awaiting `{C : Collaborators} (env : Env) (p : PendingAction) (w : World) : World :=
  {| pendingBySession := <[sessionKey env := p]> (pendingBySession w);
     cluster := cluster w; oracle := oracle w |}.

(** The result the [catch] of [executeTool] builds from a thrown value. *)
Definition failed (call : ToolCall) (e : Exn) : ToolResult :=
  {| rtool := tool call; rargs := args call; rok := false; result := JStr (message e) |}.

Definition noEvent (e : Event) : bool := false.

Definition isApiEvent (e : Event) : bool :=
  match e with EvApi _ => true | _ => false end.

Definition isReadEvent (e : Event) : bool :=
  match e with EvApi c => negb (apiMutates (method c)) | _ => false end.

Definition notMutating (e : Event) : bool := negb (isMutatingEvent e).

(** Entries into [executeTool] and calls to the collaborators. *)
Definition isWorkEvent (e : Event) : bool :=
  match e with EvExecuteTool _ | EvApi _ | EvSendRequest _ _ => true | _ => false end.

Definition isToolEvent (e : Event) : bool :=
  match e with EvExecuteTool _ | EvApi _ => true | _ => false end.

(** The result [executeTool] hands back for a call: one for that call when
    the identifier is in the enumeration, [undefined] otherwise. *)
Definition resultFor (call : ToolCall) (r : option ToolResult) : Prop :=
  match toolOfString (tool call) with
  | Some _ => exists tr, r = Some tr /\ rtool tr = tool call /\ rargs tr = args call
  | None => r = None
  end.

Definition isOracleEvent (e : Event) : bool :=
  match e with EvSendRequest _ _ => true | _ => false end.

Definition isChunkOrOracleEvent (e : Event) : bool :=
  match e with EvSendRequest _ _ | EvMarkdown (MdChunk _) => true | _ => false end.

(** The text a part of a response's [content] contributes to
    [extractTextFromLmResponse]: the [text] of a part of type [text] when
    it is a string. *)
Definition textPart (c : JsVal) : option string :=
  if strictEqStr (prop c "type") "text"
  then match prop c "text" with JStr text => Some text | _ => None end
  else None.

(** A computation that leaves at most [n] events, from every state. *)
Definition atMost `{C : Collaborators} {A} (n : nat) (m : M A) : Prop :=
  forall w, (length (eventsOf (m w)) <= n)%nat.

(** A computation that leaves a component of the state as it is. *)
Definition leaves `{C : Collaborators} {A X} (component : World -> X) (m : M A) : Prop :=
  forall w, component (stateOf (m w)) = component w.



(** The calls are run one after the other by [executeTool], each from the
    state the one before it left: [results] are what the calls returned,
    [blocks] the events of each, and [w'] is the state after the last. *)
Fixpoint ranInOrder `{C : Collaborators} (cfg : ExtensionConfig) (calls : list ToolCall)
         (w : World) (results : History) (blocks : list (list Event)) (w' : World) : Prop :=
  match calls, results, blocks with
  | [], [], [] => w' = w
  | call :: calls', r :: results', block :: blocks' =>
      exists w1,
        executeTool call (allowedNamespaces cfg) (allowedImages cfg) (maxReplicas cfg) w =
        (Returned r, w1, block)
        /\ ranInOrder cfg calls' w1 results' blocks' w'
  | _, _, _ => False
  end.




(* ===================================================================== *)
(** ** The fallback planner *)
(* ===================================================================== *)

Lemma fallbackPlan_unrecognized (userText ns : string) :
  recognized (toLowerCase userText) = false ->
  fallbackPlan userText ns [] = inl (Error "Unable to understand request").
Proof.
  unfold recognized, fallbackPlan. cbn [podsOfNamespaces mbind Res_bind].
  intros H.
  repeat (apply orb_false_elim in H; destruct H as [H ?]).
  repeat match goal with
         | H : bool_decide (is_Some ?x) = false |- _ =>
             apply bool_decide_eq_false in H; destruct x eqn:?;
             [exfalso; apply H; eauto | clear H]
         end.
  repeat match goal with
         | H : ?b = false |- context [if ?b then _ else _] => rewrite H
         end.
  reflexivity.
Qed.

Lemma fallbackPlan_recognized (userText ns : string) :
  fallbackPlan userText ns [] = inl (Error "Unable to understand request") ->
  recognized (toLowerCase userText) = false.
Proof.
  unfold recognized, fallbackPlan. cbn [podsOfNamespaces mbind Res_bind].
  intros H.
  repeat match type of H with
         | (if ?b then _ else _) = _ => destruct b eqn:?; [discriminate H|]
         | match ?x with Some _ => _ | None => _ end = _ =>
             destruct x eqn:?; [discriminate H|]
         end.
  cbn. repeat rewrite bool_decide_eq_false_2 by (intros [? ?]; discriminate).
  reflexivity.
Qed.

(** C9. The fallback planner is a function of the request text, the default
    namespace and the prior results alone (it takes no other argument and
    reads no state). On "What namespaces exist?" with an empty history it
    plans exactly one [listNamespaces] call with empty arguments and
    [done = true]; on "scale payments-api to 3" it plans exactly one
    [scaleDeployment] call with name [payments-api], 3 replicas and the
    default namespace, and [done = true] (for every history whose first
    entry is a result); an input is rejected with the error
    "Unable to understand request" on an empty history exactly when it
    matches no pattern. *)
Theorem fallbackPlan_examples :
  (forall ns : string,
      fallbackPlan "What namespaces exist?" ns [] =
      inr {| summary := "List all namespaces";
             toolCalls := [{| tool := "listNamespaces"; args := [] |}];
             done := true |})
  /\ (forall (ns : string) (prior : History),
         head prior <> Some None ->
         fallbackPlan "scale payments-api to 3" ns prior =
         inr {| summary := "Scale deployment payments-api to 3";
                toolCalls :=
                  [{| tool := "scaleDeployment";
                      args := [("name", JStr "payments-api"); ("namespace", JStr ns);
                               ("replicas", JNum 3)] |}];
                done := true |})
  /\ (forall userText ns : string,
         recognized (toLowerCase userText) = false <->
         fallbackPlan userText ns [] = inl (Error "Unable to understand request")).
Proof.
  split; [|split].
  - intros ns. reflexivity.
  - intros ns prior Hhead.
    destruct prior as [|[r0|] rest]; [reflexivity| |exfalso; apply Hhead; reflexivity].
    unfold fallbackPlan, podsOfNamespaces.
    destruct (String.eqb (rtool r0) "listNamespaces"); reflexivity.
  - intros userText ns. split.
    + apply fallbackPlan_unrecognized.
    + apply fallbackPlan_recognized.
Qed.

Lemma fallbackPlan_examples_witness :
  fallbackPlan "scale payments-api to 3" "dev" [] =
  inr {| summary := "Scale deployment payments-api to 3";
         toolCalls :=
           [{| tool := "scaleDeployment";
               args := [("name", JStr "payments-api"); ("namespace", JStr "dev");
                        ("replicas", JNum 3)] |}];
         done := true |}
  /\ fallbackPlan "Is my-app healthy?" "dev" [] =
     inl (Error "Unable to understand request").
Proof.
  split.
  - apply (proj1 (proj2 fallbackPlan_examples) "dev" []). discriminate.
  - apply (proj1 (proj2 (proj2 fallbackPlan_examples) "Is my-app healthy?" "dev")).
    reflexivity.
Defined.

(* ===================================================================== *)
(** ** Reasoning about runs *)
(* ===================================================================== *)

Section Runs.

Context `{C : Collaborators}.
Implicit Types (w : World) (P : Event -> bool).

Lemma run_bind {A B} (m : M A) (f : A -> M B) w :
  (m ≫= f) w =
  match m w with
  | (Returned a, w1, evs1) => let '(o, w2, evs2) := f a w1 in (o, w2, evs1 ++ evs2)
  | (Threw e, w1, evs1) => (Threw e, w1, evs1)
  | (Stuck, w1, evs1) => (Stuck, w1, evs1)
  end.
Proof. reflexivity. Qed.

Lemma run_liftR {A} (r : Res A) w :
  liftR r w = (match r with inl e => Threw e | inr a => Returned a end, w, []).
Proof. destruct r; reflexivity. Qed.

Lemma keeps_ret {A} P (a : A) : keeps P (mret a).
Proof. intros w. split; reflexivity. Qed.

Lemma keeps_throw {A} P e : keeps P (throw (A := A) e).
Proof. intros w. split; reflexivity. Qed.

Lemma keeps_stuck {A} P : keeps P (stuck (A := A)).
Proof. intros w. split; reflexivity. Qed.

Lemma keeps_liftR {A} P (r : Res A) : keeps P (liftR r).
Proof. intros w. rewrite run_liftR. split; reflexivity. Qed.

Lemma keeps_emit P ev : P ev = true -> keeps P (emit ev).
Proof. intros H w. split; [reflexivity|]. cbn. rewrite H. reflexivity. Qed.

Lemma keeps_bind {A B} P (m : M A) (f : A -> M B) :
  keeps P m -> (forall a, keeps P (f a)) -> keeps P (m ≫= f).
Proof.
  intros Hm Hf w. rewrite run_bind.
  destruct (Hm w) as [Hp He]. unfold stateOf, eventsOf in *.
  destruct (m w) as [[[a|e|] w1] evs1]; cbn in *; try (split; assumption).
  destruct (Hf a w1) as [Hp2 He2]. unfold stateOf, eventsOf in *.
  destruct (f a w1) as [[o w2] evs2]; cbn in *.
  split; [congruence|]. rewrite forallb_app, He, He2. reflexivity.
Qed.

Lemma keeps_tryCatch {A} P (m : M A) (h : Exn -> M A) :
  keeps P m -> (forall e, keeps P (h e)) -> keeps P (tryCatch m h).
Proof.
  intros Hm Hh w. unfold tryCatch.
  destruct (Hm w) as [Hp He]. unfold stateOf, eventsOf in *.
  destruct (m w) as [[[a|e|] w1] evs1]; cbn in *; try (split; assumption).
  destruct (Hh e w1) as [Hp2 He2]. unfold stateOf, eventsOf in *.
  destruct (h e w1) as [[o w2] evs2]; cbn in *.
  split; [congruence|]. rewrite forallb_app, He, He2. reflexivity.
Qed.

Lemma keeps_callApi P m ps :
  P (EvApi {| method := m; params := ps |}) = true -> keeps P (callApi m ps).
Proof.
  intros H w. unfold callApi.
  destruct (backend _ _) as [r k]. split; [reflexivity|].
  cbn. rewrite H. reflexivity.
Qed.

Lemma keeps_weaken {A} P Q (m : M A) :
  (forall e, P e = true -> Q e = true) -> keeps P m -> keeps Q m.
Proof.
  intros HPQ Hm w. destruct (Hm w) as [Hp He]. split; [assumption|].
  rewrite forallb_forall in *. auto.
Qed.

Lemma proceeds_ret {A} (a : A) : proceeds (mret a).
Proof. intros w. discriminate. Qed.

Lemma proceeds_throw {A} e : proceeds (throw (A := A) e).
Proof. intros w. discriminate. Qed.

Lemma proceeds_liftR {A} (r : Res A) : proceeds (liftR r).
Proof. intros w. rewrite run_liftR. destruct r; discriminate. Qed.

Lemma proceeds_emit ev : proceeds (emit ev).
Proof. intros w. discriminate. Qed.

Lemma proceeds_callApi m ps : proceeds (callApi m ps).
Proof.
  intros w. unfold callApi, outcomeOf.
  destruct (backend _ _) as [[e|body] k]; discriminate.
Qed.

Lemma proceeds_bind {A B} (m : M A) (f : A -> M B) :
  proceeds m -> (forall a, proceeds (f a)) -> proceeds (m ≫= f).
Proof.
  intros Hm Hf w. rewrite run_bind. specialize (Hm w). unfold outcomeOf in *.
  destruct (m w) as [[[a|e|] w1] evs1]; cbn in *; try discriminate; [|congruence].
  specialize (Hf a w1). unfold outcomeOf in Hf.
  destruct (f a w1) as [[o w2] evs2]. exact Hf.
Qed.

Lemma proceeds_tryCatch {A} (m : M A) (h : Exn -> M A) :
  proceeds m -> (forall e, proceeds (h e)) -> proceeds (tryCatch m h).
Proof.
  intros Hm Hh w. unfold tryCatch. specialize (Hm w). unfold outcomeOf in *.
  destruct (m w) as [[[a|e|] w1] evs1]; cbn in *; try discriminate; [|congruence].
  specialize (Hh e w1). unfold outcomeOf in Hh.
  destruct (h e w1) as [[o w2] evs2]. exact Hh.
Qed.

Lemma answers_throw call e : answers call (throw e).
Proof. intros w. exact I. Qed.

Lemma answers_okM call (r : Res JsVal) options : answers call (okM call r options).
Proof.
  intros w. unfold okM. rewrite run_liftR. unfold outcomeOf. cbn.
  destruct r as [e|v]; cbn; [exact I|].
  unfold ok.
  destruct options as [opts|]; cbn; [|auto].
  destruct (summarizeList opts && truthy v); cbn; [|auto].
  destruct (prop v "items"); cbn; auto.
  destruct (summarizeK8sList _ _); cbn; auto.
Qed.

Lemma answers_bind {A} call (m : M A) (f : A -> M (option ToolResult)) :
  proceeds m -> (forall a, answers call (f a)) -> answers call (m ≫= f).
Proof.
  intros Hm Hf w. rewrite run_bind. specialize (Hm w). unfold outcomeOf in *.
  destruct (m w) as [[[a|e|] w1] evs1]; cbn in *; [|exact I|congruence].
  specialize (Hf a w1). unfold outcomeOf in Hf.
  destruct (f a w1) as [[o w2] evs2]. exact Hf.
Qed.

End Runs.

Create HintDb runs.

#[local] Hint Resolve keeps_ret keeps_throw keeps_stuck keeps_liftR proceeds_ret
  proceeds_throw proceeds_liftR proceeds_emit proceeds_callApi answers_throw
  answers_okM : runs.

(** Chains of equations between the [pendingBySession] of states. *)
Ltac pending_eq :=
  cbn [pendingBySession];
  repeat match goal with
         | H : pendingBySession _ = _ |- _ => rewrite H
         end;
  reflexivity.

(** One step of a proof that a computation has one of the properties
    above: through a bind, a conditional, or a pattern match. *)
Ltac step_run :=
  match goal with
  | |- keeps _ (mbind _ _) => apply keeps_bind; [|intros]
  | |- proceeds (mbind _ _) => apply proceeds_bind; [|intros]
  | |- answers _ (mbind _ _) => apply answers_bind; [|intros]
  | |- keeps _ (tryCatch _ _) => apply keeps_tryCatch; [|intros]
  | |- proceeds (tryCatch _ _) => apply proceeds_tryCatch; [|intros]
  | |- keeps _ (callApi _ _) => apply keeps_callApi; reflexivity
  | |- keeps _ (emit _) => apply keeps_emit; reflexivity
  | |- keeps _ (okM _ _ _) => apply keeps_liftR
  | |- proceeds (okM _ _ _) => apply proceeds_liftR
  | |- _ (if ?b then _ else _) => destruct b
  | |- _ _ (if ?b then _ else _) => destruct b
  | |- _ (match ?x with _ => _ end) => destruct x
  | |- _ _ (match ?x with _ => _ end) => destruct x
  | |- _ => solve [auto with runs]
  end.

(* ===================================================================== *)
(** ** The tool classifier and the dispatcher *)
(* ===================================================================== *)

Lemma toolOfString_Some (s : string) (t : ToolName) :
  toolOfString s = Some t -> s = toolString t.
Proof.
  unfold toolOfString. intros H.
  apply List.find_some in H. destruct H as [_ H].
  apply String.eqb_eq in H. exact H.
Qed.

Lemma toolOfString_toolString (t : ToolName) : toolOfString (toolString t) = Some t.
Proof. destruct t; reflexivity. Qed.

(** Every mutating identifier is a [case] label of the dispatcher. *)
Lemma isMutating_known (s : string) :
  isMutating s = true -> exists t, toolOfString s = Some t.
Proof.
  unfold isMutating. intros H.
  repeat (apply orb_prop in H; destruct H as [H|H]);
    apply String.eqb_eq in H; subst s; eexists; reflexivity.
Qed.

Section Dispatcher.

Context `{C : Collaborators}.
Implicit Types (w : World) (call : ToolCall).

Lemma executeToolBody_unknown call ns imgs mr w :
  toolOfString (tool call) = None ->
  executeToolBody call ns imgs mr w = (Returned None, w, []).
Proof. intros H. unfold executeToolBody. rewrite H. reflexivity. Qed.

Lemma executeToolBody_keeps call ns imgs mr :
  keeps isApiEvent (executeToolBody call ns imgs mr).
Proof.
  unfold executeToolBody.
  destruct (toolOfString (tool call)) as [t|]; [destruct t|]; repeat step_run.
Qed.

Lemma executeToolBody_proceeds call ns imgs mr :
  proceeds (executeToolBody call ns imgs mr).
Proof.
  unfold executeToolBody.
  destruct (toolOfString (tool call)) as [t|]; [destruct t|]; repeat step_run.
Qed.

Lemma executeToolBody_answers call ns imgs mr t :
  toolOfString (tool call) = Some t ->
  answers call (executeToolBody call ns imgs mr).
Proof.
  intros Ht. unfold executeToolBody. rewrite Ht.
  destruct t; repeat step_run.
Qed.

(** A tool that is not mutating reaches the backend through reading
    methods only. *)
Lemma executeToolBody_readonly call ns imgs mr :
  isMutating (tool call) = false ->
  keeps isReadEvent (executeToolBody call ns imgs mr).
Proof.
  intros Hm. unfold executeToolBody.
  destruct (toolOfString (tool call)) as [t|] eqn:Ht; [|repeat step_run].
  apply toolOfString_Some in Ht. rewrite Ht in Hm.
  destruct t; try discriminate Hm; repeat step_run.
Qed.

End Dispatcher.

Section DispatcherTheorems.

Context `{C : Collaborators}.
Implicit Types (w : World) (call : ToolCall).

Lemma executeTool_run call ns imgs mr w :
  executeTool call ns imgs mr w =
  match executeToolBody call ns imgs mr w with
  | (Returned res, w1, evs) => (Returned res, w1, EvExecuteTool call :: evs)
  | (Threw e, w1, evs) => (Returned (Some (failed call e)), w1, EvExecuteTool call :: evs)
  | (Stuck, w1, evs) => (Stuck, w1, EvExecuteTool call :: evs)
  end.
Proof.
  unfold executeTool. rewrite run_bind. cbn. unfold tryCatch.
  destruct (executeToolBody call ns imgs mr w) as [[[res|e|] w1] evs]; cbn;
    rewrite ?app_nil_r; reflexivity.
Qed.

Lemma executeTool_events call ns imgs mr w :
  eventsOf (executeTool call ns imgs mr w) =
  EvExecuteTool call :: eventsOf (executeToolBody call ns imgs mr w).
Proof.
  rewrite executeTool_run.
  destruct (executeToolBody call ns imgs mr w) as [[[res|e|] w1] evs]; reflexivity.
Qed.

Lemma silent_events {A} (m : M A) w : keeps noEvent m -> eventsOf (m w) = [].
Proof.
  intros H. destruct (H w) as [_ He].
  destruct (eventsOf (m w)); [reflexivity|discriminate He].
Qed.

Lemma events_callApi_then {A} m ps (k : JsVal -> M A) w :
  (forall body, keeps noEvent (k body)) ->
  eventsOf ((callApi m ps ≫= k) w) = [EvApi {| method := m; params := ps |}].
Proof.
  intros Hk. rewrite run_bind. unfold callApi.
  destruct (backend _ _) as [[e|body] k']; [reflexivity|].
  match goal with |- context [k body ?w1] =>
    pose proof (silent_events (k body) w1 (Hk body)) as Hs;
    unfold eventsOf in *; destruct (k body w1) as [[o w2] evs2] end.
  cbn in *. rewrite Hs. reflexivity.
Qed.

Lemma api_events (evs : list Event) :
  forallb isApiEvent evs = true -> evs = List.map EvApi (invoked evs).
Proof.
  induction evs as [|[] evs IH]; cbn; intros H; try discriminate; [reflexivity|].
  unfold invoked in *. cbn. f_equal. apply IH. exact H.
Qed.

(** The events of one [executeTool] are its entry and then backend
    invocations only, and it leaves [pendingBySession] alone. *)
Lemma executeTool_block call ns imgs mr w :
  toolBlock call (eventsOf (executeTool call ns imgs mr w))
  /\ pendingBySession (stateOf (executeTool call ns imgs mr w)) = pendingBySession w.
Proof.
  destruct (executeToolBody_keeps call ns imgs mr w) as [Hp He].
  split.
  - rewrite executeTool_events. eexists. f_equal. apply api_events. exact He.
  - rewrite executeTool_run. unfold stateOf in *.
    destruct (executeToolBody call ns imgs mr w) as [[[res|e|] w1] evs]; exact Hp.
Qed.

(** [executeTool] always returns. On an identifier of the enumeration it
    returns a result for the call: the one its [switch] returned, or the
    failure built from what the [switch] threw. *)
Lemma executeTool_returns call ns imgs mr w :
  exists res,
    outcomeOf (executeTool call ns imgs mr w) = Returned res
    /\ match toolOfString (tool call) with
       | None => res = None
       | Some _ =>
           exists r, res = Some r /\ rtool r = tool call /\ rargs r = args call
                     /\ match outcomeOf (executeToolBody call ns imgs mr w) with
                        | Returned res' => res' = Some r /\ rok r = true
                        | Threw e => r = failed call e
                        | Stuck => False
                        end
       end.
Proof.
  rewrite executeTool_run.
  destruct (toolOfString (tool call)) as [t|] eqn:Ht.
  - pose proof (executeToolBody_answers call ns imgs mr t Ht w) as Ha.
    unfold outcomeOf in *.
    destruct (executeToolBody call ns imgs mr w) as [[[[r|]|e|] w1] evs]; cbn in *;
      try contradiction.
    + destruct Ha as (? & ? & ?). eexists; split; [reflexivity|].
      exists r. auto.
    + eexists; split; [reflexivity|]. exists (failed call e). auto.
  - rewrite executeToolBody_unknown by exact Ht. eexists; split; reflexivity.
Qed.

End DispatcherTheorems.

(** C2. The namespace allow-list is not enforced by [executeTool]: with
    [allowedNamespaces = {dev, qa}], a read call and a mutating call that
    target the namespace [prod] both reach the backend, from every state
    and for every cluster; on the concrete cluster of [Demo] the mutating
    call comes back with [ok = true]. *)
Theorem namespace_allowlist_not_enforced :
  let allowed : gset string := {["dev"; "qa"]} in
  let podList := {| tool := "listNamespacedPod"; args := [("namespace", JStr "prod")] |} in
  let podCreate :=
    {| tool := "createPod";
       args := [("namespace", JStr "prod"); ("name", JStr "web");
                ("image", JStr "nginx:1.27")] |} in
  (forall (C : Collaborators) (w : World) imgs mr,
      invoked (eventsOf (executeTool podList allowed imgs mr w)) =
      [{| method := CoreV1_listNamespacedPod;
          params := [JStr "prod"; JUndefined; JUndefined; JUndefined; JUndefined;
                     JUndefined; JNum 50] |}])
  /\ (forall (C : Collaborators) (w : World) imgs mr,
         List.map method (invoked (eventsOf (executeTool podCreate allowed imgs mr w))) =
         [CoreV1_createNamespacedPod]
         /\ List.map (fun c => head (params c))
                     (invoked (eventsOf (executeTool podCreate allowed imgs mr w))) =
            [Some (JStr "prod")])
  /\ outcomeOf (executeTool (C := Demo.collaborators) podCreate allowed ["nginx:"] 20
                            (Demo.world [])) =
     Returned (Some {| rtool := "createPod"; rargs := args podCreate; rok := true;
                       result := JObj [("name", JStr "demo")] |}).
Proof.
  intros allowed podList podCreate. generalize allowed as ns. intros ns.
  split; [|split].
  - intros C w imgs mr. rewrite executeTool_events.
    unfold executeToolBody.
    change (toolOfString (tool podList)) with (Some listNamespacedPod). cbv iota beta.
    rewrite events_callApi_then by (intros; apply keeps_liftR).
    reflexivity.
  - intros C w imgs mr. rewrite executeTool_events.
    unfold executeToolBody.
    change (toolOfString (tool podCreate)) with (Some createPod).
    cbv iota beta.
    rewrite events_callApi_then by (intros; apply keeps_liftR).
    split; reflexivity.
  - vm_compute. reflexivity.
Qed.

(** C3. The image allow-list is not enforced on [createPod]: with
    [allowedImages = ["nginx:"]], a [createPod] call with image
    [redis:latest] reaches the backend, from every state and for every
    cluster, and on the concrete cluster of [Demo] it comes back with
    [ok = true]. The sibling case [updateDeployment] does enforce the
    list: the same image in a patch is refused with "Image not allowed"
    before any backend invocation. *)
Theorem image_allowlist_not_enforced_on_createPod :
  let imgs := ["nginx:"] in
  let podCreate :=
    {| tool := "createPod";
       args := [("namespace", JStr "dev"); ("name", JStr "cache");
                ("image", JStr "redis:latest")] |} in
  let deploymentPatch :=
    {| tool := "updateDeployment";
       args :=
         [("namespace", JStr "dev"); ("name", JStr "cache");
          ("patch",
           JObj [("spec",
                  JObj [("template",
                         JObj [("spec",
                                JObj [("containers",
                                       JArr [JObj [("name", JStr "main");
                                                   ("image", JStr "redis:latest")]])])])])])] |} in
  (forall (C : Collaborators) (w : World) ns mr,
      List.map method (invoked (eventsOf (executeTool podCreate ns imgs mr w))) =
      [CoreV1_createNamespacedPod])
  /\ (forall (C : Collaborators) (w : World) ns mr,
         executeTool deploymentPatch ns imgs mr w =
         (Returned (Some (failed deploymentPatch (Error "Image not allowed"))), w,
          [EvExecuteTool deploymentPatch]))
  /\ outcomeOf (executeTool (C := Demo.collaborators) podCreate {["dev"; "qa"]} imgs 20
                            (Demo.world [])) =
     Returned (Some {| rtool := "createPod"; rargs := args podCreate; rok := true;
                       result := JObj [("name", JStr "demo")] |}).
Proof.
  intros imgs podCreate deploymentPatch.
  split; [|split].
  - intros C w ns mr. rewrite executeTool_events.
    unfold executeToolBody.
    change (toolOfString (tool podCreate)) with (Some createPod). cbv iota beta.
    rewrite events_callApi_then by (intros; apply keeps_liftR).
    reflexivity.
  - intros C w ns mr. rewrite executeTool_run. reflexivity.
  - generalize ({["dev"; "qa"]} : gset string) as ns. intros ns. vm_compute. reflexivity.
Qed.

(** C6, as stated, fails: on a tool identifier outside the enumeration no
    [case] of the [switch] matches and [executeTool] returns [undefined],
    not a [ToolResult]. *)
Lemma executeTool_unknown_tool_returns_undefined :
  let call := {| tool := "deletePod";
                 args := [("namespace", JStr "dev"); ("name", JStr "web")] |} in
  outcomeOf (executeTool (C := Demo.collaborators) call {["dev"; "qa"]} ["nginx:"] 20
                         (Demo.world [])) = Returned None
  /\ ~ (exists r : ToolResult,
          outcomeOf (executeTool (C := Demo.collaborators) call {["dev"; "qa"]} ["nginx:"] 20
                                 (Demo.world [])) = Returned (Some r)).
Proof.
  intros call. generalize ({["dev"; "qa"]} : gset string) as ns. intros ns.
  assert (H : outcomeOf (executeTool (C := Demo.collaborators) call ns ["nginx:"] 20
                                     (Demo.world [])) = Returned None)
    by (vm_compute; reflexivity).
  split; [exact H|]. intros [r Hr]. rewrite H in Hr. discriminate Hr.
Qed.

(** C6, amended. [executeTool] never raises past its own boundary: from
    every state it returns. For every call whose tool identifier is in the
    operation enumeration it returns a [ToolResult] for that call: the
    successful one of its [switch], or, for every failure of the [switch]
    (backend error, policy violation, malformed arguments), the result with
    [ok = false] whose [result] is the error message. For an identifier
    outside the enumeration it returns [undefined]. *)
Theorem executeTool_never_raises `{C : Collaborators}
        (call : ToolCall) (ns : gset string) (imgs : list string) (mr : Z) (w : World) :
  exists res,
    outcomeOf (executeTool call ns imgs mr w) = Returned res
    /\ match toolOfString (tool call) with
       | None => res = None
       | Some _ =>
           exists r, res = Some r /\ rtool r = tool call /\ rargs r = args call
                     /\ match outcomeOf (executeToolBody call ns imgs mr w) with
                        | Returned res' => res' = Some r /\ rok r = true
                        | Threw e =>
                            rok r = false /\ result r = JStr (message e)
                        | Stuck => False
                        end
       end.
Proof.
  destruct (executeTool_returns call ns imgs mr w) as (res & Hres & H).
  exists res. split; [exact Hres|].
  destruct (toolOfString (tool call)); [|exact H].
  destruct H as (r & ? & ? & ? & H). exists r. repeat split; try assumption.
  destruct (outcomeOf (executeToolBody call ns imgs mr w)); [exact H| |exact H].
  subst r. split; reflexivity.
Qed.

(** C7. The raw-dump fallback of [formatWithLm] is returned to the caller,
    not written to the stream, and both callers drop it. Without
    [vscode.lm] the formatter writes nothing, from every state; so does it
    when no model is selected. In the conversation of [Demo], the turn
    that confirms a pending action while no model is available ends with
    the confirmation line as its only output: the results of the executed
    call never reach the user. *)
Theorem formatWithLm_fallback_not_streamed :
  (forall (C : Collaborators) c k s (w : World) userText summary results family,
      formatWithLm {| cfg := c; kubeConfigError := k; sessionKey := s; lm := false |}
                   userText summary results family w =
      (Returned (RawDump results), w, [EvFormatWithLm userText summary results]))
  /\ (forall userText summary results,
         streamed (eventsOf (formatWithLm (C := Demo.collaborators) Demo.env
                                          userText summary results "none"
                                          (Demo.world []))) = []
         /\ outcomeOf (formatWithLm (C := Demo.collaborators) Demo.env
                                    userText summary results "none" (Demo.world [])) =
            Returned (RawDump results))
  /\ (let turns := [Demo.say "deploy nginx";
                    {| prompt := "confirm"; modelFamily := "none" |}] in
      List.map streamed (Demo.converse turns (Demo.world [])).1 =
      [[MdPlannedChanges "Deploy nginx pod"
          [{| tool := "createPod";
              args := [("namespace", JStr "dev"); ("name", JStr "nginx");
                       ("image", JStr "nginx:latest")] |}]];
       [MdConfirmed]]
      /\ List.map executed (Demo.converse turns (Demo.world [])).1 =
         [[{| tool := "getNamespace"; args := [("name", JStr "dev")] |}];
          [{| tool := "createPod";
              args := [("namespace", JStr "dev"); ("name", JStr "nginx");
                       ("image", JStr "nginx:latest")] |}]]).
Proof.
  split; [|split].
  - intros. reflexivity.
  - intros. split; reflexivity.
  - split; vm_compute; reflexivity.
Qed.

(* ===================================================================== *)
(** ** Traces *)
(* ===================================================================== *)

Lemma planCalls_app (a b : list Event) : planCalls (a ++ b) = (planCalls a + planCalls b)%nat.
Proof. unfold planCalls. rewrite List.filter_app, length_app. reflexivity. Qed.

Lemma planFailed_app (a b : list Event) : planFailed (a ++ b) = planFailed a || planFailed b.
Proof. apply existsb_app. Qed.

Lemma suspended_app (a b : list Event) : suspended (a ++ b) = suspended a || suspended b.
Proof. apply existsb_app. Qed.

Lemma executed_app (a b : list Event) : executed (a ++ b) = executed a ++ executed b.
Proof. unfold executed. apply omap_app. Qed.

Lemma streamed_app (a b : list Event) : streamed (a ++ b) = streamed a ++ streamed b.
Proof. unfold streamed. apply omap_app. Qed.

(** Work events are no planner call, no report and no mutation by
    themselves being counted elsewhere. *)
Lemma work_events (evs : list Event) :
  forallb isWorkEvent evs = true ->
  planCalls evs = 0%nat /\ planFailed evs = false /\ suspended evs = false
  /\ streamed evs = [].
Proof.
  induction evs as [|e evs IH]; [intros; repeat split|].
  cbn [forallb]. intros H. apply andb_prop in H. destruct H as [He H].
  destruct (IH H) as (? & ? & ? & ?).
  destruct e; try discriminate He; repeat split; assumption.
Qed.

Lemma forallb_weaken {A} (P Q : A -> bool) (l : list A) :
  (forall x, P x = true -> Q x = true) -> forallb P l = true -> forallb Q l = true.
Proof. rewrite !forallb_forall. auto. Qed.

Lemma toolBlock_events call block :
  toolBlock call block ->
  forallb isToolEvent block = true /\ executed block = [call].
Proof.
  intros [apis ->]. split.
  - cbn. induction apis; [reflexivity|assumption].
  - unfold executed. cbn. f_equal. induction apis; [reflexivity|assumption].
Qed.

Lemma toolBlocks_events calls blocks :
  Forall2 toolBlock calls blocks ->
  forallb isToolEvent (concat blocks) = true /\ executed (concat blocks) = calls.
Proof.
  induction 1 as [|call block calls blocks Hb _ [IH1 IH2]]; [split; reflexivity|].
  destruct (toolBlock_events call block Hb) as [H1 H2].
  cbn [concat]. rewrite forallb_app, executed_app, H1, H2, IH1, IH2. split; reflexivity.
Qed.

(* ===================================================================== *)
(** ** The planner, the formatter and the two execution loops *)
(* ===================================================================== *)

Section Adapters.

Context `{C : Collaborators}.
Implicit Types (w : World) (P : Event -> bool).

Lemma keeps_selectModels P family : keeps P (selectModels family).
Proof.
  intros w. unfold selectModels.
  destruct (selectChatModels _ _) as [r o]. split; reflexivity.
Qed.

Lemma keeps_send P model messages :
  P (EvSendRequest model messages) = true -> keeps P (send model messages).
Proof.
  intros H w. unfold send.
  destruct (sendRequest _ _ _) as [r o]. split; [reflexivity|].
  cbn. rewrite H. reflexivity.
Qed.

Lemma keeps_endOfStream P resp : keeps P (endOfStream resp).
Proof. unfold endOfStream. destruct (failure resp); auto with runs. Qed.

Lemma keeps_conclude {A} P (o : Outcome A) : keeps P (conclude o).
Proof. intros w. split; reflexivity. Qed.

Lemma keeps_streamChunks P cs acc :
  (forall c, P (EvMarkdown (MdChunk c)) = true) -> keeps P (streamChunks cs acc).
Proof.
  intros H. revert acc. induction cs as [|c cs IH]; intros acc; cbn [streamChunks].
  - apply keeps_ret.
  - apply keeps_bind; [apply keeps_emit, H|intros; apply IH].
Qed.

Lemma proceeds_selectModels family : proceeds (selectModels family).
Proof.
  intros w. unfold selectModels, outcomeOf.
  destruct (selectChatModels _ _) as [[e|ms] o]; discriminate.
Qed.

Lemma proceeds_send model messages : proceeds (send model messages).
Proof.
  intros w. unfold send, outcomeOf.
  destruct (sendRequest _ _ _) as [[e|resp] o]; discriminate.
Qed.

Lemma proceeds_endOfStream resp : proceeds (endOfStream resp).
Proof. unfold endOfStream. destruct (failure resp); auto with runs. Qed.

Lemma proceeds_streamChunks cs acc : proceeds (streamChunks cs acc).
Proof.
  revert acc. induction cs as [|c cs IH]; intros acc; cbn [streamChunks].
  - apply proceeds_ret.
  - apply proceeds_bind; [apply proceeds_emit|intros; apply IH].
Qed.

Lemma emit_then {A} ev (m : M A) w :
  exists o w' evs, (emit ev;; m) w = (o, w', ev :: evs) /\ m w = (o, w', evs).
Proof.
  rewrite run_bind. cbn [emit]. destruct (m w) as [[o w'] evs].
  exists o, w', evs. split; reflexivity.
Qed.

(** One planner call: its entry, then requests to the model only. *)
Lemma planWithLm_run env userText ctx prior family w :
  exists o w' oevs,
    planWithLm env userText ctx prior family w =
    (o, w', EvPlanWithLm userText prior :: oevs)
    /\ forallb isOracleEvent oevs = true
    /\ pendingBySession w' = pendingBySession w.
Proof.
  unfold planWithLm.
  match goal with |- context [mbind (fun _ => ?m) _] => set (rest := m) end.
  assert (Hk : keeps isOracleEvent rest).
  { subst rest.
    destruct (negb (lm env)); [apply keeps_throw|].
    apply keeps_bind; [apply keeps_selectModels|]. intros [models|]; [|apply keeps_throw].
    destruct models as [|model ?]; [apply keeps_throw|].
    apply keeps_bind; [apply keeps_send; reflexivity|]. intros resp.
    apply keeps_bind; [apply keeps_endOfStream|]. intros _.
    destruct (isEmpty _); [apply keeps_liftR|apply keeps_conclude]. }
  destruct (emit_then (EvPlanWithLm userText prior) rest w) as (o & w' & evs & -> & Hrest).
  destruct (Hk w) as [Hp He]. rewrite Hrest in Hp, He.
  exists o, w', evs. auto.
Qed.

(** One formatter call: its entry, then requests to the model and
    fragments of its answer only; it never gets stuck. *)
Lemma formatWithLm_run env userText summary results family w :
  exists o w' fevs,
    formatWithLm env userText summary results family w =
    (o, w', EvFormatWithLm userText summary results :: fevs)
    /\ forallb isChunkOrOracleEvent fevs = true
    /\ pendingBySession w' = pendingBySession w
    /\ o <> Stuck.
Proof.
  unfold formatWithLm.
  match goal with |- context [mbind (fun _ => ?m) _] => set (rest := m) end.
  assert (Hk : keeps isChunkOrOracleEvent rest /\ proceeds rest).
  { subst rest.
    destruct (negb (lm env)); [split; auto with runs|].
    split.
    - apply keeps_bind; [apply keeps_selectModels|].
      intros [[|model ?]|]; auto with runs.
      apply keeps_bind; [apply keeps_send; reflexivity|]. intros resp.
      apply keeps_bind; [apply keeps_streamChunks; reflexivity|]. intros ?.
      apply keeps_bind; [apply keeps_endOfStream|]. intros _. apply keeps_ret.
    - apply proceeds_bind; [apply proceeds_selectModels|].
      intros [[|model ?]|]; auto with runs.
      apply proceeds_bind; [apply proceeds_send|]. intros resp.
      apply proceeds_bind; [apply proceeds_streamChunks|]. intros ?.
      apply proceeds_bind; [apply proceeds_endOfStream|]. intros _. apply proceeds_ret. }
  destruct Hk as [Hk Hpr].
  destruct (emit_then (EvFormatWithLm userText summary results) rest w)
    as (o & w' & evs & -> & Hrest).
  destruct (Hk w) as [Hp He]. specialize (Hpr w). rewrite Hrest in Hp, He, Hpr.
  exists o, w', evs. auto.
Qed.

(** The loop that executes calls one after the other and pushes what
    each returns: every call is entered once, in order, whatever the
    calls before it returned; nothing is thrown. *)
Lemma executeReadonlyCalls_run calls cfg rs0 w :
  exists rs blocks w',
    executeReadonlyCalls calls cfg rs0 w = (Returned (rs0 ++ rs), w', concat blocks)
    /\ Forall2 toolBlock calls blocks
    /\ Forall2 resultFor calls rs
    /\ pendingBySession w' = pendingBySession w.
Proof.
  revert rs0 w. induction calls as [|call calls IH]; intros rs0 w.
  - exists [], [], w. cbn. rewrite app_nil_r. repeat split; constructor.
  - cbn [executeReadonlyCalls]. rewrite run_bind.
    destruct (executeTool_returns call (allowedNamespaces cfg) (allowedImages cfg)
                                  (maxReplicas cfg) w) as (res & Hres & Hfor).
    destruct (executeTool_block call (allowedNamespaces cfg) (allowedImages cfg)
                                (maxReplicas cfg) w) as [Hblock Hp].
    unfold outcomeOf, stateOf, eventsOf in *.
    destruct (executeTool call _ _ _ w) as [[o w1] evs1]. cbn [fst snd] in *. subst o.
    destruct (IH (rs0 ++ [res]) w1) as (rs & blocks & w' & Hrun & Hb & Hr & Hp').
    rewrite Hrun. exists (res :: rs), (evs1 :: blocks), w'.
    rewrite <- app_assoc. cbn [concat app].
    split; [reflexivity|]. split; [constructor; assumption|].
    split; [|congruence].
    constructor; [|assumption]. unfold resultFor.
    destruct (toolOfString (tool call)); [|assumption].
    destruct Hfor as (r & ? & ? & ? & _). exists r. auto.
Qed.

Lemma executePendingCalls_eq calls cfg rs0 w :
  executePendingCalls calls cfg rs0 w = executeReadonlyCalls calls cfg rs0 w.
Proof.
  revert rs0 w. induction calls as [|call calls IH]; intros rs0 w; [reflexivity|].
  cbn [executePendingCalls executeReadonlyCalls]. rewrite !run_bind.
  destruct (executeTool call _ _ _ w) as [[[r|e|] w1] evs1]; try reflexivity.
Qed.

(** The same loop, call by call: each call is handed to [executeTool] from
    the state the call before it left, and what it returns is pushed. *)
Lemma executeReadonlyCalls_ranInOrder calls cfg rs0 w :
  exists ros blocks w',
    executeReadonlyCalls calls cfg rs0 w = (Returned (rs0 ++ ros), w', concat blocks)
    /\ ranInOrder cfg calls w ros blocks w'
    /\ Forall2 toolBlock calls blocks
    /\ Forall2 resultFor calls ros
    /\ pendingBySession w' = pendingBySession w.
Proof.
  revert rs0 w. induction calls as [|call calls IH]; intros rs0 w.
  - exists [], [], w. cbn. rewrite app_nil_r. repeat split; constructor.
  - cbn [executeReadonlyCalls]. rewrite run_bind.
    destruct (executeTool_returns call (allowedNamespaces cfg) (allowedImages cfg)
                                  (maxReplicas cfg) w) as (res & Hres & Hfor).
    destruct (executeTool_block call (allowedNamespaces cfg) (allowedImages cfg)
                                (maxReplicas cfg) w) as [Hblock Hp].
    unfold outcomeOf, stateOf, eventsOf in *.
    destruct (executeTool call _ _ _ w) as [[o w1] evs1] eqn:Hcall.
    cbn [fst snd] in *. subst o.
    destruct (IH (rs0 ++ [res]) w1) as (rs & blocks & w' & Hrun & Hchain & Hb & Hr & Hp').
    rewrite Hrun. exists (res :: rs), (evs1 :: blocks), w'.
    rewrite <- app_assoc. cbn [concat app].
    split; [reflexivity|].
    split; [cbn [ranInOrder]; exists w1; split; [exact Hcall|exact Hchain]|].
    split; [constructor; assumption|].
    split; [|congruence].
    constructor; [|assumption]. unfold resultFor.
    destruct (toolOfString (tool call)); [|assumption].
    destruct Hfor as (r & ? & ? & ? & _). exists r. auto.
Qed.

(** With tools that are not mutating, the loop makes no mutating
    invocation. *)
Lemma executeReadonlyCalls_readonly calls cfg rs0 :
  forallb (fun c => negb (isMutating (tool c))) calls = true ->
  keeps notMutating (executeReadonlyCalls calls cfg rs0).
Proof.
  revert rs0. induction calls as [|call calls IH]; intros rs0 H;
    cbn [executeReadonlyCalls]; [apply keeps_ret|].
  cbn [forallb] in H. apply andb_prop in H. destruct H as [Hc H].
  apply keeps_bind; [|intros; apply IH, H].
  unfold executeTool. apply keeps_bind.
  - apply keeps_emit. unfold notMutating. cbn. exact Hc.
  - intros _. apply keeps_tryCatch; [|intros; apply keeps_ret].
    apply keeps_weaken with (P := isReadEvent).
    + intros [] He; try discriminate He. exact He.
    + apply executeToolBody_readonly. apply negb_true_iff. exact Hc.
Qed.

End Adapters.

(* ===================================================================== *)
(** ** The bounded planning loop *)
(* ===================================================================== *)

Section PlanningLoop.

Context `{C : Collaborators}.
Implicit Types (w : World) (env : Env).

(** The planning step of one iteration: a plan, a reported failure, or a
    value that is not a plan. *)
Lemma tryPlan_run env userText rs family w :
  exists oevs w1,
    forallb isOracleEvent oevs = true
    /\ pendingBySession w1 = pendingBySession w
    /\ ((exists plan, tryPlan env userText rs family w =
                      (Returned (Some plan), w1, EvPlanWithLm userText rs :: oevs))
        \/ (exists msg, tryPlan env userText rs family w =
                        (Returned None, w1,
                         (EvPlanWithLm userText rs :: oevs) ++ [EvMarkdown (MdPlanFailed msg)]))
        \/ tryPlan env userText rs family w =
           (Stuck, w1, EvPlanWithLm userText rs :: oevs)).
Proof.
  destruct (planWithLm_run env userText (cfg env) rs family w)
    as (o & w1 & oevs & Hrun & Ho & Hp).
  exists oevs, w1. split; [exact Ho|]. split; [exact Hp|].
  unfold tryPlan, tryCatch. rewrite run_bind, Hrun.
  destruct o as [plan|e|]; cbn.
  - left. exists plan. rewrite app_nil_r. reflexivity.
  - right; left. exists (message e). reflexivity.
  - right; right. reflexivity.
Qed.

Lemma oracle_is_work (evs : list Event) :
  forallb isOracleEvent evs = true -> forallb isWorkEvent evs = true.
Proof. apply forallb_weaken. intros [] H; try discriminate H; reflexivity. Qed.

Lemma tool_is_work (evs : list Event) :
  forallb isToolEvent evs = true -> forallb isWorkEvent evs = true.
Proof. apply forallb_weaken. intros [] H; try discriminate H; reflexivity. Qed.

Lemma oracle_notMutating (evs : list Event) :
  forallb isOracleEvent evs = true -> forallb notMutating evs = true.
Proof. apply forallb_weaken. intros [] H; try discriminate H; reflexivity. Qed.

(** The events of an iteration up to its exit: one planner call. *)
Lemma iteration_prefix userText rs (oevs tevs : list Event) :
  forallb isOracleEvent oevs = true ->
  forallb isToolEvent tevs = true ->
  forallb notMutating tevs = true ->
  let pre := (EvPlanWithLm userText rs :: oevs) ++ tevs in
  planCalls pre = 1%nat /\ planFailed pre = false /\ suspended pre = false
  /\ forallb notMutating pre = true.
Proof.
  intros Ho Ht Hn pre. subst pre.
  destruct (work_events oevs (oracle_is_work oevs Ho)) as (Ho1 & Ho2 & Ho3 & _).
  destruct (work_events tevs (tool_is_work tevs Ht)) as (Ht1 & Ht2 & Ht3 & _).
  rewrite planCalls_app, planFailed_app, suspended_app, forallb_app.
  change (planCalls (EvPlanWithLm userText rs :: oevs)) with (S (planCalls oevs)).
  change (planFailed (EvPlanWithLm userText rs :: oevs)) with (planFailed oevs).
  change (suspended (EvPlanWithLm userText rs :: oevs)) with (suspended oevs).
  cbn [forallb]. rewrite Ho1, Ho2, Ho3, Ht1, Ht2, Ht3, Hn, (oracle_notMutating oevs Ho).
  repeat split.
Qed.

Lemma agentLoop_step fuel env userText family i rs s :
  agentLoop (S fuel) env userText family i rs s =
  if (i <? MAX_ITERATIONS)%nat then
    planned ← tryPlan env userText rs family;
    match planned with
    | None => mret ExitReturn
    | Some plan =>
        if (length (toolCalls plan) =? 0)%nat && done plan
        then mret (ExitLoop (S i) rs (summary plan))
        else
          let '(readonlyCalls, mutatingCalls) := splitToolCalls (toolCalls plan) in
          allResults ← executeReadonlyCalls readonlyCalls (cfg env) rs;
          if (0 <? length mutatingCalls)%nat then
            queuePendingActions (sessionKey env) userText plan mutatingCalls allResults;;
            promptForConfirmation plan mutatingCalls;;
            mret ExitReturn
          else if done plan
          then mret (ExitLoop (S i) allResults (summary plan))
          else agentLoop fuel env userText family (S i) allResults (summary plan)
    end
  else mret (ExitLoop i rs s).
Proof. reflexivity. Qed.

Lemma suspend_run key userText plan calls rs w :
  (queuePendingActions key userText plan calls rs;;
   promptForConfirmation plan calls;;
   mret ExitReturn) w =
  (Returned ExitReturn,
   {| pendingBySession :=
        <[key := {| originalUserText := userText; plan := plan;
                    pendingToolCalls := calls; priorResults := rs |}]>
          (pendingBySession w);
      cluster := cluster w; oracle := oracle w |},
   promptEvents (summary plan) calls).
Proof. reflexivity. Qed.

Lemma forallb_filter {A} (f : A -> bool) (l : list A) :
  forallb f (List.filter f l) = true.
Proof.
  induction l as [|x l IH]; [reflexivity|]. cbn.
  destruct (f x) eqn:Hx; [cbn; rewrite Hx|]; exact IH.
Qed.


(** What the loop does, from any iteration count [i] and any state, when
    the fuel covers the iterations left. *)
Lemma agentLoop_run fuel env userText family :
  forall i rs s w,
    (MAX_ITERATIONS <= fuel + i)%nat ->
    exists o w' evs,
      agentLoop fuel env userText family i rs s w = (o, w', evs)
      /\ forallb notMutating evs = true
      /\ ((i <= MAX_ITERATIONS)%nat -> (i + planCalls evs <= MAX_ITERATIONS)%nat)
      /\ match o with
         | Returned (ExitLoop n rs' s') =>
             n = (i + planCalls evs)%nat /\ planFailed evs = false
             /\ suspended evs = false
             /\ pendingBySession w' = pendingBySession w
         | Returned ExitReturn =>
             (planFailed evs = true /\ suspended evs = false
              /\ pendingBySession w' = pendingBySession w)
             \/ (exists plan rs' pre,
                    let mutatingCalls := (splitToolCalls (toolCalls plan)).2 in
                    evs = pre ++ promptEvents (summary plan) mutatingCalls
                    /\ planFailed pre = false /\ suspended pre = false
                    /\ mutatingCalls <> []
                    /\ pendingBySession w' =
                       <[sessionKey env :=
                           {| originalUserText := userText; plan := plan;
                              pendingToolCalls := mutatingCalls;
                              priorResults := rs' |}]> (pendingBySession w))
         | Returned OutOfFuel => False
         | Threw _ => False
         | Stuck =>
             planFailed evs = false /\ suspended evs = false
             /\ pendingBySession w' = pendingBySession w
         end.
Proof.
  assert (Hstop : forall i rs s w,
             (MAX_ITERATIONS <= i)%nat ->
             exists o w' evs,
               (mret (ExitLoop i rs s) : M LoopExit) w = (o, w', evs)
               /\ forallb notMutating evs = true
               /\ ((i <= MAX_ITERATIONS)%nat -> (i + planCalls evs <= MAX_ITERATIONS)%nat)
               /\ match o with
                  | Returned (ExitLoop n rs' s') =>
                      n = (i + planCalls evs)%nat /\ planFailed evs = false
                      /\ suspended evs = false
                      /\ pendingBySession w' = pendingBySession w
                  | _ => False
                  end).
  { intros i rs s w Hge. exists (Returned (ExitLoop i rs s)), w, [].
    cbn. repeat split; try lia. }
  induction fuel as [|fuel IH]; intros i rs s w Hfuel.
  - destruct (Hstop i rs s w ltac:(lia)) as (o & w' & evs & Hrun & H1 & H2 & H3).
    exists o, w', evs. cbn [agentLoop].
    destruct (Nat.ltb_spec i MAX_ITERATIONS) as [Hlt|Hge]; [lia|].
    repeat split; try assumption.
    destruct o as [[]| |]; try contradiction. exact H3.
  - rewrite agentLoop_step.
    destruct (Nat.ltb_spec i MAX_ITERATIONS) as [Hlt|Hge].
    2: { destruct (Hstop i rs s w Hge) as (o & w' & evs & Hrun & H1 & H2 & H3).
         exists o, w', evs. repeat split; try assumption.
         destruct o as [[]| |]; try contradiction. exact H3. }
    rewrite run_bind.
    destruct (tryPlan_run env userText rs family w)
      as (oevs & w1 & Ho & Hp1 & [[plan Hrun]|[[msg Hrun]|Hrun]]); rewrite Hrun.
    + (* a plan *)
      destruct ((length (toolCalls plan) =? 0)%nat && done plan) eqn:Hempty.
      * (* no tool call and done: break *)
        destruct (iteration_prefix userText rs oevs [] Ho eq_refl eq_refl)
          as (Hc & Hf & Hs & Hn).
        eexists _, _, _. split; [reflexivity|].
        rewrite Hn, Hc, Hf, Hs. repeat split; try lia. exact Hp1.
      * unfold splitToolCalls. cbv iota beta. rewrite run_bind.
        set (readonlyCalls := List.filter (fun c => negb (isMutating (tool c))) (toolCalls plan)).
        set (mutatingCalls := List.filter (fun c => isMutating (tool c)) (toolCalls plan)).
        destruct (executeReadonlyCalls_run readonlyCalls (cfg env) rs w1)
          as (rs' & blocks & w2 & Hexec & Hblocks & _ & Hp2).
        pose proof (executeReadonlyCalls_readonly readonlyCalls (cfg env) rs
                      (forallb_filter _ _) w1) as [_ Hro].
        rewrite Hexec in Hro |- *. unfold eventsOf in Hro. cbn [snd] in Hro.
        destruct (toolBlocks_events _ _ Hblocks) as [Htool _].
        destruct (iteration_prefix userText rs oevs (concat blocks) Ho Htool Hro)
          as (Hc & Hf & Hs & Hn).
        destruct (0 <? length mutatingCalls)%nat eqn:Hmut.
        -- (* mutating calls: queue, prompt, return *)
           rewrite suspend_run.
           eexists _, _, _. split; [reflexivity|].
           rewrite app_assoc, forallb_app, planCalls_app, Hn, Hc.
           split; [reflexivity|]. split; [cbn; lia|].
           right. exists plan, (rs ++ rs'), ((EvPlanWithLm userText rs :: oevs) ++ concat blocks).
           cbv zeta. unfold splitToolCalls. cbn [snd]. fold mutatingCalls.
           repeat split; try assumption.
           ++ intros Hnil. rewrite Hnil in Hmut. discriminate Hmut.
           ++ cbn. rewrite Hp2, Hp1. reflexivity.
        -- destruct (done plan) eqn:Hdone.
           ++ (* done: break *)
              eexists _, _, _. split; [reflexivity|].
              rewrite app_nil_r, Hn, Hc, Hf, Hs.
              repeat split; try lia. pending_eq.
           ++ (* another iteration *)
              destruct (IH (S i) (rs ++ rs') (summary plan) w2 ltac:(lia))
                as (o & w' & evs & Hrec & Hn' & Hc' & Hexit).
              rewrite Hrec. exists o, w', (((EvPlanWithLm userText rs :: oevs) ++ concat blocks) ++ evs).
              split; [rewrite app_assoc; reflexivity|].
              rewrite forallb_app, planCalls_app, planFailed_app, suspended_app,
                Hn, Hc, Hf, Hs, Hn'.
              split; [reflexivity|]. split; [lia|].
              destruct o as [[|n rs'' s''|]|e|]; try contradiction.
              ** destruct Hexit as [(H1 & H2 & H3)|(plan' & rs'' & pre & H1 & H2 & H3 & H4 & H5)].
                 --- left. rewrite H1, H2. repeat split. pending_eq.
                 --- right.
                     exists plan', rs'', (((EvPlanWithLm userText rs :: oevs) ++ concat blocks) ++ pre).
                     cbv zeta in *. rewrite H1, planFailed_app, suspended_app, Hf, Hs, H2, H3.
                     rewrite app_assoc. repeat split; try assumption.
                     rewrite H5. pending_eq.
              ** destruct Hexit as (H1 & H2 & H3 & H4).
                 rewrite H2, H3. repeat split; try lia. pending_eq.
              ** destruct Hexit as (H1 & H2 & H3).
                 rewrite H1, H2. repeat split. pending_eq.
    + (* the planner threw: report, return *)
      destruct (iteration_prefix userText rs oevs [] Ho eq_refl eq_refl)
        as (Hc & Hf & Hs & Hn).
      rewrite app_nil_r in Hc, Hf, Hs, Hn.
      eexists _, _, _. split; [reflexivity|].
      rewrite app_nil_r, forallb_app, planCalls_app, planFailed_app, suspended_app,
        Hn, Hc, Hf, Hs.
      split; [reflexivity|]. split; [cbn; lia|].
      left. repeat split. exact Hp1.
    + (* not a plan *)
      destruct (iteration_prefix userText rs oevs [] Ho eq_refl eq_refl)
        as (Hc & Hf & Hs & Hn).
      rewrite app_nil_r in Hc, Hf, Hs, Hn.
      eexists _, _, _. split; [reflexivity|].
      rewrite Hn, Hc, Hf, Hs. repeat split; try lia. exact Hp1.
Qed.

End PlanningLoop.

Section Turns.

Context `{C : Collaborators}.
Implicit Types (w : World) (env : Env).

Lemma chunk_events (evs : list Event) :
  forallb isChunkOrOracleEvent evs = true ->
  planCalls evs = 0%nat /\ planFailed evs = false /\ suspended evs = false
  /\ forallb notMutating evs = true /\ executed evs = [].
Proof.
  induction evs as [|e evs IH]; [intros; repeat split|].
  cbn [forallb]. intros H. apply andb_prop in H. destruct H as [He H].
  destruct (IH H) as (? & ? & ? & ? & ?).
  destruct e as [[]| | | | | |]; try discriminate He; repeat split; assumption.
Qed.

(** [runAgentLoop] is its loop, and after a [break] or a false loop
    condition the notice (when the count has reached the maximum) and
    one formatter call on the summary and the results of the loop. *)
Lemma runAgentLoop_run env userText family init w :
  let loop := agentLoop MAX_ITERATIONS env userText family 0 (copyOrEmpty init) "" w in
  match outcomeOf loop with
  | Returned ExitReturn =>
      runAgentLoop env userText family init w = (Returned tt, stateOf loop, eventsOf loop)
  | Returned (ExitLoop n rs s) =>
      exists o w' fevs,
        runAgentLoop env userText family init w =
        (o, w', eventsOf loop ++ afterLoop n userText s rs fevs)
        /\ forallb isChunkOrOracleEvent fevs = true
        /\ pendingBySession w' = pendingBySession (stateOf loop)
        /\ o <> Stuck
  | Returned OutOfFuel => False
  | Threw _ => False
  | Stuck => runAgentLoop env userText family init w = (Stuck, stateOf loop, eventsOf loop)
  end.
Proof.
  unfold runAgentLoop. cbv zeta.
  generalize (copyOrEmpty init). intros rs0.
  destruct (agentLoop_run MAX_ITERATIONS env userText family 0 rs0 "" w ltac:(lia))
    as (o & w1 & levs & Hloop & _ & _ & Hexit).
  rewrite run_bind, Hloop. unfold outcomeOf, stateOf, eventsOf. cbn [fst snd].
  destruct o as [[|n rs s|]|e|]; try contradiction.
  - cbn. rewrite ?app_nil_r. reflexivity.
  - destruct (formatWithLm_run env userText s rs family w1)
      as (o & w' & fevs & Hfmt & Hf & Hp & Hns).
    exists (match o with Returned _ => Returned tt | Threw e => Threw e | Stuck => Stuck end),
      w', fevs.
    assert (Hunit : (formatWithLm env userText s rs family ≫= (fun _ => mret tt)) w1 =
                    (match o with
                     | Returned _ => Returned tt | Threw e => Threw e | Stuck => Stuck
                     end, w', EvFormatWithLm userText s rs :: fevs)).
    { rewrite run_bind, Hfmt. destruct o; cbn; rewrite ?app_nil_r; reflexivity. }
    split; [|split; [exact Hf|split; [exact Hp|destruct o; try discriminate; contradiction]]].
    unfold afterLoop. rewrite run_bind.
    destruct (MAX_ITERATIONS <=? n)%nat; cbn [emit mret M_ret]; rewrite Hunit; reflexivity.
  - reflexivity.
Qed.

End Turns.

Lemma suspended_prompt (pre : list Event) summary calls :
  suspended (pre ++ promptEvents summary calls) = true.
Proof. rewrite suspended_app. cbn. apply orb_true_r. Qed.

Lemma afterLoop_events n userText s rs fevs :
  forallb isChunkOrOracleEvent fevs = true ->
  planCalls (afterLoop n userText s rs fevs) = 0%nat
  /\ forallb notMutating (afterLoop n userText s rs fevs) = true
  /\ suspended (afterLoop n userText s rs fevs) = false
  /\ executed (afterLoop n userText s rs fevs) = [].
Proof.
  intros H. destruct (chunk_events fevs H) as (H1 & H2 & H3 & H4 & H5).
  unfold afterLoop. rewrite planCalls_app, forallb_app, suspended_app, executed_app.
  change (planCalls (EvFormatWithLm userText s rs :: fevs)) with (planCalls fevs).
  change (suspended (EvFormatWithLm userText s rs :: fevs)) with (suspended fevs).
  change (executed (EvFormatWithLm userText s rs :: fevs)) with (executed fevs).
  cbn [forallb]. rewrite H1, H3, H4, H5.
  destruct (MAX_ITERATIONS <=? n)%nat; repeat split.
Qed.



(* ===================================================================== *)
(** ** The confirmation patterns *)
(* ===================================================================== *)

Lemma searchFrom_Bol_inside ci re s : searchFrom ci (Bol :: re) false s = None.
Proof. induction s as [|c s IH]; cbn; [reflexivity|exact IH]. Qed.

Lemma stripPrefix_whole (a t m : string) :
  stripPrefix true a t = Some (m, EmptyString) -> lowerAscii a = lowerAscii t.
Proof.
  revert t m. induction a as [|p a IH]; intros t m; cbn.
  - intros [= _ ->]. reflexivity.
  - destruct t as [|c t]; [discriminate|].
    unfold eqChar. destruct (Ascii.eqb_spec (asciiLower p) (asciiLower c)) as [Hpc|]; [|discriminate].
    destruct (stripPrefix true a t) as [[m' rest]|] eqn:Hs; [|discriminate].
    intros [= _ ->]. cbn. rewrite Hpc. f_equal. apply (IH t m'). exact Hs.
Qed.

Lemma stripPrefix_lower (a t : string) :
  lowerAscii a = lowerAscii t -> stripPrefix true a t = Some (t, EmptyString).
Proof.
  revert t. induction a as [|p a IH]; intros t; cbn.
  - destruct t; [reflexivity|discriminate].
  - destruct t as [|c t]; [discriminate|]. cbn. intros [= Hpc Hat].
    unfold eqChar. rewrite Hpc, Ascii.eqb_refl, (IH t Hat). reflexivity.
Qed.

(** [/^(w1|w2|...)$/i.test(text)] for lowercase ASCII words: the text is
    one of the words up to ASCII case. *)
Lemma test_anchored_words (words : list string) (text : string) :
  Forall (fun a => lowerAscii a = a) words ->
  test true [Bol; Alt true words; Eol] text = oneOf words text.
Proof.
  intros Hlow. unfold test, oneOf.
  assert (Hs : searchFrom true [Bol; Alt true words; Eol] true text =
               matchHere true [Bol; Alt true words; Eol] true text []).
  { destruct text as [|c text]; cbn [searchFrom].
    - destruct (matchHere _ _ _ _ _); reflexivity.
    - rewrite searchFrom_Bol_inside. destruct (matchHere _ _ _ _ _); reflexivity. }
  rewrite Hs. cbn [matchHere]. clear Hs.
  induction Hlow as [|a words Ha _ IH]; [reflexivity|].
  cbn [existsb].
  destruct (stripPrefix true a text) as [[m rest]|] eqn:Hstrip.
  - destruct rest as [|c rest].
    + cbn. apply stripPrefix_whole in Hstrip. rewrite <- Hstrip, Ha, String.eqb_refl.
      reflexivity.
    + cbn [matchHere isEmpty].
      destruct (String.eqb_spec (lowerAscii text) a) as [Heq|_]; [|exact IH].
      rewrite <- Ha in Heq. symmetry in Heq.
      rewrite (stripPrefix_lower a text Heq) in Hstrip. discriminate Hstrip.
  - destruct (String.eqb_spec (lowerAscii text) a) as [Heq|_]; [|exact IH].
    rewrite <- Ha in Heq. symmetry in Heq.
    rewrite (stripPrefix_lower a text Heq) in Hstrip. discriminate Hstrip.
Qed.

(** The affirmative pattern: confirm, yes, proceed or ok in any case. *)
Lemma isAffirmative_words (text : string) :
  isAffirmative text = oneOf ["confirm"; "yes"; "proceed"; "ok"] text.
Proof. apply test_anchored_words. repeat constructor. Qed.

(** The negative pattern: cancel, no or stop in any case. *)
Lemma isNegative_words (text : string) :
  isNegative text = oneOf ["cancel"; "no"; "stop"] text.
Proof. apply test_anchored_words. repeat constructor. Qed.

Lemma negative_not_affirmative (text : string) :
  isNegative text = true -> isAffirmative text = false.
Proof.
  rewrite isNegative_words, isAffirmative_words. unfold oneOf. cbn [existsb].
  intros H.
  repeat (apply orb_prop in H; destruct H as [H|H]);
    try discriminate H; apply String.eqb_eq in H; rewrite H; reflexivity.
Qed.

(* ===================================================================== *)
(** ** Turns *)
(* ===================================================================== *)

Lemma notMutating_events (evs : list Event) :
  forallb notMutating evs = true ->
  existsb isMutatingEvent evs = false
  /\ List.filter (fun c => isMutating (tool c)) (executed evs) = [].
Proof.
  induction evs as [|e evs IH]; [split; reflexivity|].
  cbn [forallb existsb]. intros H. apply andb_prop in H. destruct H as [He H].
  destruct (IH H) as [IH1 IH2]. unfold notMutating in He. apply negb_true_iff in He.
  rewrite He, IH1. split; [reflexivity|].
  destruct e; try exact IH2.
  unfold executed. cbn [omap]. cbn in He |- *. rewrite He. exact IH2.
Qed.

Section TurnLemmas.

Context `{C : Collaborators}.
Implicit Types (w : World) (env : Env).

(** What one run of [runAgentLoop] does to the session: it makes no
    mutating invocation; either it suspends, and then its last events
    are the prompt for the mutating calls of a plan, which it has stored
    for the session with the request text, or it leaves the stored
    record as it was. *)
Lemma runAgentLoop_facts env userText family init w :
  let run := runAgentLoop env userText family init w in
  forallb notMutating (eventsOf run) = true
  /\ if suspended (eventsOf run) then
       exists plan rs pre,
         let mutatingCalls := (splitToolCalls (toolCalls plan)).2 in
         eventsOf run = pre ++ promptEvents (summary plan) mutatingCalls
         /\ suspended pre = false
         /\ mutatingCalls <> []
         /\ outcomeOf run = Returned tt
         /\ pendingBySession (stateOf run) =
            <[sessionKey env :=
                {| originalUserText := userText; plan := plan;
                   pendingToolCalls := mutatingCalls; priorResults := rs |}]>
              (pendingBySession w)
     else pendingBySession (stateOf run) = pendingBySession w.
Proof.
  intros run.
  pose proof (runAgentLoop_run env userText family init w) as Hrun.
  destruct (agentLoop_run MAX_ITERATIONS env userText family 0 (copyOrEmpty init) "" w
                          ltac:(lia))
    as (o & w1 & levs & Hloop & Hnm & _ & Hexit).
  cbv zeta in Hrun. rewrite Hloop in Hrun. fold run in Hrun.
  unfold outcomeOf, stateOf, eventsOf in *. cbn [fst snd] in *.
  destruct o as [[|n rs s|]|e|]; try contradiction.
  - rewrite Hrun. cbn [fst snd]. split; [exact Hnm|].
    destruct Hexit as [(H1 & H2 & H3)|(plan & rs' & pre & H1 & H2 & H3 & H4 & H5)].
    + rewrite H2. exact H3.
    + cbv zeta in *.
      assert (Hs : suspended levs = true) by (rewrite H1; apply suspended_prompt).
      rewrite Hs. exists plan, rs', pre. repeat split; assumption.
  - destruct Hrun as (o' & w' & fevs & Hrun & Hf & Hp & _).
    rewrite Hrun. cbn [fst snd].
    destruct (afterLoop_events n userText s rs fevs Hf) as (_ & Ha & Hs & _).
    destruct Hexit as (_ & _ & Hs' & Hp').
    rewrite forallb_app, suspended_app, Hnm, Ha, Hs, Hs'. split; [reflexivity|].
    cbn. pending_eq.
  - rewrite Hrun. cbn [fst snd]. split; [exact Hnm|].
    destruct Hexit as (_ & Hs & Hp). rewrite Hs. exact Hp.
Qed.

(** A turn that is not a reply to a stored action is one run of the
    planning loop on its text. *)
Lemma handleChatRequest_plans env req w :
  let text := trim (prompt req) in
  isEmpty text = false ->
  kubeConfigError env = None ->
  match pendingBySession w !! sessionKey env with
  | Some _ => isAffirmative text = false /\ isNegative text = false
  | None => True
  end ->
  handleChatRequest env req w = runAgentLoop env text (modelFamily req) None w.
Proof.
  intros text Hne Hkc Hpending. unfold handleChatRequest. fold text.
  rewrite Hne, Hkc. rewrite run_bind. cbn [getPending].
  destruct (pendingBySession w !! sessionKey env) as [p|].
  - destruct Hpending as [Ha Hn]. unfold handlePendingAction. rewrite Ha, Hn.
    rewrite run_bind. cbn -[runAgentLoop].
    destruct (runAgentLoop env text (modelFamily req) None w) as [[o w'] evs].
    reflexivity.
  - rewrite run_bind. cbn -[runAgentLoop].
    destruct (runAgentLoop env text (modelFamily req) None w) as [[o w'] evs].
    reflexivity.
Qed.

Lemma run_then_const {A B} (m : M A) (b : B) w :
  (m ≫= (fun _ => mret b)) w =
  (match outcomeOf (m w) with
   | Returned _ => Returned b | Threw e => Threw e | Stuck => Stuck
   end, stateOf (m w), eventsOf (m w)).
Proof.
  rewrite run_bind. unfold outcomeOf, stateOf, eventsOf.
  destruct (m w) as [[[a|e|] w'] evs]; cbn; rewrite ?app_nil_r; reflexivity.
Qed.

(** The results of a batch of mutating calls are all tool results. *)
Lemma results_of_mutating (calls : list ToolCall) (ros : History) :
  Forall (fun c => isMutating (tool c) = true) calls ->
  Forall2 resultFor calls ros ->
  exists rs : list ToolResult,
    ros = List.map Some rs
    /\ Forall2 (fun c r => rtool r = tool c /\ rargs r = args c) calls rs.
Proof.
  intros Hm H. induction H as [|c ro calls ros Hr _ IH].
  - exists []. split; constructor.
  - inversion Hm as [|? ? Hc Hm']; subst.
    destruct (IH Hm') as (rs & -> & Hrs).
    destruct (isMutating_known _ Hc) as [t Ht].
    unfold resultFor in Hr. rewrite Ht in Hr. destruct Hr as (tr & -> & ? & ?).
    exists (tr :: rs). split; [reflexivity|]. constructor; auto.
Qed.

(** The reply that confirms: the confirmation line, the batch, the
    removal of the record, then the continuation on the extended
    history. *)
Lemma handlePendingAction_confirm env text p family w :
  isAffirmative text = true ->
  exists ros blocks w1,
    Forall2 toolBlock (pendingToolCalls p) blocks
    /\ Forall2 resultFor (pendingToolCalls p) ros
    /\ pendingBySession w1 = delete (sessionKey env) (pendingBySession w)
    /\ let results := priorResults p ++ ros in
       let run := handlePendingAction env text p family w in
       if done (plan p) then
         let next := formatWithLm env (originalUserText p) (summary (plan p)) results
                                  family w1 in
         eventsOf run = EvMarkdown MdConfirmed :: concat blocks ++ eventsOf next
         /\ stateOf run = stateOf next
         /\ outcomeOf run <> Returned false
       else
         let next := runAgentLoop env (originalUserText p) family (Some results) w1 in
         eventsOf run = EvMarkdown MdConfirmed :: concat blocks ++ eventsOf next
         /\ stateOf run = stateOf next
         /\ outcomeOf run <> Returned false.
Proof.
  intros Ha. unfold handlePendingAction. rewrite Ha.
  destruct (executeReadonlyCalls_run (pendingToolCalls p) (cfg env) (priorResults p) w)
    as (ros & blocks & w0 & Hexec & Hblocks & Hres & Hp).
  exists ros, blocks,
    {| pendingBySession := delete (sessionKey env) (pendingBySession w0);
       cluster := cluster w0; oracle := oracle w0 |}.
  split; [exact Hblocks|]. split; [exact Hres|].
  split; [cbn; rewrite Hp; reflexivity|].
  cbv zeta. rewrite run_bind. cbn [emit]. rewrite run_bind.
  change (executePendingCalls (pendingToolCalls p) (cfg env) (priorResults p) w)
    with (executeReadonlyCalls (pendingToolCalls p) (cfg env) (priorResults p) w).
  rewrite Hexec. rewrite run_bind. cbn [deletePending].
  destruct (done (plan p)); cbn [negb]; rewrite run_then_const;
    unfold eventsOf, stateOf, outcomeOf; cbn [fst snd];
    (split; [reflexivity|]); (split; [reflexivity|]);
    match goal with |- context [match ?o with _ => _ end] => destruct o end;
    discriminate.
Qed.

(** The same reply as one equation: the run of [handlePendingAction] is
    the confirmation line, the batch run call by call, and then the
    continuation from the state the batch left, less the session's
    record. *)
Lemma handlePendingAction_confirmed env text p family w :
  isAffirmative text = true ->
  exists ros blocks w0,
    ranInOrder (cfg env) (pendingToolCalls p) w ros blocks w0
    /\ Forall2 toolBlock (pendingToolCalls p) blocks
    /\ Forall2 resultFor (pendingToolCalls p) ros
    /\ pendingBySession w0 = pendingBySession w
    /\ let results := priorResults p ++ ros in
       let run := handlePendingAction env text p family w in
       let ending {A} (o : Outcome A) : Outcome bool :=
         match o with Returned _ => Returned true | Threw e => Threw e | Stuck => Stuck end in
       if done (plan p) then
         let next := formatWithLm env (originalUserText p) (summary (plan p)) results
                                  family (cleared env w0) in
         run = (ending (outcomeOf next), stateOf next,
                EvMarkdown MdConfirmed :: concat blocks ++ eventsOf next)
       else
         let next := runAgentLoop env (originalUserText p) family (Some results)
                                  (cleared env w0) in
         run = (ending (outcomeOf next), stateOf next,
                EvMarkdown MdConfirmed :: concat blocks ++ eventsOf next).
Proof.
  intros Ha. unfold handlePendingAction. rewrite Ha.
  destruct (executeReadonlyCalls_ranInOrder (pendingToolCalls p) (cfg env) (priorResults p) w)
    as (ros & blocks & w0 & Hexec & Hchain & Hblocks & Hres & Hp).
  exists ros, blocks, w0.
  split; [exact Hchain|]. split; [exact Hblocks|]. split; [exact Hres|].
  split; [exact Hp|].
  cbv zeta. rewrite run_bind. cbn [emit]. rewrite run_bind.
  rewrite executePendingCalls_eq, Hexec. rewrite run_bind. cbn [deletePending].
  fold (cleared env w0).
  destruct (done (plan p)); cbn [negb]; rewrite run_then_const; reflexivity.
Qed.

End TurnLemmas.

Section TurnCases.

Context `{C : Collaborators}.
Implicit Types (w : World) (env : Env).

(** The five ways a turn goes. *)
Lemma handleChatRequest_cases env req w :
  let text := trim (prompt req) in
  let turn := handleChatRequest env req w in
  (isEmpty text = true /\ turn = (Returned tt, w, [EvMarkdown MdHelp]))
  \/ (exists e, kubeConfigError env = Some e
                /\ turn = (Returned tt, w, [EvMarkdown (MdKubeconfigFailed (message e))]))
  \/ (exists p, isEmpty text = false /\ kubeConfigError env = None
                /\ pendingBySession w !! sessionKey env = Some p
                /\ isAffirmative text = true
                /\ eventsOf turn =
                   eventsOf (handlePendingAction env text p (modelFamily req) w)
                /\ stateOf turn =
                   stateOf (handlePendingAction env text p (modelFamily req) w))
  \/ (exists p, isEmpty text = false /\ kubeConfigError env = None
                /\ pendingBySession w !! sessionKey env = Some p
                /\ isAffirmative text = false /\ isNegative text = true
                /\ turn = (Returned tt, cleared env w, [EvMarkdown MdCancelled]))
  \/ (isEmpty text = false /\ kubeConfigError env = None
      /\ match pendingBySession w !! sessionKey env with
         | Some _ => isAffirmative text = false /\ isNegative text = false
         | None => True
         end
      /\ turn = runAgentLoop env text (modelFamily req) None w).
Proof.
  intros text turn.
  destruct (isEmpty text) eqn:Hne.
  { left. split; [reflexivity|]. subst turn. unfold handleChatRequest. fold text.
    rewrite Hne. reflexivity. }
  destruct (kubeConfigError env) as [e|] eqn:Hkc.
  { right; left. exists e. split; [reflexivity|]. subst turn.
    unfold handleChatRequest. fold text. rewrite Hne, Hkc. reflexivity. }
  destruct (pendingBySession w !! sessionKey env) as [p|] eqn:Hp.
  2: { right; right; right; right. repeat split.
       apply handleChatRequest_plans; [exact Hne|exact Hkc|]. rewrite Hp. exact I. }
  destruct (isAffirmative text) eqn:Ha.
  - right; right; left. exists p. repeat split.
    + subst turn. unfold handleChatRequest. fold text. rewrite Hne, Hkc.
      rewrite run_bind. cbn [getPending]. rewrite Hp. rewrite run_bind.
      destruct (handlePendingAction_confirm env text p (modelFamily req) w Ha)
        as (ros & blocks & w1 & _ & _ & _ & H).
      cbv zeta in H.
      assert (Hout : outcomeOf (handlePendingAction env text p (modelFamily req) w)
                     <> Returned false)
        by (destruct (done (plan p)); apply H).
      unfold outcomeOf, eventsOf in *.
      destruct (handlePendingAction env text p (modelFamily req) w)
        as [[[[|]|e|] w'] evs]; cbn [fst snd] in *; try reflexivity.
      * cbn. rewrite app_nil_r. reflexivity.
      * exfalso. apply Hout. reflexivity.
    + subst turn. unfold handleChatRequest. fold text. rewrite Hne, Hkc.
      rewrite run_bind. cbn [getPending]. rewrite Hp. rewrite run_bind.
      destruct (handlePendingAction_confirm env text p (modelFamily req) w Ha)
        as (ros & blocks & w1 & _ & _ & _ & H).
      cbv zeta in H.
      assert (Hout : outcomeOf (handlePendingAction env text p (modelFamily req) w)
                     <> Returned false)
        by (destruct (done (plan p)); apply H).
      unfold outcomeOf, stateOf in *.
      destruct (handlePendingAction env text p (modelFamily req) w)
        as [[[[|]|e|] w'] evs]; cbn [fst snd] in *; try reflexivity.
      exfalso. apply Hout. reflexivity.
  - destruct (isNegative text) eqn:Hn.
    + right; right; right; left. exists p. repeat split.
      subst turn. unfold handleChatRequest. fold text. rewrite Hne, Hkc.
      rewrite run_bind. cbn [getPending]. rewrite Hp.
      unfold handlePendingAction. rewrite Ha, Hn. reflexivity.
    + right; right; right; right. repeat split.
      apply handleChatRequest_plans; [exact Hne|exact Hkc|]. rewrite Hp. auto.
Qed.

End TurnCases.

(* ===================================================================== *)
(** ** The confirmation checkpoint *)
(* ===================================================================== *)

Lemma filter_all {A} (f : A -> bool) (l : list A) :
  Forall (fun x => f x = true) l -> List.filter f l = l.
Proof. induction 1 as [|x l Hx _ IH]; cbn; [|rewrite Hx, IH]; reflexivity. Qed.

(** C4. Given a stored PendingAction and a turn text that matches the
    affirmative pattern, [handlePendingAction] writes the confirmation line
    and then runs the queued mutating calls one after the other
    ([ranInOrder]): each call is handed to [executeTool] from the state the
    call before it left, whatever that call returned, and what
    [executeTool] returns for it, successful or failed, is its one entry in
    the results, which are appended in order to the prior results. The
    events of the batch are one block per queued call, in the queued order,
    each block being the entry into [executeTool] for that call followed by
    its backend invocations; so every queued call is executed exactly once
    and no other mutating call is executed in the turn. The batch leaves
    the stored records alone. After it the session's record is removed
    from the state it left ([cleared]), and the turn continues from that
    state on the extended history, with the formatter when the stored plan
    was done and with the planning loop otherwise; the state the turn ends
    in is the state that continuation ends in. So after a turn that
    confirmed a done plan the stored records are those from before it,
    less the session's. The same holds after one that confirmed a plan not
    done, unless the planning loop it re-entered suspended on a new prompt,
    whose record the session then has (this for a loop in which every
    answer of the planner is a value of type [Plan], that is, a
    continuation that does not end [Stuck]). *)
Theorem confirmed_batch_runs_every_call `{C : Collaborators}
        (env : Env) (text : string) (p : PendingAction) (family : string) (w : World) :
  isAffirmative text = true ->
  Forall (fun c => isMutating (tool c) = true) (pendingToolCalls p) ->
  let run := handlePendingAction env text p family w in
  exists (rs : list ToolResult) (blocks : list (list Event)) (w0 : World)
         (rest : list Event),
    let results := priorResults p ++ List.map Some rs in
    let w1 := cleared env w0 in
    ranInOrder (cfg env) (pendingToolCalls p) w (List.map Some rs) blocks w0
    /\ eventsOf run = EvMarkdown MdConfirmed :: concat blocks ++ rest
    /\ Forall2 toolBlock (pendingToolCalls p) blocks
    /\ executed (concat blocks) = pendingToolCalls p
    /\ List.filter (fun c => isMutating (tool c)) (executed (eventsOf run)) =
       pendingToolCalls p
    /\ Forall2 (fun c r => rtool r = tool c /\ rargs r = args c) (pendingToolCalls p) rs
    /\ pendingBySession w0 = pendingBySession w
    /\ pendingBySession w1 !! sessionKey env = None
    /\ if done (plan p)
       then
         let next := formatWithLm env (originalUserText p) (summary (plan p)) results
                                  family w1 in
         rest = eventsOf next
         /\ stateOf run = stateOf next
         /\ pendingBySession (stateOf run) = delete (sessionKey env) (pendingBySession w)
       else
         let next := runAgentLoop env (originalUserText p) family (Some results) w1 in
         rest = eventsOf next
         /\ stateOf run = stateOf next
         /\ (outcomeOf next <> Stuck ->
             if suspended rest
             then exists p',
                 pendingBySession (stateOf run) !! sessionKey env = Some p'
                 /\ originalUserText p' = originalUserText p
             else pendingBySession (stateOf run) =
                  delete (sessionKey env) (pendingBySession w)).
Proof.
  intros Ha Hm run.
  destruct (handlePendingAction_confirmed env text p family w Ha)
    as (ros & blocks & w0 & Hchain & Hblocks & Hres & Hp & H).
  destruct (results_of_mutating _ _ Hm Hres) as (rs & -> & Hrs).
  destruct (toolBlocks_events _ _ Hblocks) as [_ Hexec].
  cbv zeta in H. fold run in H.
  assert (Hw1 : pendingBySession (cleared env w0) =
                delete (sessionKey env) (pendingBySession w))
    by (cbn; rewrite Hp; reflexivity).
  assert (Hsplit : forall rest,
             eventsOf run = EvMarkdown MdConfirmed :: concat blocks ++ rest ->
             forallb notMutating rest = true ->
             List.filter (fun c => isMutating (tool c)) (executed (eventsOf run)) =
             pendingToolCalls p).
  { intros rest Hev Hnm. rewrite Hev.
    change (executed (EvMarkdown MdConfirmed :: concat blocks ++ rest))
      with (executed (concat blocks ++ rest)).
    rewrite executed_app, List.filter_app, Hexec.
    destruct (notMutating_events rest Hnm) as [_ Hnone].
    rewrite Hnone, app_nil_r. apply filter_all. exact Hm. }
  destruct (done (plan p)).
  - set (next := formatWithLm env (originalUserText p) (summary (plan p))
                              (priorResults p ++ List.map Some rs) family
                              (cleared env w0)) in *.
    destruct (formatWithLm_run env (originalUserText p) (summary (plan p))
                               (priorResults p ++ List.map Some rs) family
                               (cleared env w0)) as (o & w2 & fevs & Hf & Hc & Hp2 & _).
    fold next in Hf.
    assert (Hev : eventsOf run = EvMarkdown MdConfirmed :: concat blocks ++ eventsOf next)
      by (rewrite H; reflexivity).
    assert (Hst : stateOf run = stateOf next) by (rewrite H; reflexivity).
    exists rs, blocks, w0, (eventsOf next). cbv zeta. fold next.
    split; [exact Hchain|]. split; [exact Hev|]. split; [exact Hblocks|].
    split; [exact Hexec|].
    split.
    { apply (Hsplit _ Hev). rewrite Hf. unfold eventsOf. cbn [snd forallb].
      destruct (chunk_events fevs Hc) as (_ & _ & _ & Hn & _). exact Hn. }
    split; [exact Hrs|]. split; [exact Hp|].
    split; [rewrite Hw1; apply lookup_delete_eq|].
    split; [reflexivity|]. split; [exact Hst|].
    rewrite Hst, Hf. unfold stateOf. cbn [fst snd]. rewrite Hp2. exact Hw1.
  - set (next := runAgentLoop env (originalUserText p) family
                               (Some (priorResults p ++ List.map Some rs))
                               (cleared env w0)) in *.
    pose proof (runAgentLoop_facts env (originalUserText p) family
                  (Some (priorResults p ++ List.map Some rs)) (cleared env w0))
      as [Hnm Hfacts].
    cbv zeta in Hfacts. fold next in Hnm, Hfacts.
    assert (Hev : eventsOf run = EvMarkdown MdConfirmed :: concat blocks ++ eventsOf next)
      by (rewrite H; reflexivity).
    assert (Hst : stateOf run = stateOf next) by (rewrite H; reflexivity).
    exists rs, blocks, w0, (eventsOf next). cbv zeta. fold next.
    split; [exact Hchain|]. split; [exact Hev|]. split; [exact Hblocks|].
    split; [exact Hexec|].
    split; [exact (Hsplit _ Hev Hnm)|].
    split; [exact Hrs|]. split; [exact Hp|].
    split; [rewrite Hw1; apply lookup_delete_eq|].
    split; [reflexivity|]. split; [exact Hst|]. intros _.
    rewrite Hst. destruct (suspended (eventsOf next)).
    + destruct Hfacts as (plan' & rs' & pre & _ & _ & _ & _ & Hins).
      eexists. rewrite Hins. split; [apply lookup_insert_eq|reflexivity].
    + rewrite Hfacts. exact Hw1.
Qed.

Lemma confirmed_batch_runs_every_call_witness :
  let calls :=
    [{| tool := "createNamespace"; args := [("name", JStr "shop")] |};
     {| tool := "deleteDeployment";
        args := [("namespace", JStr "shop"); ("name", JStr "old")] |};
     {| tool := "createPod";
        args := [("namespace", JStr "shop"); ("name", JStr "web");
                 ("image", JStr "nginx:1.27")] |}] in
  let p := {| originalUserText := "rebuild the shop";
              plan := {| summary := "Rebuild"; toolCalls := calls; done := true |};
              pendingToolCalls := calls; priorResults := [] |} in
  let w := awaiting (C := Demo.collaborators) Demo.env p (Demo.world []) in
  let run := handlePendingAction (C := Demo.collaborators) Demo.env "Yes" p "gpt-4o" w in
  exists (rs : list ToolResult) (blocks : list (list Event))
         (w0 : @World Demo.collaborators) (rest : list Event),
    let next := formatWithLm (C := Demo.collaborators) Demo.env "rebuild the shop"
                             "Rebuild" ([] ++ List.map Some rs) "gpt-4o"
                             (cleared Demo.env w0) in
    ranInOrder Demo.config calls w (List.map Some rs) blocks w0
    /\ eventsOf run = EvMarkdown MdConfirmed :: concat blocks ++ rest
    /\ Forall2 toolBlock calls blocks
    /\ executed (concat blocks) = calls
    /\ List.filter (fun c => isMutating (tool c)) (executed (eventsOf run)) = calls
    /\ Forall2 (fun c r => rtool r = tool c /\ rargs r = args c) calls rs
    /\ pendingBySession w0 = pendingBySession w
    /\ pendingBySession (cleared Demo.env w0) !! "no-workspace" = None
    /\ rest = eventsOf next
    /\ stateOf run = stateOf next
    /\ pendingBySession (stateOf run) = delete "no-workspace" (pendingBySession w).
Proof.
  intros calls p w run.
  apply (confirmed_batch_runs_every_call (C := Demo.collaborators)
           Demo.env "Yes" p "gpt-4o" w).
  - reflexivity.
  - repeat constructor.
Defined.


(** In the conversation of [Demo] the second call of a confirmed batch
    fails and the third is executed all the same. *)
Example confirmed_batch_continues_after_failure :
  let calls :=
    [{| tool := "createNamespace"; args := [("name", JStr "shop")] |};
     {| tool := "deleteDeployment";
        args := [("namespace", JStr "shop"); ("name", JStr "old")] |};
     {| tool := "createPod";
        args := [("namespace", JStr "shop"); ("name", JStr "web");
                 ("image", JStr "nginx:1.27")] |}] in
  let p := {| originalUserText := "rebuild the shop";
              plan := {| summary := "Rebuild"; toolCalls := calls; done := true |};
              pendingToolCalls := calls; priorResults := [] |} in
  let w := awaiting (C := Demo.collaborators) Demo.env p (Demo.world []) in
  let run := handlePendingAction (C := Demo.collaborators) Demo.env "Yes" p "gpt-4o" w in
  executed (eventsOf run) = calls
  /\ List.map method (invoked (eventsOf run)) =
     [CoreV1_createNamespace; AppsV1_deleteNamespacedDeployment; CoreV1_createNamespacedPod]
  /\ omap (fun e => match e with
                    | EvFormatWithLm _ _ rs =>
                        Some (List.map (fun r => rok <$> r) rs)
                    | _ => None
                    end) (eventsOf run) = [[Some true; Some false; Some true]]
  /\ pendingBySession (stateOf run) !! "no-workspace" = None.
Proof. repeat split; vm_compute; reflexivity. Qed.










(* ===================================================================== *)
(** ** The tolerant parser *)
(* ===================================================================== *)






Lemma append_cons (c : ascii) (s t : string) : String c s +:+ t = String c (s +:+ t).
Proof. reflexivity. Qed.

Lemma append_assoc (s t u : string) : (s +:+ t) +:+ u = s +:+ (t +:+ u).
Proof. induction s as [|c s IH]; [reflexivity|]. rewrite !append_cons, IH. reflexivity. Qed.




























Section TolerantParser.
Context `{C : Collaborators}.




End TolerantParser.





(* ===================================================================== *)
(** ** Further properties: the classifier and the split *)
(* ===================================================================== *)

Lemma unknown_not_mutating (s : string) : toolOfString s = None -> isMutating s = false.
Proof.
  intros Hnone. destruct (isMutating s) eqn:Hm; [|reflexivity].
  destruct (isMutating_known s Hm) as [t Ht]. congruence.
Qed.

Lemma filter_sublist {A} (f : A -> bool) (l : list A) : sublist (List.filter f l) l.
Proof.
  induction l as [|x l IH]; cbn [List.filter]; [constructor|].
  destruct (f x); [apply sublist_skip|apply sublist_cons]; exact IH.
Qed.

Lemma filter_split_perm {A} (f : A -> bool) (l : list A) :
  l ≡ₚ List.filter (fun x => negb (f x)) l ++ List.filter f l.
Proof.
  induction l as [|x l IH]; cbn [List.filter]; [reflexivity|].
  destruct (f x); cbn [negb app].
  - rewrite <- Permutation_middle. constructor. exact IH.
  - constructor. exact IH.
Qed.

(** X1. [splitToolCalls] partitions the calls of a plan: the read-only
    part holds the calls [isMutating] rejects and the mutating part the
    calls it accepts, each in the order of the plan, and together they are
    the calls of the plan, each once. A call whose tool identifier is
    outside the enumeration lands in the read-only part. *)
Theorem splitToolCalls_partitions (toolCalls : list ToolCall) :
  let readonlyCalls := (splitToolCalls toolCalls).1 in
  let mutatingCalls := (splitToolCalls toolCalls).2 in
  Forall (fun c => isMutating (tool c) = false) readonlyCalls
  /\ Forall (fun c => isMutating (tool c) = true) mutatingCalls
  /\ sublist readonlyCalls toolCalls
  /\ sublist mutatingCalls toolCalls
  /\ toolCalls ≡ₚ readonlyCalls ++ mutatingCalls
  /\ (forall c, In c toolCalls -> toolOfString (tool c) = None -> In c readonlyCalls).
Proof.
  cbn [splitToolCalls fst snd]. repeat split.
  - apply List.Forall_forall. intros c Hc. apply List.filter_In in Hc.
    destruct Hc as [_ Hc]. apply negb_true_iff in Hc. exact Hc.
  - apply List.Forall_forall. intros c Hc. apply List.filter_In in Hc. tauto.
  - apply filter_sublist.
  - apply filter_sublist.
  - apply (filter_split_perm (fun c => isMutating (tool c))).
  - intros c Hin Hnone. apply List.filter_In. split; [exact Hin|].
    rewrite (unknown_not_mutating _ Hnone). reflexivity.
Qed.

Lemma splitToolCalls_partitions_witness :
  let unknown := {| tool := "deletePod"; args := [] |} in
  let calls := [{| tool := "createPod"; args := [] |}; unknown;
                {| tool := "listNamespaces"; args := [] |}] in
  In unknown (splitToolCalls calls).1.
Proof.
  intros unknown calls.
  apply (proj2 (proj2 (proj2 (proj2 (proj2 (splitToolCalls_partitions calls)))))).
  - cbn. tauto.
  - reflexivity.
Defined.

(* ===================================================================== *)
(** ** Further properties: the dispatcher *)
(* ===================================================================== *)

Lemma read_events (evs : list Event) :
  forallb isReadEvent evs = true ->
  evs = List.map EvApi (invoked evs)
  /\ Forall (fun c => apiMutates (method c) = false) (invoked evs).
Proof.
  induction evs as [|e evs IH]; [intros; split; [reflexivity|constructor]|].
  cbn [forallb]. intros H. apply andb_true_iff in H. destruct H as [He Hrest].
  destruct (IH Hrest) as [IH1 IH2].
  destruct e; try discriminate He. cbn [isReadEvent] in He.
  apply negb_true_iff in He.
  change (invoked (EvApi call :: evs)) with (call :: invoked evs).
  split; [cbn [List.map]; f_equal; exact IH1|constructor; assumption].
Qed.

(** X2. The classifier is sound for the dispatcher: for a call whose tool
    [isMutating] rejects, [executeTool] invokes no backend method that
    creates, patches, replaces or deletes. What it does is its entry
    followed by backend invocations only, and it leaves the stored
    pending actions as they are. *)
Theorem readonly_tool_never_mutates `{C : Collaborators}
        (call : ToolCall) (ns : gset string) (imgs : list string) (mr : Z) (w : World) :
  isMutating (tool call) = false ->
  let run := executeTool call ns imgs mr w in
  eventsOf run = EvExecuteTool call :: List.map EvApi (invoked (eventsOf run))
  /\ Forall (fun c => apiMutates (method c) = false) (invoked (eventsOf run))
  /\ pendingBySession (stateOf run) = pendingBySession w.
Proof.
  intros Hm run. subst run.
  destruct (executeToolBody_readonly call ns imgs mr Hm w) as [_ Hread].
  destruct (read_events _ Hread) as [Hshape Hnone].
  rewrite executeTool_events.
  change (invoked (EvExecuteTool call :: ?evs)) with (invoked evs).
  split; [f_equal; exact Hshape|]. split; [exact Hnone|].
  apply executeTool_block.
Qed.

Lemma readonly_tool_never_mutates_witness :
  let call := {| tool := "getService";
                 args := [("namespace", JStr "dev"); ("name", JStr "web")] |} in
  let run := executeTool (C := Demo.collaborators) call {["dev"]} [] 20 (Demo.world []) in
  eventsOf run = EvExecuteTool call :: List.map EvApi (invoked (eventsOf run))
  /\ Forall (fun c => apiMutates (method c) = false) (invoked (eventsOf run))
  /\ pendingBySession (stateOf run) = pendingBySession (Demo.world []).
Proof.
  intros call run.
  apply (readonly_tool_never_mutates (C := Demo.collaborators) call {["dev"]} [] 20
                                     (Demo.world [])).
  reflexivity.
Defined.

Lemma imagesAllowed_false (allowed images : list string) :
  imagesAllowed allowed images = false <->
  allowed <> []
  /\ Exists (fun img => Forall (fun p => startsWith img p = false) allowed) images.
Proof.
  unfold imagesAllowed. rewrite negb_false_iff, andb_true_iff, negb_true_iff.
  rewrite existsb_exists, List.Exists_exists.
  split.
  - intros [Hlen (img & Hin & Hnot)]. split.
    + intros ->. discriminate Hlen.
    + exists img. split; [exact Hin|]. apply negb_true_iff in Hnot.
      apply List.Forall_forall. intros p Hp.
      destruct (startsWith img p) eqn:Hs; [|reflexivity].
      assert (existsb (fun p => startsWith img p) allowed = true)
        by (apply existsb_exists; eauto).
      congruence.
  - intros [Hne (img & Hin & Hall)]. split.
    + destruct allowed; [contradiction|reflexivity].
    + exists img. split; [exact Hin|]. apply negb_true_iff.
      destruct (existsb _ allowed) eqn:Hex; [|reflexivity].
      apply existsb_exists in Hex. destruct Hex as (p & Hp & Hs).
      rewrite List.Forall_forall in Hall. rewrite (Hall p Hp) in Hs. discriminate Hs.
Qed.

Lemma imagesAllowed_true (allowed images : list string) :
  allowed = []
  \/ Forall (fun img => Exists (fun p => startsWith img p = true) allowed) images ->
  imagesAllowed allowed images = true.
Proof.
  intros H. destruct (imagesAllowed allowed images) eqn:Hchk; [reflexivity|].
  apply imagesAllowed_false in Hchk. destruct Hchk as [Hne Hex].
  destruct H as [->|Hall]; [contradiction|].
  apply List.Exists_exists in Hex. destruct Hex as (img & Hin & Hnone).
  rewrite List.Forall_forall in Hall. specialize (Hall img Hin).
  apply List.Exists_exists in Hall. destruct Hall as (p & Hp & Hs).
  rewrite List.Forall_forall in Hnone. rewrite (Hnone p Hp) in Hs. discriminate Hs.
Qed.

(** X3. The checks of [updateDeployment]. A patch that is missing or is
    not an object is refused with "Patch must be an object". With a
    non-empty list of allowed images, a patch that names, among the
    containers at [spec.template.spec.containers], an image that starts
    with none of the allowed prefixes is refused with "Image not allowed".
    Both refusals come before any backend invocation and leave the state
    as it is. Every other patch (the list is empty, or every such image
    has an allowed prefix) is sent once, unchanged, as a strategic merge
    patch. *)
Theorem updateDeployment_checks_patch `{C : Collaborators}
        (a : JsObject) (ns : gset string) (imgs : list string) (mr : Z) (w : World) :
  let call := {| tool := "updateDeployment"; args := a |} in
  let patch := field a "patch" in
  let images := extractImagesFromDeploymentPatch patch in
  let run := executeTool call ns imgs mr w in
  (truthy patch && typeofObject patch = false ->
   run = (Returned (Some (failed call (Error "Patch must be an object"))), w,
          [EvExecuteTool call]))
  /\ (truthy patch && typeofObject patch = true ->
      imgs <> [] ->
      Exists (fun img => Forall (fun p => startsWith img p = false) imgs) images ->
      run = (Returned (Some (failed call (Error "Image not allowed"))), w,
             [EvExecuteTool call]))
  /\ (truthy patch && typeofObject patch = true ->
      imgs = [] \/ Forall (fun img => Exists (fun p => startsWith img p = true) imgs) images ->
      invoked (eventsOf run) =
      [{| method := AppsV1_patchNamespacedDeployment;
          params := [field a "name"; field a "namespace"; patch; JUndefined; JUndefined;
                     JUndefined; JUndefined; JUndefined; strategicMergePatchOptions] |}]).
Proof.
  intros call patch images run. subst run.
  assert (Hguard : negb (truthy patch) || negb (typeofObject patch)
                   = negb (truthy patch && typeofObject patch))
    by (destruct (truthy patch), (typeofObject patch); reflexivity).
  split; [|split].
  - intros Hbad. rewrite executeTool_run. unfold executeToolBody.
    change (toolOfString (tool call)) with (Some updateDeployment). cbv iota beta.
    change (field (args call) "patch") with patch.
    rewrite Hguard, Hbad. reflexivity.
  - intros Hgood Hne Hex. rewrite executeTool_run. unfold executeToolBody.
    change (toolOfString (tool call)) with (Some updateDeployment). cbv iota beta.
    change (field (args call) "patch") with patch.
    rewrite Hguard, Hgood. cbn [negb].
    fold images. rewrite (proj2 (imagesAllowed_false imgs images) (conj Hne Hex)).
    reflexivity.
  - intros Hgood Hok. rewrite executeTool_events. unfold executeToolBody.
    change (toolOfString (tool call)) with (Some updateDeployment). cbv iota beta.
    change (field (args call) "patch") with patch.
    rewrite Hguard, Hgood. cbn [negb].
    fold images. rewrite (imagesAllowed_true imgs images Hok). cbn [negb].
    rewrite events_callApi_then by (intros; apply keeps_liftR).
    reflexivity.
Qed.

Lemma updateDeployment_checks_patch_witness :
  let patch (image : string) :=
    JObj [("spec",
           JObj [("template",
                  JObj [("spec",
                         JObj [("containers",
                                JArr [JObj [("name", JStr "main");
                                            ("image", JStr image)]])])])])] in
  let call (a : JsObject) := {| tool := "updateDeployment"; args := a |} in
  let run (a : JsObject) :=
    executeTool (C := Demo.collaborators) (call a) {["dev"]} ["nginx:"] 20 (Demo.world []) in
  run [("name", JStr "web"); ("patch", JStr "scale up")] =
  (Returned (Some (failed (call [("name", JStr "web"); ("patch", JStr "scale up")])
                          (Error "Patch must be an object"))),
   Demo.world [], [EvExecuteTool (call [("name", JStr "web"); ("patch", JStr "scale up")])])
  /\ run [("name", JStr "web"); ("patch", patch "redis:7")] =
     (Returned (Some (failed (call [("name", JStr "web"); ("patch", patch "redis:7")])
                             (Error "Image not allowed"))),
      Demo.world [], [EvExecuteTool (call [("name", JStr "web"); ("patch", patch "redis:7")])])
  /\ List.map method
       (invoked (eventsOf (run [("name", JStr "web"); ("patch", patch "nginx:1.27")]))) =
     [AppsV1_patchNamespacedDeployment].
Proof.
  intros patch call run. split; [|split].
  - apply (proj1 (updateDeployment_checks_patch (C := Demo.collaborators)
                    [("name", JStr "web"); ("patch", JStr "scale up")]
                    {["dev"]} ["nginx:"] 20 (Demo.world []))).
    reflexivity.
  - apply (proj1 (proj2 (updateDeployment_checks_patch (C := Demo.collaborators)
                           [("name", JStr "web"); ("patch", patch "redis:7")]
                           {["dev"]} ["nginx:"] 20 (Demo.world [])))).
    + reflexivity.
    + discriminate.
    + constructor. constructor; [reflexivity|constructor].
  - unfold run.
    rewrite (proj2 (proj2 (updateDeployment_checks_patch (C := Demo.collaborators)
                             [("name", JStr "web"); ("patch", patch "nginx:1.27")]
                             {["dev"]} ["nginx:"] 20 (Demo.world [])))).
    + reflexivity.
    + reflexivity.
    + right. constructor; [|constructor]. constructor. reflexivity.
Defined.

Lemma getIstioResource_error (kind : JsVal) (e : Exn) :
  getIstioResource kind = inl e ->
  e = Error ("Unsupported Istio kind: " +:+ toString kind).
Proof.
  unfold getIstioResource.
  repeat match goal with
         | |- (if ?b then _ else _) = _ -> _ => destruct b; [discriminate|]
         end.
  intros H. injection H as <-. reflexivity.
Qed.

Lemma toLowerCase_nonempty (k n : string) :
  toLowerCase k = n -> n <> "" -> truthy (JStr k) = true.
Proof. intros <- Hne. destruct k; [contradiction|reflexivity]. Qed.

(** X4. [getIstioResource] resolves a kind without regard to case: when
    it succeeds on a kind, it gives the same resource for every string
    that equals the kind up to case. The version is always [v1beta1] and
    the group is one of the two Istio API groups. When it fails, the error
    names the kind as it was given. *)
Theorem getIstioResource_ignores_case (kind : JsVal) :
  match getIstioResource kind with
  | inr (group, version, plural) =>
      version = "v1beta1"
      /\ In group ["networking.istio.io"; "security.istio.io"]
      /\ forall k : string,
          toLowerCase k = toLowerCase (toString kind) ->
          getIstioResource (JStr k) = inr (group, version, plural)
  | inl e => e = Error ("Unsupported Istio kind: " +:+ toString kind)
  end.
Proof.
  destruct (getIstioResource kind) as [e|[[group version] plural]] eqn:Hres;
    [exact (getIstioResource_error kind e Hres)|].
  revert Hres. unfold getIstioResource at 1.
  destruct (truthy kind) eqn:Htruthy.
  - unfold orElse. rewrite Htruthy.
    set (n := toLowerCase (toString kind)).
    repeat match goal with
           | |- (if String.eqb n ?x then _ else _) = _ -> _ =>
               destruct (String.eqb_spec n x) as [Hn|_];
               [intros Hres; injection Hres as <- <- <-;
                split; [reflexivity|]; split; [cbn; tauto|];
                intros k Hk; rewrite Hn in Hk;
                unfold getIstioResource, orElse;
                rewrite (toLowerCase_nonempty k _ Hk) by discriminate;
                change (toString (JStr k)) with k; rewrite Hk; reflexivity
               |]
           end.
    discriminate.
  - unfold orElse. rewrite Htruthy. discriminate.
Qed.

Lemma getIstioResource_ignores_case_witness :
  getIstioResource (JStr "VirtualService") =
  inr ("networking.istio.io", "v1beta1", "virtualservices")
  /\ getIstioResource (JStr "VIRTUALSERVICE") =
     inr ("networking.istio.io", "v1beta1", "virtualservices").
Proof.
  split; [reflexivity|].
  pose proof (getIstioResource_ignores_case (JStr "VirtualService")) as H.
  change (getIstioResource (JStr "VirtualService"))
    with (inr ("networking.istio.io", "v1beta1", "virtualservices")
          : Res (string * string * string)) in H.
  destruct H as (_ & _ & H). apply H. reflexivity.
Defined.

(** X5. The four Istio operations resolve the kind before they turn to
    the cluster: for a kind [getIstioResource] does not support, the call
    comes back failed without any backend invocation and with the state
    unchanged. The message is the one of [getIstioResource], or, for the
    two writing operations, the complaint about a manifest or patch that
    is not an object, which is checked first. *)
Theorem unsupported_istio_kind_never_reaches_backend `{C : Collaborators}
        (t : string) (a : JsObject) (ns : gset string) (imgs : list string) (mr : Z)
        (w : World) (e : Exn) :
  In t ["listIstioObject"; "getIstioObject"; "createIstioObject"; "updateIstioObject"] ->
  getIstioResource (field a "kind") = inl e ->
  let call := {| tool := t; args := a |} in
  exists msg,
    executeTool call ns imgs mr w =
    (Returned (Some (failed call (Error msg))), w, [EvExecuteTool call])
    /\ In msg ["Unsupported Istio kind: " +:+ toString (field a "kind");
               "Manifest must be an object"; "Patch must be an object"].
Proof.
  intros Ht Hkind call.
  pose proof (getIstioResource_error _ _ Hkind) as He.
  cbn [In] in Ht. destruct Ht as [<-|[<-|[<-|[<-|[]]]]]; subst call.
  - eexists. split; [|left; reflexivity].
    rewrite executeTool_run. unfold executeToolBody.
    match goal with |- context [toolOfString ?s] =>
      change (toolOfString s) with (Some listIstioObject) end.
    cbv iota beta. cbn [args]. rewrite Hkind, He. reflexivity.
  - eexists. split; [|left; reflexivity].
    rewrite executeTool_run. unfold executeToolBody.
    match goal with |- context [toolOfString ?s] =>
      change (toolOfString s) with (Some getIstioObject) end.
    cbv iota beta. cbn [args]. rewrite Hkind, He. reflexivity.
  - destruct (negb (truthy (field a "manifest")) || negb (typeofObject (field a "manifest")))
      eqn:Hm.
    + eexists. split; [|right; left; reflexivity].
      rewrite executeTool_run. unfold executeToolBody.
      match goal with |- context [toolOfString ?s] =>
        change (toolOfString s) with (Some createIstioObject) end.
      cbv iota beta. cbn [args]. rewrite Hm. reflexivity.
    + eexists. split; [|left; reflexivity].
      rewrite executeTool_run. unfold executeToolBody.
      match goal with |- context [toolOfString ?s] =>
        change (toolOfString s) with (Some createIstioObject) end.
      cbv iota beta. cbn [args]. rewrite Hm, Hkind, He. reflexivity.
  - destruct (negb (truthy (field a "patch")) || negb (typeofObject (field a "patch")))
      eqn:Hm.
    + eexists. split; [|right; right; left; reflexivity].
      rewrite executeTool_run. unfold executeToolBody.
      match goal with |- context [toolOfString ?s] =>
        change (toolOfString s) with (Some updateIstioObject) end.
      cbv iota beta. cbn [args]. rewrite Hm. reflexivity.
    + eexists. split; [|left; reflexivity].
      rewrite executeTool_run. unfold executeToolBody.
      match goal with |- context [toolOfString ?s] =>
        change (toolOfString s) with (Some updateIstioObject) end.
      cbv iota beta. cbn [args]. rewrite Hm, Hkind, He. reflexivity.
Qed.

Lemma unsupported_istio_kind_never_reaches_backend_witness :
  let call := {| tool := "listIstioObject";
                 args := [("namespace", JStr "dev"); ("kind", JStr "Sidecar")] |} in
  exists msg,
    executeTool (C := Demo.collaborators) call {["dev"]} [] 20 (Demo.world []) =
    (Returned (Some (failed call (Error msg))), Demo.world [], [EvExecuteTool call])
    /\ In msg ["Unsupported Istio kind: Sidecar";
               "Manifest must be an object"; "Patch must be an object"].
Proof.
  intros call.
  apply (unsupported_istio_kind_never_reaches_backend (C := Demo.collaborators)
           "listIstioObject" [("namespace", JStr "dev"); ("kind", JStr "Sidecar")]
           {["dev"]} [] 20 (Demo.world []) (Error "Unsupported Istio kind: Sidecar")).
  - cbn. tauto.
  - reflexivity.
Defined.

(* ===================================================================== *)
(** ** Further properties: read, change, replace *)
(* ===================================================================== *)

Lemma lookupField_setField_eq (o : JsObject) (k : string) (x : JsVal) :
  lookupField (setField o k x) k = Some x.
Proof.
  induction o as [|[k' v] o IH]; cbn [setField lookupField].
  - rewrite String.eqb_refl. reflexivity.
  - destruct (String.eqb k' k) eqn:Hk; cbn [lookupField]; rewrite Hk; [reflexivity|exact IH].
Qed.

Lemma lookupField_setField_ne (o : JsObject) (k k' : string) (x : JsVal) :
  k <> k' -> lookupField (setField o k x) k' = lookupField o k'.
Proof.
  intros Hne. induction o as [|[k0 v] o IH]; cbn [setField lookupField].
  - destruct (String.eqb_spec k k'); [contradiction|reflexivity].
  - destruct (String.eqb_spec k0 k) as [->|Hk0]; cbn [lookupField].
    + destruct (String.eqb_spec k k'); [contradiction|reflexivity].
    + destruct (String.eqb k0 k'); [reflexivity|exact IH].
Qed.

Lemma field_setField_eq (o : JsObject) (k : string) (x : JsVal) :
  field (setField o k x) k = x.
Proof. unfold field. rewrite lookupField_setField_eq. reflexivity. Qed.

Lemma field_setField_ne (o : JsObject) (k k' : string) (x : JsVal) :
  k <> k' -> field (setField o k x) k' = field o k'.
Proof. intros Hne. unfold field. rewrite lookupField_setField_ne by exact Hne. reflexivity. Qed.

Lemma lookupField_None (o : JsObject) (k : string) :
  ~ In k (List.map fst o) -> lookupField o k = None.
Proof.
  induction o as [|[k' v] o IH]; [reflexivity|]. cbn [List.map fst In lookupField].
  intros Hnot. destruct (String.eqb_spec k' k); [tauto|]. apply IH. tauto.
Qed.

(** In [{...a, ...b}] a key of [b] has the value [b] gives it, and every
    other key the value it has in [a]. *)
Lemma spread_lookup (b a : JsObject) (k : string) :
  List.NoDup (List.map fst b) ->
  lookupField (fold_left (fun o kv => setField o kv.1 kv.2) b a) k =
  match lookupField b k with Some v => Some v | None => lookupField a k end.
Proof.
  revert a. induction b as [|[k1 v1] b IH]; intros a Hnodup; [reflexivity|].
  cbn [List.map fst] in Hnodup. apply List.NoDup_cons_iff in Hnodup.
  destruct Hnodup as [Hfresh Hnodup'].
  cbn [fold_left fst snd lookupField]. rewrite (IH _ Hnodup').
  destruct (String.eqb_spec k1 k) as [->|Hne].
  - rewrite (lookupField_None b k Hfresh). apply lookupField_setField_eq.
  - rewrite lookupField_setField_ne by exact Hne. reflexivity.
Qed.

Section ReadChangeReplace.

Context `{C : Collaborators}.
Implicit Types (w : World).

Lemma events_callApi_ok {A} m ps (k : JsVal -> M A) w body c1 :
  backend {| method := m; params := ps |} (cluster w) = (inr body, c1) ->
  eventsOf ((callApi m ps ≫= k) w) =
  EvApi {| method := m; params := ps |}
  :: eventsOf (k body {| pendingBySession := pendingBySession w; cluster := c1;
                         oracle := oracle w |}).
Proof.
  intros Hb. rewrite run_bind. unfold callApi. rewrite Hb.
  destruct (k body _) as [[o w2] evs]. reflexivity.
Qed.

Lemma events_callApi_rejected {A} m ps (k : JsVal -> M A) w e c1 :
  backend {| method := m; params := ps |} (cluster w) = (inl e, c1) ->
  (callApi m ps ≫= k) w =
  (Threw e, {| pendingBySession := pendingBySession w; cluster := c1; oracle := oracle w |},
   [EvApi {| method := m; params := ps |}]).
Proof. intros Hb. rewrite run_bind. unfold callApi. rewrite Hb. reflexivity. Qed.

Lemma events_liftR_ok {A B} (r : Res A) (a : A) (k : A -> M B) w :
  r = inr a -> eventsOf ((liftR r ≫= k) w) = eventsOf (k a w).
Proof.
  intros ->. rewrite run_bind, run_liftR. destruct (k a w) as [[o w2] evs]. reflexivity.
Qed.

End ReadChangeReplace.

(** X6. [updateConfigMap] merges into the config map it reads. Without
    [data] and [binaryData] the call is refused with "No ConfigMap data to
    update" before any backend invocation. Otherwise the config map is
    read and then replaced, once each, and the replacement is the object
    read with [data] set to [{...current, ...data}] and [binaryData] set
    likewise, every other property as read: a key of the call's [data]
    takes the value of the call, and every other key keeps the value it
    has in the cluster. *)
Theorem updateConfigMap_merges_into_current `{C : Collaborators}
        (a : JsObject) (ns : gset string) (imgs : list string) (mr : Z) (w : World)
        (o : JsObject) (c1 : Cluster) :
  let call := {| tool := "updateConfigMap"; args := a |} in
  let data := field a "data" in
  let binaryData := field a "binaryData" in
  let run := executeTool call ns imgs mr w in
  let read := {| method := CoreV1_readNamespacedConfigMap;
                 params := [field a "name"; field a "namespace"] |} in
  (truthy data || truthy binaryData = false ->
   run = (Returned (Some (failed call (Error "No ConfigMap data to update"))), w,
          [EvExecuteTool call]))
  /\ (truthy data || truthy binaryData = true ->
      backend read (cluster w) = (inr (JObj o), c1) ->
      exists cm,
        invoked (eventsOf run) =
        [read; {| method := CoreV1_replaceNamespacedConfigMap;
                  params := [field a "name"; field a "namespace"; JObj cm] |}]
        /\ field cm "data" =
           spread2 (coalesce (field o "data") (JObj [])) (coalesce data (JObj []))
        /\ field cm "binaryData" =
           spread2 (coalesce (field o "binaryData") (JObj [])) (coalesce binaryData (JObj []))
        /\ (forall k, k <> "data" -> k <> "binaryData" -> field cm k = field o k)
        /\ (forall d current k,
               data = JObj d -> List.NoDup (List.map fst d) -> field o "data" = JObj current ->
               prop (field cm "data") k =
               match lookupField d k with Some v => v | None => field current k end)).
Proof.
  intros call data binaryData run read. subst run.
  assert (Hguard : negb (truthy data) && negb (truthy binaryData)
                   = negb (truthy data || truthy binaryData))
    by (destruct (truthy data), (truthy binaryData); reflexivity).
  split.
  - intros Hnone. rewrite executeTool_run. unfold executeToolBody.
    change (toolOfString (tool call)) with (Some updateConfigMap). cbv iota beta.
    change (field (args call) "data") with data.
    change (field (args call) "binaryData") with binaryData.
    rewrite Hguard, Hnone. reflexivity.
  - intros Hsome Hread.
    set (newData := spread2 (coalesce (field o "data") (JObj [])) (coalesce data (JObj []))).
    set (newBinary := spread2 (coalesce (field o "binaryData") (JObj []))
                              (coalesce binaryData (JObj []))).
    exists (setField (setField o "data" newData) "binaryData" newBinary).
    split; [|split; [|split; [|split]]].
    + rewrite executeTool_events. unfold executeToolBody.
      change (toolOfString (tool call)) with (Some updateConfigMap). cbv iota beta.
      change (field (args call) "data") with data.
      change (field (args call) "binaryData") with binaryData.
      change (field (args call) "name") with (field a "name").
      change (field (args call) "namespace") with (field a "namespace").
      rewrite Hguard, Hsome. cbn [negb].
      rewrite (events_callApi_ok _ _ _ _ _ _ Hread).
      rewrite (events_liftR_ok _ (JObj (setField (setField o "data" newData)
                                                 "binaryData" newBinary))).
      * rewrite events_callApi_then by (intros; apply keeps_liftR). reflexivity.
      * cbn [getProp nullish prop setProp mbind Res_bind].
        rewrite (field_setField_ne o "data" "binaryData") by discriminate.
        reflexivity.
    + rewrite field_setField_ne by discriminate. apply field_setField_eq.
    + apply field_setField_eq.
    + intros k Hd Hb. rewrite !field_setField_ne by congruence. reflexivity.
    + intros d current k Hdata Hnodup Hcur.
      rewrite field_setField_ne by discriminate. rewrite field_setField_eq.
      subst newData. rewrite Hdata, Hcur. cbn [coalesce nullish spread2 spreadOf prop].
      unfold field. rewrite (spread_lookup d current k Hnodup).
      destruct (lookupField d k); reflexivity.
Qed.

Lemma updateConfigMap_merges_into_current_witness :
  let a := [("namespace", JStr "dev"); ("name", JStr "settings");
            ("data", JObj [("mode", JStr "fast")])] in
  let call := {| tool := "updateConfigMap"; args := a |} in
  exists cm,
    invoked (eventsOf (executeTool (C := Demo.collaborators) call {["dev"]} [] 20
                                   (Demo.world []))) =
    [{| method := CoreV1_readNamespacedConfigMap;
        params := [JStr "settings"; JStr "dev"] |};
     {| method := CoreV1_replaceNamespacedConfigMap;
        params := [JStr "settings"; JStr "dev"; JObj cm] |}]
    /\ field cm "data" = JObj [("mode", JStr "fast")].
Proof.
  intros a call.
  destruct (proj2 (updateConfigMap_merges_into_current
                     (C := Demo.collaborators) a {["dev"]} [] 20 (Demo.world [])
                     [("metadata", JObj [("name", JStr "demo")]); ("items", JArr [])]
                     1%nat)
                  eq_refl eq_refl) as (cm & Hcalls & Hdata & _).
  exists cm. split; [exact Hcalls|]. rewrite Hdata. reflexivity.
Defined.

(** X7. [scaleDeployment] reads the deployment and replaces it, once
    each, and the replacement is the deployment read with [spec.replicas]
    set to the [replicas] of the call, every property outside [spec] as
    read. This holds whatever [maxReplicas] and the allowed namespaces
    are: the dispatcher compares the count with nothing. *)
Theorem scaleDeployment_sets_requested_replicas `{C : Collaborators}
        (a : JsObject) (ns : gset string) (imgs : list string) (mr : Z) (w : World)
        (o : JsObject) (c1 : Cluster) :
  let call := {| tool := "scaleDeployment"; args := a |} in
  let read := {| method := AppsV1_readNamespacedDeployment;
                 params := [field a "name"; field a "namespace"] |} in
  backend read (cluster w) = (inr (JObj o), c1) ->
  truthy (field o "spec") = false \/ (exists spec, field o "spec" = JObj spec) ->
  exists deployment,
    invoked (eventsOf (executeTool call ns imgs mr w)) =
    [read; {| method := AppsV1_replaceNamespacedDeployment;
              params := [field a "name"; field a "namespace"; JObj deployment] |}]
    /\ prop (field deployment "spec") "replicas" = field a "replicas"
    /\ (forall k, k <> "spec" -> field deployment k = field o k)
    /\ (forall spec k, field o "spec" = JObj spec -> k <> "replicas" ->
                       prop (field deployment "spec") k = field spec k).
Proof.
  intros call read Hread Hspec.
  assert (Hrun : forall deployment,
             (deployment ← initPath (JObj o) ["spec"];
              setPath deployment ["spec"; "replicas"] (field a "replicas"))
             = inr (JObj deployment) ->
             invoked (eventsOf (executeTool call ns imgs mr w)) =
             [read; {| method := AppsV1_replaceNamespacedDeployment;
                       params := [field a "name"; field a "namespace"; JObj deployment] |}]).
  { intros deployment Hchange.
    rewrite executeTool_events. unfold executeToolBody.
    change (toolOfString (tool call)) with (Some scaleDeployment). cbv iota beta.
    change (field (args call)) with (field a).
    rewrite (events_callApi_ok _ _ _ _ _ _ Hread).
    rewrite (events_liftR_ok _ (JObj deployment)) by exact Hchange.
    rewrite events_callApi_then by (intros; apply keeps_liftR). reflexivity. }
  destruct Hspec as [Hfalsy|[spec Hobj]].
  - exists (setField (setField o "spec" (JObj [])) "spec"
                     (JObj [("replicas", field a "replicas")])).
    split; [|split; [|split]].
    + apply Hrun. unfold initPath.
      cbn [getPath getProp nullish prop mbind Res_bind]. rewrite Hfalsy.
      cbn [setPath setProp getProp nullish prop mbind Res_bind].
      rewrite field_setField_eq. reflexivity.
    + rewrite field_setField_eq. reflexivity.
    + intros k Hk. rewrite !field_setField_ne by congruence. reflexivity.
    + intros spec k Hobj. rewrite Hobj in Hfalsy. discriminate Hfalsy.
  - exists (setField o "spec" (JObj (setField spec "replicas" (field a "replicas")))).
    split; [|split; [|split]].
    + apply Hrun. unfold initPath.
      cbn [getPath getProp nullish prop mbind Res_bind]. rewrite Hobj.
      cbn [truthy setPath setProp getProp nullish prop mbind Res_bind].
      rewrite Hobj. reflexivity.
    + rewrite field_setField_eq. cbn [prop]. apply field_setField_eq.
    + intros k Hk. rewrite field_setField_ne by congruence. reflexivity.
    + intros spec' k Hobj' Hk. rewrite field_setField_eq. cbn [prop].
      rewrite field_setField_ne by congruence. congruence.
Qed.

Lemma scaleDeployment_sets_requested_replicas_witness :
  let a := [("namespace", JStr "dev"); ("name", JStr "web"); ("replicas", JNum 500)] in
  let call := {| tool := "scaleDeployment"; args := a |} in
  exists deployment,
    invoked (eventsOf (executeTool (C := Demo.collaborators) call {["dev"]} [] 20
                                   (Demo.world []))) =
    [{| method := AppsV1_readNamespacedDeployment; params := [JStr "web"; JStr "dev"] |};
     {| method := AppsV1_replaceNamespacedDeployment;
        params := [JStr "web"; JStr "dev"; JObj deployment] |}]
    /\ prop (field deployment "spec") "replicas" = JNum 500.
Proof.
  intros a call.
  destruct (scaleDeployment_sets_requested_replicas
              (C := Demo.collaborators) a {["dev"]} [] 20 (Demo.world [])
              [("metadata", JObj [("name", JStr "demo")]); ("items", JArr [])] 1%nat
              eq_refl (or_introl eq_refl)) as (deployment & Hcalls & Hreplicas & _).
  exists deployment. split; [exact Hcalls|exact Hreplicas].
Defined.

(* ===================================================================== *)
(** ** Further properties: list results *)
(* ===================================================================== *)

Lemma mapR_Forall2 {A B} (f : A -> Res B) (l : list A) (l' : list B) :
  mapR f l = inr l' -> Forall2 (fun x y => f x = inr y) l l'.
Proof.
  revert l'. induction l as [|x l IH]; intros l' H; cbn [mapR] in H.
  - injection H as <-. constructor.
  - destruct (f x) as [e|y] eqn:Hx; [discriminate H|]. cbn [mbind Res_bind] in H.
    destruct (mapR f l) as [e|ys]; [discriminate H|]. cbn [mbind Res_bind mret Res_ret] in H.
    injection H as <-. constructor; [exact Hx|]. apply IH. reflexivity.
Qed.

Lemma mapR_total {A B} (f : A -> Res B) (l : list A) :
  (forall x, exists y, f x = inr y) -> exists l', mapR f l = inr l'.
Proof.
  intros Hf. induction l as [|x l [ys IH]]; [exists []; reflexivity|].
  destruct (Hf x) as [y Hy]. exists (y :: ys). cbn [mapR]. rewrite Hy, IH. reflexivity.
Qed.

(** The name and namespace [summarizeK8sItem] reads from an item. *)
Lemma summarizeK8sItem_identity (item : JsVal) (hint : string) (s : JsVal) :
  In hint ["Pod"; "Deployment"; "Service"; "ConfigMap"] ->
  summarizeK8sItem item (JStr hint) = inr s ->
  prop s "kind" = JStr hint
  /\ prop s "name" = optProp (coalesce (optProp item "metadata") (JObj [])) "name"
  /\ prop s "namespace" = optProp (coalesce (optProp item "metadata") (JObj [])) "namespace".
Proof.
  intros Hhint. cbn [In] in Hhint.
  destruct Hhint as [<-|[<-|[<-|[<-|[]]]]]; unfold summarizeK8sItem;
    cbn [strictEqStr coalesce nullish String.eqb Ascii.eqb Bool.eqb orb];
    intros H.
  - destruct (arrayItems _ _); [discriminate H|]. injection H as <-. repeat split.
  - injection H as <-. repeat split.
  - match type of H with context [if ?b then _ else _] => destruct b end.
    + injection H as <-. repeat split.
    + destruct (arrayItems _ _); [discriminate H|]. injection H as <-. repeat split.
  - injection H as <-. repeat split.
Qed.

Lemma summarizeK8sItem_total (item : JsVal) (hint : string) :
  In hint ["Deployment"; "ConfigMap"] ->
  exists s, summarizeK8sItem item (JStr hint) = inr s.
Proof.
  intros Hhint. cbn [In] in Hhint.
  destruct Hhint as [<-|[<-|[]]]; eexists; unfold summarizeK8sItem;
    cbn [strictEqStr coalesce nullish String.eqb Ascii.eqb Bool.eqb orb]; reflexivity.
Qed.

(** X8. The result of a list operation: for a response body with an
    [items] array, [ok] with the list option gives a successful result
    that holds one summary per item, in the order of the body, each with
    the kind of the operation and the name and namespace of its item's
    metadata, and the continuation token of the body ([metadata.continue],
    else [metadata._continue]). For deployments and config maps [ok]
    always returns; when it returns, the result has this form. *)
Theorem ok_summarizes_each_item (call : ToolCall) (body : JsVal) (items : list JsVal)
        (hint : string) :
  let options := Some {| summarizeList := true; kindHint := JStr hint |} in
  In hint ["Pod"; "Deployment"; "Service"; "ConfigMap"] ->
  prop body "items" = JArr items ->
  (In hint ["Deployment"; "ConfigMap"] -> exists r, ok call body options = inr r)
  /\ forall r,
      ok call body options = inr r ->
      rtool r = tool call /\ rargs r = args call /\ rok r = true
      /\ exists summaries,
          result r =
          JObj [("items", JArr summaries);
                ("continueToken",
                 coalesce (optProp (prop body "metadata") "continue")
                          (optProp (prop body "metadata") "_continue"))]
          /\ Forall2 (fun item s =>
                        prop s "kind" = JStr hint
                        /\ prop s "name" =
                           optProp (coalesce (optProp item "metadata") (JObj [])) "name"
                        /\ prop s "namespace" =
                           optProp (coalesce (optProp item "metadata") (JObj [])) "namespace")
                     items summaries.
Proof.
  intros options Hhint Hitems. subst options.
  assert (Htruthy : truthy body = true).
  { destruct body as [| | | | |l|o]; try discriminate Hitems; reflexivity. }
  unfold ok. cbn [summarizeList kindHint andb]. rewrite Htruthy, Hitems.
  unfold summarizeK8sList. split.
  - intros Htotal.
    destruct (mapR_total (fun item => summarizeK8sItem item (JStr hint)) items
                (fun item => summarizeK8sItem_total item hint Htotal)) as [l Hl].
    rewrite Hl. eexists. reflexivity.
  - intros r Hr.
    destruct (mapR _ items) as [e|summaries] eqn:Hmap; [discriminate Hr|].
    cbn [mbind Res_bind mret Res_ret] in Hr. injection Hr as <-.
    cbn [rtool rargs rok result]. repeat split.
    exists summaries. split; [reflexivity|].
    apply mapR_Forall2 in Hmap.
    eapply Forall2_impl; [exact Hmap|].
    intros item s Hs. exact (summarizeK8sItem_identity item hint s Hhint Hs).
Qed.

Lemma ok_summarizes_each_item_witness :
  let body :=
    JObj [("metadata", JObj [("continue", JStr "next-page")]);
          ("items",
           JArr [JObj [("metadata", JObj [("name", JStr "web"); ("namespace", JStr "dev")]);
                       ("spec", JObj [("replicas", JNum 2)])]])] in
  let call := {| tool := "listNamespacedDeployment"; args := [("namespace", JStr "dev")] |} in
  exists r,
    ok call body (Some {| summarizeList := true; kindHint := JStr "Deployment" |}) = inr r.
Proof.
  intros body call.
  apply (proj1 (ok_summarizes_each_item call body
                  [JObj [("metadata", JObj [("name", JStr "web"); ("namespace", JStr "dev")]);
                         ("spec", JObj [("replicas", JNum 2)])]]
                  "Deployment" ltac:(cbn; tauto) eq_refl)).
  cbn. tauto.
Defined.

(* ===================================================================== *)
(** ** Further properties: the planner *)
(* ===================================================================== *)

Lemma podsOfNamespaces_plan (text : string) (prior : History) (plan : Plan) :
  podsOfNamespaces text prior = inr (Some plan) ->
  exists names,
    plan = {| summary := "List pods in all namespaces";
              toolCalls := List.map (fun n => {| tool := "listNamespacedPod";
                                                 args := [("namespace", n)] |}) names;
              done := true |}.
Proof.
  unfold podsOfNamespaces. destruct prior as [|[r0|] rest]; try discriminate.
  destruct (String.eqb (rtool r0) "listNamespaces"); [|discriminate].
  destruct (includes text "pod" && includes text "all"); [|discriminate].
  destruct (arrayItems (result r0) "map") as [e|names]; [discriminate|].
  cbn [mbind Res_bind mret Res_ret]. intros H. injection H as <-. exists names. reflexivity.
Qed.

(** The plans of [fallbackPlan] after its first [if]. *)
Ltac fallback_cases H :=
  repeat match type of H with
         | (if ?b then _ else _) = _ => destruct b eqn:?
         | match ?x with Some _ => _ | None => _ end = _ => destruct x eqn:?
         end;
  try discriminate H; injection H as <-.

(** X9. Every call the fallback planner plans names a tool of the
    enumeration, so the dispatcher has a case for it. The planner never
    plans nothing: without prior results its plan has one or two calls,
    and each call is cluster-wide or targets the default namespace. Its
    only plan that asks for another iteration is the listing of the
    namespaces that precedes the listing of all pods. *)
Theorem fallbackPlan_plans_known_tools (userText defaultNamespace : string)
        (priorResults : History) (plan : Plan) :
  fallbackPlan userText defaultNamespace priorResults = inr plan ->
  Forall (fun c => toolOfString (tool c) <> None) (toolCalls plan)
  /\ (done plan = false ->
      toolCalls plan = [{| tool := "listNamespaces"; args := [] |}])
  /\ (priorResults = [] ->
      (1 <= length (toolCalls plan) <= 2)%nat
      /\ Forall (fun c => In (field (args c) "namespace")
                             [JStr defaultNamespace; JUndefined])
                (toolCalls plan)).
Proof.
  unfold fallbackPlan. intros H.
  destruct (podsOfNamespaces (toLowerCase userText) priorResults) as [e|[first|]] eqn:Hfirst;
    cbn [mbind Res_bind] in H; [discriminate H| |].
  - injection H as <-.
    destruct (podsOfNamespaces_plan _ _ _ Hfirst) as [names ->].
    cbn [toolCalls done]. split; [|split].
    + apply List.Forall_forall. intros c Hc. apply List.in_map_iff in Hc.
      destruct Hc as (n & <- & _). discriminate.
    + discriminate.
    + intros ->. discriminate Hfirst.
  - fallback_cases H; cbn [single toolCalls done].
    all: split; [repeat constructor; discriminate|].
    all: split; [first [discriminate|intros _; reflexivity]|].
    all: intros _; split; [cbn [length]; lia|].
    all: repeat match goal with |- Forall _ _ => constructor end;
      first [left; reflexivity|right; left; reflexivity].
Qed.

Lemma fallbackPlan_plans_known_tools_witness :
  let plan :=
    {| summary := "Deploy nginx pod";
       toolCalls :=
         [{| tool := "getNamespace"; args := [("name", JStr "dev")] |};
          {| tool := "createPod";
             args := [("namespace", JStr "dev"); ("name", JStr "nginx");
                      ("image", JStr "nginx:latest")] |}];
       done := true |} in
  fallbackPlan "Deploy NGINX please" "dev" [] = inr plan
  /\ Forall (fun c => toolOfString (tool c) <> None) (toolCalls plan).
Proof.
  intros plan. split; [reflexivity|].
  apply (fallbackPlan_plans_known_tools "Deploy NGINX please" "dev" [] plan). reflexivity.
Defined.

(** X10. The two steps of "all pods". A request that mentions pods and
    "all", and does not ask to list the namespaces, is first answered with
    a [listNamespaces] call and [done = false]. Once the first prior
    result is one of [listNamespaces], the same request is answered with
    one [listNamespacedPod] call per listed namespace, in order, and
    [done = true], whatever else the text matches. If that first result
    does not hold an array (as when the listing failed and holds the
    error message), the planner throws. *)
Theorem fallbackPlan_lists_pods_of_each_namespace (userText defaultNamespace : string)
        (r0 : ToolResult) (rest : History) :
  let text := toLowerCase userText in
  includes text "pod" = true ->
  includes text "all" = true ->
  (includes text "namespace" && (includes text "list" || includes text "what") = false ->
   fallbackPlan userText defaultNamespace [] =
   inr {| summary := "List all namespaces first";
          toolCalls := [{| tool := "listNamespaces"; args := [] |}];
          done := false |})
  /\ (rtool r0 = "listNamespaces" ->
      match result r0 with
      | JArr names =>
          fallbackPlan userText defaultNamespace (Some r0 :: rest) =
          inr {| summary := "List pods in all namespaces";
                 toolCalls := List.map (fun n => {| tool := "listNamespacedPod";
                                                    args := [("namespace", n)] |}) names;
                 done := true |}
      | _ => exists e, fallbackPlan userText defaultNamespace (Some r0 :: rest) = inl e
      end).
Proof.
  intros text Hpod Hall. split.
  - intros Hns. unfold fallbackPlan. cbn [podsOfNamespaces mbind Res_bind].
    fold text. rewrite Hns, Hpod, Hall. reflexivity.
  - intros Htool. unfold fallbackPlan, podsOfNamespaces. fold text.
    rewrite Htool, Hpod, Hall. cbn [String.eqb Ascii.eqb Bool.eqb andb].
    destruct (result r0); cbn [arrayItems mbind Res_bind throwR];
      first [reflexivity|eexists; reflexivity].
Qed.

Lemma fallbackPlan_lists_pods_of_each_namespace_witness :
  let listed :=
    {| rtool := "listNamespaces"; rargs := []; rok := true;
       result := JArr [JStr "dev"; JStr "qa"] |} in
  fallbackPlan "show all pods" "dev" [] =
  inr {| summary := "List all namespaces first";
         toolCalls := [{| tool := "listNamespaces"; args := [] |}];
         done := false |}
  /\ fallbackPlan "show all pods" "dev" [Some listed] =
     inr {| summary := "List pods in all namespaces";
            toolCalls :=
              [{| tool := "listNamespacedPod"; args := [("namespace", JStr "dev")] |};
               {| tool := "listNamespacedPod"; args := [("namespace", JStr "qa")] |}];
            done := true |}.
Proof.
  intros listed.
  destruct (fallbackPlan_lists_pods_of_each_namespace "show all pods" "dev" listed []
              eq_refl eq_refl) as [Hfirst Hsecond].
  split; [exact (Hfirst eq_refl)|exact (Hsecond eq_refl)].
Defined.

Section ArrayResponses.

Context `{C : Collaborators}.

(** X11. The array scan of [planWithLm]. From a response that parses to
    an array whose string elements do not look like objects (after
    [trim] they do not start with a brace), the planner takes the first
    element that is an object with [summary], [toolCalls] and a boolean
    [done], and when no element is one, the array itself. Whatever the
    elements, a value the scan returns is such an object or the array. *)
Theorem scanElements_takes_first_plan (elements : list JsVal) (parsedJson : JsVal) :
  (Forall (fun element => match element with
                          | JStr s => startsWith (trim s) "{" = false
                          | _ => True
                          end) elements ->
   scanElements elements parsedJson =
   inr (default parsedJson (List.find planShaped elements)))
  /\ (forall v, scanElements elements parsedJson = inr v ->
                v = parsedJson \/ planShaped v = true).
Proof.
  split.
  - induction 1 as [|element rest Helement _ IH]; [reflexivity|].
    cbn [scanElements List.find].
    destruct element as [| | | |s| |]; try rewrite Helement; cbn [mbind Res_bind];
      match goal with |- context [planShaped ?x] =>
        destruct (planShaped x); [reflexivity|exact IH] end.
  - induction elements as [|element rest IH]; intros v H; cbn [scanElements] in H.
    + injection H as <-. left. reflexivity.
    + match type of H with (mbind _ ?m) = _ => destruct m as [e|elementJson] end;
        [discriminate H|]. cbn [mbind Res_bind] in H.
      destruct (planShaped elementJson) eqn:Hshape; [|exact (IH v H)].
      injection H as <-. right. exact Hshape.
Qed.

End ArrayResponses.

Lemma scanElements_takes_first_plan_witness :
  let plan (s : string) :=
    JObj [("summary", JStr s); ("toolCalls", JArr []); ("done", JBool true)] in
  let elements := [JStr "Here is the plan"; plan "first"; plan "second"] in
  scanElements (C := Demo.collaborators) elements (JArr elements) = inr (plan "first").
Proof.
  intros plan elements.
  apply (proj1 (scanElements_takes_first_plan (C := Demo.collaborators) elements
                                              (JArr elements))).
  repeat constructor.
Defined.

(* ===================================================================== *)
(** ** Further properties: the language model *)
(* ===================================================================== *)

Lemma concat_cons (c : string) (cs : list string) :
  String.concat "" (c :: cs) = c +:+ String.concat "" cs.
Proof.
  destruct cs as [|d cs]; [|reflexivity]. cbn [String.concat].
  induction c as [|x c IH]; [reflexivity|]. rewrite append_cons, <- IH. reflexivity.
Qed.

Lemma chunks_trace (cs : list string) :
  let evs := List.map (fun chunk => EvMarkdown (MdChunk chunk)) cs in
  streamed evs = List.map MdChunk cs /\ executed evs = [] /\ invoked evs = [].
Proof.
  induction cs as [|c cs (IH1 & IH2 & IH3)]; [repeat split|].
  cbn [List.map]. repeat split; [|exact IH2|exact IH3].
  change (streamed (EvMarkdown ?md :: ?l)) with (md :: streamed l).
  cbn zeta in IH1. rewrite IH1. reflexivity.
Qed.

Section LanguageModel.

Context `{C : Collaborators}.
Implicit Types (w : World) (env : Env).

Lemma run_emit {A} ev (m : M A) w :
  (emit ev;; m) w = let '(o, w', evs) := m w in (o, w', ev :: evs).
Proof. destruct (emit_then ev m w) as (o & w' & evs & H1 & H2). rewrite H1, H2. reflexivity. Qed.

Lemma run_selectModels {A} family (k : option (list Model) -> M A) w ms o1 :
  selectChatModels family (oracle w) = (inr ms, o1) ->
  (selectModels family ≫= k) w =
  k ms {| pendingBySession := pendingBySession w; cluster := cluster w; oracle := o1 |}.
Proof.
  intros H. rewrite run_bind. unfold selectModels. rewrite H.
  destruct (k ms _) as [[o w2] evs]. reflexivity.
Qed.

Lemma run_send {A} model messages (k : Response -> M A) w resp o2 :
  sendRequest model messages (oracle w) = (inr resp, o2) ->
  (send model messages ≫= k) w =
  let '(o, w', evs) :=
    k resp {| pendingBySession := pendingBySession w; cluster := cluster w; oracle := o2 |} in
  (o, w', EvSendRequest model messages :: evs).
Proof.
  intros H. rewrite run_bind. unfold send. rewrite H.
  destruct (k resp _) as [[o w2] evs]. reflexivity.
Qed.

Lemma run_streamChunks cs acc w :
  streamChunks cs acc w =
  (Returned (acc +:+ String.concat "" cs), w,
   List.map (fun chunk => EvMarkdown (MdChunk chunk)) cs).
Proof.
  revert acc. induction cs as [|c cs IH]; intros acc.
  - cbn [streamChunks String.concat List.map].
    replace (acc +:+ "") with acc; [reflexivity|].
    induction acc as [|x acc IHacc]; [reflexivity|]. rewrite append_cons, <- IHacc. reflexivity.
  - cbn [streamChunks]. rewrite run_emit, IH, concat_cons, append_assoc. reflexivity.
Qed.

(** X12. With a model at hand, [formatWithLm] sends one request, made of
    the request text, the summary and the results, and writes every
    fragment of the answer to the stream as it is, in order. It returns
    the fragments joined; if the answer breaks off, the fragments received
    are already written and the error leaves the function. It calls no
    tool and no backend and leaves the pending actions and the cluster as
    they are. *)
Theorem formatWithLm_streams_every_chunk env (userText summary : string)
        (results : History) (family : string) w (model : Model) (ms : list Model)
        (o1 o2 : Oracle) (resp : Response) :
  let messages := [UserFormatRequest userText summary results;
                   AssistantFormatInstruction] in
  let run := formatWithLm env userText summary results family w in
  lm env = true ->
  selectChatModels family (oracle w) = (inr (Some (model :: ms)), o1) ->
  sendRequest model messages o1 = (inr resp, o2) ->
  run = (match failure resp with
         | None => Returned (ResponseText (String.concat "" (chunks resp)))
         | Some e => Threw e
         end,
         {| pendingBySession := pendingBySession w; cluster := cluster w; oracle := o2 |},
         EvFormatWithLm userText summary results
         :: EvSendRequest model messages
         :: List.map (fun chunk => EvMarkdown (MdChunk chunk)) (chunks resp))
  /\ streamed (eventsOf run) = List.map MdChunk (chunks resp)
  /\ executed (eventsOf run) = []
  /\ invoked (eventsOf run) = [].
Proof.
  intros messages run Hlm Hmodels Hsend.
  assert (Hrun : run =
                 (match failure resp with
                  | None => Returned (ResponseText (String.concat "" (chunks resp)))
                  | Some e => Threw e
                  end,
                  {| pendingBySession := pendingBySession w; cluster := cluster w;
                     oracle := o2 |},
                  EvFormatWithLm userText summary results
                  :: EvSendRequest model messages
                  :: List.map (fun chunk => EvMarkdown (MdChunk chunk)) (chunks resp))).
  { subst run. unfold formatWithLm. rewrite run_emit, Hlm. cbn [negb].
    rewrite (run_selectModels _ _ _ _ _ Hmodels).
    rewrite (run_send _ _ _ {| pendingBySession := pendingBySession w; cluster := cluster w;
                              oracle := o1 |} _ _ Hsend).
    rewrite run_bind, run_streamChunks. unfold endOfStream.
    destruct (failure resp); cbv [mbind M_bind throw mret M_ret];
      cbn [pendingBySession cluster oracle]; rewrite app_nil_r; reflexivity. }
  split; [exact Hrun|]. rewrite Hrun. unfold eventsOf. cbn [snd].
  change (streamed (?a :: ?b :: ?l)) with (streamed l).
  change (executed (?a :: ?b :: ?l)) with (executed l).
  change (invoked (?a :: ?b :: ?l)) with (invoked l).
  apply chunks_trace.
Qed.

(** X13. The planner falls back on [fallbackPlan] when the model answers
    with an empty text, or with a text that [jsonrepair] or [JSON.parse]
    rejects: what [planWithLm] then returns or throws is what
    [fallbackPlan] returns or throws on the request text, the default
    namespace and the prior results. The request to the model holds the
    request text and the context, and the prior results when there are
    some. *)
Theorem planWithLm_falls_back env (userText : string) (ctx : ExtensionConfig)
        (priorResults : History) (family : string) w (model : Model) (ms : list Model)
        (o1 o2 : Oracle) (resp : Response) :
  let messages := [UserRequest userText; AssistantContext] ++
                  match priorResults with [] => [] | _ => [UserPreviousResults priorResults] end in
  let rawText := String.concat "" (chunks resp) in
  lm env = true ->
  selectChatModels family (oracle w) = (inr (Some (model :: ms)), o1) ->
  sendRequest model messages o1 = (inr resp, o2) ->
  failure resp = None ->
  rawText = ""
  \/ (exists e, jsonrepair (stripFences rawText) = inl e)
  \/ (exists cleanedJson e, jsonrepair (stripFences rawText) = inr cleanedJson
                            /\ JSON_parse cleanedJson = inl e) ->
  planWithLm env userText ctx priorResults family w =
  (match fallbackPlan userText (defaultNamespace ctx) priorResults with
   | inr plan => Returned plan
   | inl e => Threw e
   end,
   {| pendingBySession := pendingBySession w; cluster := cluster w; oracle := o2 |},
   [EvPlanWithLm userText priorResults; EvSendRequest model messages]).
Proof.
  intros messages rawText Hlm Hmodels Hsend Hcomplete Hbad.
  assert (Hmessages : [UserRequest userText; AssistantContext] ++
                      (if (0 <? length priorResults)%nat
                       then [UserPreviousResults priorResults] else []) = messages).
  { subst messages. destruct priorResults; reflexivity. }
  unfold planWithLm. rewrite run_emit, Hlm. cbn [negb].
  rewrite (run_selectModels _ _ _ _ _ Hmodels). rewrite Hmessages.
  rewrite (run_send _ _ _ {| pendingBySession := pendingBySession w; cluster := cluster w;
                              oracle := o1 |} _ _ Hsend).
  unfold endOfStream. rewrite Hcomplete. fold rawText.
  destruct Hbad as [Hempty|Hbad].
  - rewrite Hempty. cbn [isEmpty].
    destruct (fallbackPlan userText (defaultNamespace ctx) priorResults); reflexivity.
  - assert (Hparse : exists e, parsePlanText rawText = inl e).
    { unfold parsePlanText. destruct Hbad as [[e He]|(c & e & Hc & He)].
      - rewrite He. eexists. reflexivity.
      - rewrite Hc. cbn [mbind Res_bind]. rewrite He. eexists. reflexivity. }
    destruct Hparse as [e Hparse].
    unfold planOfText. rewrite Hparse.
    destruct (isEmpty rawText);
      destruct (fallbackPlan userText (defaultNamespace ctx) priorResults); reflexivity.
Qed.

(** X14. Without a language model no request is planned. When
    [vscode.lm] is missing, [runAgentLoop] writes the one line "Failed to
    plan request" with the message "Language Model API not available" and
    returns: it calls no tool, and the state is as before. When the model
    selection comes back empty, the same line carries the [TypeError] of
    the call on the missing model. *)
Theorem runAgentLoop_without_model env (userText family : string)
        (init : option History) w :
  (lm env = false ->
   runAgentLoop env userText family init w =
   (Returned tt, w,
    [EvPlanWithLm userText (copyOrEmpty init);
     EvMarkdown (MdPlanFailed "Language Model API not available")]))
  /\ (forall o1,
         lm env = true ->
         selectChatModels family (oracle w) = (inr (Some []), o1) ->
         runAgentLoop env userText family init w =
         (Returned tt,
          {| pendingBySession := pendingBySession w; cluster := cluster w; oracle := o1 |},
          [EvPlanWithLm userText (copyOrEmpty init);
           EvMarkdown (MdPlanFailed (message (typeErrorRead "sendRequest")))])).
Proof.
  split.
  - intros Hlm. unfold runAgentLoop, MAX_ITERATIONS. rewrite run_bind, agentLoop_step.
    change (0 <? MAX_ITERATIONS)%nat with true. cbv iota.
    rewrite run_bind. unfold tryPlan, tryCatch. rewrite run_bind.
    unfold planWithLm. rewrite run_emit, Hlm. reflexivity.
  - intros o1 Hlm Hmodels. unfold runAgentLoop, MAX_ITERATIONS.
    rewrite run_bind, agentLoop_step.
    change (0 <? MAX_ITERATIONS)%nat with true. cbv iota.
    rewrite run_bind. unfold tryPlan, tryCatch. rewrite run_bind.
    unfold planWithLm. rewrite run_emit, Hlm. cbn [negb].
    rewrite (run_selectModels _ _ _ _ _ Hmodels). reflexivity.
Qed.

End LanguageModel.

Lemma formatWithLm_streams_every_chunk_witness :
  streamed (eventsOf (formatWithLm (C := Demo.collaborators) Demo.env "list pods"
                                   "Listed pods" [] "gpt-4o"
                                   (Demo.world ["Two pods are running."]))) =
  [MdChunk "Two pods are running."].
Proof.
  apply (proj1 (proj2 (formatWithLm_streams_every_chunk
                         (C := Demo.collaborators) Demo.env "list pods" "Listed pods" []
                         "gpt-4o" (Demo.world ["Two pods are running."]) "copilot" []
                         ["Two pods are running."] []
                         {| chunks := ["Two pods are running."]; failure := None |}
                         eq_refl eq_refl eq_refl))).
Defined.

Lemma planWithLm_falls_back_witness :
  outcomeOf (planWithLm (C := Demo.collaborators) Demo.env "What namespaces exist?"
                        Demo.config [] "gpt-4o" (Demo.world [])) =
  Returned {| summary := "List all namespaces";
              toolCalls := [{| tool := "listNamespaces"; args := [] |}];
              done := true |}.
Proof.
  rewrite (planWithLm_falls_back (C := Demo.collaborators) Demo.env
             "What namespaces exist?" Demo.config [] "gpt-4o" (Demo.world [])
             "copilot" [] [] [] {| chunks := []; failure := None |}
             eq_refl eq_refl eq_refl eq_refl (or_introl eq_refl)).
  reflexivity.
Defined.

Lemma runAgentLoop_without_model_witness :
  let env := {| cfg := Demo.config; kubeConfigError := None;
                sessionKey := "no-workspace"; lm := false |} in
  runAgentLoop (C := Demo.collaborators) env "list pods" "gpt-4o" None (Demo.world []) =
  (Returned tt, Demo.world [],
   [EvPlanWithLm "list pods" [];
    EvMarkdown (MdPlanFailed "Language Model API not available")]).
Proof.
  intros env.
  apply (proj1 (runAgentLoop_without_model (C := Demo.collaborators) env "list pods"
                                           "gpt-4o" None (Demo.world []))).
  reflexivity.
Defined.

(* ===================================================================== *)
(** ** Further properties: turns *)
(* ===================================================================== *)

Lemma trimStart_blank (s : string) :
  forallb isSpace (list_ascii_of_string s) = true <-> trimStart s = "".
Proof.
  induction s as [|c s IH]; [split; reflexivity|].
  cbn [list_ascii_of_string forallb trimStart]. destruct (isSpace c); cbn [andb].
  - exact IH.
  - split; discriminate.
Qed.

Lemma trimEnd_empty (s : string) : trimEnd s = "" -> forallb isSpace (list_ascii_of_string s) = true.
Proof.
  induction s as [|c s IH]; [reflexivity|]. cbn [trimEnd list_ascii_of_string forallb].
  destruct (trimEnd s) eqn:Hs; [|discriminate].
  destruct (isSpace c); [intros _; apply IH; reflexivity|discriminate].
Qed.

Lemma trimStart_head (s : string) :
  match trimStart s with
  | EmptyString => True
  | String c _ => isSpace c = false
  end.
Proof.
  induction s as [|c s IH]; [exact I|]. cbn [trimStart].
  destruct (isSpace c) eqn:Hc; [exact IH|exact Hc].
Qed.

(** A prompt is blank, for [trim], exactly when it holds white space only. *)
Lemma trim_blank (s : string) :
  isEmpty (trim s) = true <-> forallb isSpace (list_ascii_of_string s) = true.
Proof.
  unfold trim. split.
  - intros H. apply trimStart_blank.
    pose proof (trimStart_head s) as Hhead.
    destruct (trimStart s) as [|c t]; [reflexivity|].
    assert (Hend : trimEnd (String c t) = "")
      by (destruct (trimEnd (String c t)); [reflexivity|discriminate H]).
    apply trimEnd_empty in Hend. cbn [list_ascii_of_string forallb] in Hend.
    rewrite Hhead in Hend. discriminate Hend.
  - intros H. apply trimStart_blank in H. rewrite H. reflexivity.
Qed.

Section IdleTurns.

Context `{C : Collaborators}.
Implicit Types (w : World) (env : Env).

(** X15. Turns that do nothing. A prompt of white space only is
    answered with the help text, and a prompt met by a kubeconfig that
    fails to load with the line that reports the failure. In both cases
    that line is all the turn does: no planner call, no tool, no backend
    invocation, and the state, with a stored pending action if there is
    one, is as before, also when the prompt is "confirm". *)
Theorem turn_without_prompt_or_kubeconfig env (req : Request) w :
  (forallb isSpace (list_ascii_of_string (prompt req)) = true ->
   handleChatRequest env req w = (Returned tt, w, [EvMarkdown MdHelp]))
  /\ (forall e,
         forallb isSpace (list_ascii_of_string (prompt req)) = false ->
         kubeConfigError env = Some e ->
         handleChatRequest env req w =
         (Returned tt, w, [EvMarkdown (MdKubeconfigFailed (message e))])).
Proof.
  split.
  - intros Hblank. apply trim_blank in Hblank.
    unfold handleChatRequest. rewrite Hblank. reflexivity.
  - intros e Htext Hkc.
    assert (Hne : isEmpty (trim (prompt req)) = false).
    { destruct (isEmpty (trim (prompt req))) eqn:Hb; [|reflexivity].
      apply trim_blank in Hb. congruence. }
    unfold handleChatRequest. rewrite Hne, Hkc. reflexivity.
Qed.

(** X16. A turn touches the pending action of its own session only: for
    every other session key, the stored action after the turn is the one
    stored before it. *)
Theorem turn_keeps_other_sessions env (req : Request) w (key : string) :
  key <> sessionKey env ->
  pendingBySession (stateOf (handleChatRequest env req w)) !! key =
  pendingBySession w !! key.
Proof.
  intros Hkey.
  assert (Hloop : forall userText family init w0,
             pendingBySession (stateOf (runAgentLoop env userText family init w0)) !! key =
             pendingBySession w0 !! key).
  { intros userText family init w0.
    destruct (runAgentLoop_facts env userText family init w0) as [_ H]. cbv zeta in H.
    destruct (suspended _).
    - destruct H as (plan & rs & pre & _ & _ & _ & _ & ->).
      apply lookup_insert_ne. congruence.
    - rewrite H. reflexivity. }
  destruct (handleChatRequest_cases env req w)
    as [[_ ->]|[(e & _ & ->)|[(p & _ & _ & _ & Ha & _ & ->)|[(p & _ & _ & _ & _ & _ & ->)|(_ & _ & _ & ->)]]]].
  - reflexivity.
  - reflexivity.
  - destruct (handlePendingAction_confirm env (trim (prompt req)) p (modelFamily req) w Ha)
      as (ros & blocks & w1 & _ & _ & Hw1 & H).
    cbv zeta in H.
    assert (Hdel : pendingBySession w1 !! key = pendingBySession w !! key)
      by (rewrite Hw1; apply lookup_delete_ne; congruence).
    destruct (done (plan p)); destruct H as (_ & -> & _).
    + destruct (formatWithLm_run env (originalUserText p) (summary (plan p))
                                 (priorResults p ++ ros) (modelFamily req) w1)
        as (o & w' & fevs & -> & _ & Hp & _).
      unfold stateOf. cbn [fst snd]. rewrite Hp. exact Hdel.
    + rewrite Hloop. exact Hdel.
  - unfold stateOf, cleared. cbn [fst snd pendingBySession].
    apply lookup_delete_ne. congruence.
  - apply Hloop.
Qed.

End IdleTurns.

Lemma turn_without_prompt_or_kubeconfig_witness :
  let createNginx := {| tool := "createPod"; args := [("name", JStr "nginx")] |} in
  let p := {| originalUserText := "deploy nginx";
              plan := {| summary := "Deploy nginx pod"; toolCalls := [createNginx];
                         done := true |};
              pendingToolCalls := [createNginx]; priorResults := [] |} in
  let env := {| cfg := Demo.config; kubeConfigError := Some (Error "no such file");
                sessionKey := "no-workspace"; lm := true |} in
  let w := awaiting (C := Demo.collaborators) env p (Demo.world []) in
  handleChatRequest (C := Demo.collaborators) env (Demo.say "   ") w =
  (Returned tt, w, [EvMarkdown MdHelp])
  /\ handleChatRequest (C := Demo.collaborators) env (Demo.say "confirm") w =
     (Returned tt, w, [EvMarkdown (MdKubeconfigFailed "no such file")]).
Proof.
  intros createNginx p env w. split.
  - apply (proj1 (turn_without_prompt_or_kubeconfig (C := Demo.collaborators) env
                                                    (Demo.say "   ") w)).
    reflexivity.
  - apply (proj2 (turn_without_prompt_or_kubeconfig (C := Demo.collaborators) env
                                                    (Demo.say "confirm") w)
                 (Error "no such file")); reflexivity.
Defined.

Lemma turn_keeps_other_sessions_witness :
  let createNginx := {| tool := "createPod"; args := [("name", JStr "nginx")] |} in
  let p := {| originalUserText := "deploy nginx";
              plan := {| summary := "Deploy nginx pod"; toolCalls := [createNginx];
                         done := true |};
              pendingToolCalls := [createNginx]; priorResults := [] |} in
  let other := {| cfg := Demo.config; kubeConfigError := None;
                  sessionKey := "/home/dev/shop"; lm := true |} in
  let w := awaiting (C := Demo.collaborators) other p (Demo.world []) in
  pendingBySession (stateOf (handleChatRequest (C := Demo.collaborators) Demo.env
                                               (Demo.say "cancel") w))
  !! "/home/dev/shop" = pendingBySession w !! "/home/dev/shop".
Proof.
  intros createNginx p other w.
  apply (turn_keeps_other_sessions (C := Demo.collaborators) Demo.env (Demo.say "cancel") w).
  discriminate.
Defined.

(** X17. The confirmation patterns accept whole words only. A text is
    affirmative exactly when it is one of confirm, yes, proceed and ok, and
    negative exactly when it is one of cancel, no and stop, in both cases
    up to the case of its letters and with nothing before or after the
    word; no text is both. *)
Theorem confirmation_patterns_accept_whole_words (text : string) :
  isAffirmative text = oneOf ["confirm"; "yes"; "proceed"; "ok"] text
  /\ isNegative text = oneOf ["cancel"; "no"; "stop"] text
  /\ isAffirmative text && isNegative text = false.
Proof.
  split; [apply isAffirmative_words|]. split; [apply isNegative_words|].
  destruct (isNegative text) eqn:Hn.
  - rewrite (negative_not_affirmative text Hn). reflexivity.
  - apply andb_false_r.
Qed.

Section MixedPlans.

Context `{C : Collaborators}.
Implicit Types (w : World) (env : Env).

(** X18. A plan that mixes reads and changes. When the first plan of a
    run holds a mutating call, [runAgentLoop] executes the read-only
    calls of the plan at once, in the order of the plan and without any
    confirmation, then stores the mutating calls for the session together
    with the history extended by the results of the reads, writes the
    confirmation prompt, and returns. None of the mutating calls is
    executed. *)
Theorem reads_run_before_the_prompt env (userText family : string)
        (init : option History) w (plan : Plan) (w1 : World) (pevs : list Event) :
  let readonlyCalls := (splitToolCalls (toolCalls plan)).1 in
  let mutatingCalls := (splitToolCalls (toolCalls plan)).2 in
  planWithLm env userText (cfg env) (copyOrEmpty init) family w = (Returned plan, w1, pevs) ->
  mutatingCalls <> [] ->
  exists (rs : History) (blocks : list (list Event)) (w2 : World),
    runAgentLoop env userText family init w =
    (Returned tt, w2,
     pevs ++ concat blocks ++ promptEvents (summary plan) mutatingCalls)
    /\ Forall2 toolBlock readonlyCalls blocks
    /\ executed (concat blocks) = readonlyCalls
    /\ Forall2 resultFor readonlyCalls rs
    /\ pendingBySession w2 =
       <[sessionKey env :=
           {| originalUserText := userText; plan := plan;
              pendingToolCalls := mutatingCalls;
              priorResults := copyOrEmpty init ++ rs |}]> (pendingBySession w1).
Proof.
  intros readonlyCalls mutatingCalls Hplan Hmut.
  destruct (executeReadonlyCalls_run readonlyCalls (cfg env) (copyOrEmpty init) w1)
    as (rs & blocks & w2 & Hreads & Hblocks & Hresults & Hpending).
  exists rs, blocks.
  eexists. split; [|split; [exact Hblocks|split; [|split; [exact Hresults|]]]].
  - unfold runAgentLoop, MAX_ITERATIONS. rewrite run_bind, agentLoop_step.
    change (0 <? MAX_ITERATIONS)%nat with true. cbv iota.
    rewrite run_bind. unfold tryPlan, tryCatch. rewrite run_bind, Hplan.
    change ((mret (Some plan) : M (option Plan)) w1)
      with (Returned (Some plan), w1, @nil Event).
    cbv iota beta zeta. rewrite app_nil_r.
    assert (Hnonempty : (length (toolCalls plan) =? 0)%nat = false).
    { destruct (toolCalls plan); [exfalso; apply Hmut; reflexivity|reflexivity]. }
    rewrite Hnonempty. cbn [andb].
    change (splitToolCalls (toolCalls plan)) with (readonlyCalls, mutatingCalls).
    cbv iota beta. rewrite run_bind, Hreads.
    assert (Hsome : (0 <? length mutatingCalls)%nat = true)
      by (destruct mutatingCalls; [contradiction|reflexivity]).
    rewrite Hsome, suspend_run. cbv [mret M_ret]. cbv beta iota zeta.
    rewrite app_nil_r. reflexivity.
  - apply toolBlocks_events. exact Hblocks.
  - cbn [pendingBySession]. rewrite Hpending. reflexivity.
Qed.

End MixedPlans.

Lemma reads_run_before_the_prompt_witness :
  let getNs := {| tool := "getNamespace"; args := [("name", JStr "dev")] |} in
  let createNginx :=
    {| tool := "createPod";
       args := [("namespace", JStr "dev"); ("name", JStr "nginx");
                ("image", JStr "nginx:latest")] |} in
  let run := runAgentLoop (C := Demo.collaborators) Demo.env "deploy nginx" "gpt-4o" None
                          (Demo.world []) in
  executed (eventsOf run) = [getNs]
  /\ pendingToolCalls <$> (pendingBySession (stateOf run) !! "no-workspace") =
     Some [createNginx].
Proof.
  intros getNs createNginx run.
  destruct (reads_run_before_the_prompt
              (C := Demo.collaborators) Demo.env "deploy nginx" "gpt-4o" None (Demo.world [])
              {| summary := "Deploy nginx pod"; toolCalls := [getNs; createNginx];
                 done := true |}
              (Demo.world [])
              [EvPlanWithLm "deploy nginx" []; EvSendRequest "copilot"
                 [UserRequest "deploy nginx"; AssistantContext]]
              eq_refl ltac:(discriminate))
    as (rs & blocks & w2 & Hrun & _ & Hexec & _ & Hp).
  subst run. rewrite Hrun. unfold eventsOf, stateOf. cbn [fst snd]. split.
  - rewrite !executed_app, Hexec. reflexivity.
  - rewrite Hp. rewrite lookup_insert_eq. reflexivity.
Defined.

(* ===================================================================== *)
(** ** Further properties: the text of a response object *)
(* ===================================================================== *)

Lemma trimEnd_idempotent (s : string) : trimEnd (trimEnd s) = trimEnd s.
Proof.
  induction s as [|c s IH]; [reflexivity|]. cbn [trimEnd].
  destruct (trimEnd s) as [|d t] eqn:Hs.
  - destruct (isSpace c) eqn:Hc; [reflexivity|]. cbn [trimEnd]. rewrite Hc. reflexivity.
  - change (trimEnd (String c (String d t)))
      with (match trimEnd (String d t) with
            | EmptyString => if isSpace c then EmptyString else String c EmptyString
            | r => String c r
            end).
    rewrite IH. reflexivity.
Qed.

Lemma trimStart_trimEnd (s : string) :
  match s with EmptyString => True | String c _ => isSpace c = false end ->
  trimStart (trimEnd s) = trimEnd s.
Proof.
  destruct s as [|c s]; [reflexivity|]. intros Hc. cbn [trimEnd].
  destruct (trimEnd s); [rewrite Hc|]; cbn [trimStart]; rewrite Hc; reflexivity.
Qed.

Lemma trim_idempotent (s : string) : trim (trim s) = trim s.
Proof.
  unfold trim. rewrite (trimStart_trimEnd _ (trimStart_head s)). apply trimEnd_idempotent.
Qed.

Lemma mapR_textParts (parts : list JsVal) :
  Forall (fun c => nullish c = false) parts ->
  mapR (fun c =>
          type ← getProp c "type";
          if strictEqStr type "text" then
            match prop c "text" with
            | JStr text => inr (Some text)
            | _ => inr None
            end
          else inr None) parts
  = inr (List.map textPart parts).
Proof.
  induction 1 as [|c parts Hc _ IH]; [reflexivity|].
  cbn [mapR List.map]. rewrite IH. unfold getProp at 1. rewrite Hc.
  cbn [mbind Res_bind]. unfold textPart.
  destruct (strictEqStr (prop c "type") "text"); [destruct (prop c "text")|]; reflexivity.
Qed.

Lemma mapR_throws {A B} (f : A -> Res B) (l : list A) (x : A) (e : Exn) :
  In x l -> f x = inl e -> exists e', mapR f l = inl e'.
Proof.
  intros Hin Hx. induction l as [|y l IH]; [contradiction|].
  cbn [mapR]. destruct (f y) as [e'|b] eqn:Hy; [exists e'; reflexivity|].
  cbn [mbind Res_bind]. destruct Hin as [->|Hin]; [congruence|].
  destruct (IH Hin) as [e' ->]. exists e'. reflexivity.
Qed.

(** X19. [extractTextFromLmResponse] gives a text without white space at
    either end. For a missing response it is the empty text. When the
    response has a [content] array, the text is made of the string texts
    of the parts of type [text], in order and joined without separator,
    whatever [resp.text] holds; a part that is [null] or [undefined] makes
    the function throw. *)
Theorem extractTextFromLmResponse_is_trimmed (resp : JsVal) :
  (forall text, extractTextFromLmResponse resp = inr text -> trim text = text)
  /\ (truthy resp = false -> extractTextFromLmResponse resp = inr "")
  /\ (forall parts,
         truthy resp = true -> prop resp "content" = JArr parts ->
         (Forall (fun c => nullish c = false) parts ->
          extractTextFromLmResponse resp =
          inr (trim (String.concat "" (omap id (List.map textPart parts)))))
         /\ (Exists (fun c => nullish c = true) parts ->
             exists e, extractTextFromLmResponse resp = inl e)).
Proof.
  split; [|split].
  - intros text. unfold extractTextFromLmResponse.
    destruct (truthy resp); cbn [negb]; [|intros H; injection H as <-; reflexivity].
    destruct (prop resp "content") as [| | | |content|parts|o];
      try (destruct (prop resp "text");
           intros H; injection H as <-; first [reflexivity|apply trim_idempotent]).
    destruct (mapR _ parts) as [e|texts]; [discriminate|].
    cbn [mbind Res_bind mret Res_ret]. intros H. injection H as <-. apply trim_idempotent.
  - intros Hfalsy. unfold extractTextFromLmResponse. rewrite Hfalsy. reflexivity.
  - intros parts Htruthy Hcontent. split.
    + intros Hparts. unfold extractTextFromLmResponse.
      rewrite Htruthy, Hcontent. cbn [negb]. rewrite (mapR_textParts parts Hparts).
      reflexivity.
    + intros Hnull. apply List.Exists_exists in Hnull. destruct Hnull as (c & Hin & Hc).
      unfold extractTextFromLmResponse. rewrite Htruthy, Hcontent. cbn [negb].
      match goal with |- context [mapR ?f parts] =>
        destruct (mapR_throws f parts c (typeErrorRead "type") Hin) as [e He] end.
      * unfold getProp. rewrite Hc. reflexivity.
      * rewrite He. exists e. reflexivity.
Qed.

Lemma extractTextFromLmResponse_is_trimmed_witness :
  let resp :=
    JObj [("content",
           JArr [JObj [("type", JStr "text"); ("text", JStr "  Two pods ")];
                 JObj [("type", JStr "image"); ("text", JStr "ignored")];
                 JObj [("type", JStr "text"); ("text", JStr "are running. ")]]);
          ("text", JStr "unused")] in
  extractTextFromLmResponse resp = inr "Two pods are running.".
Proof.
  intros resp.
  rewrite (proj1 (proj2 (proj2 (extractTextFromLmResponse_is_trimmed resp))
                        [JObj [("type", JStr "text"); ("text", JStr "  Two pods ")];
                         JObj [("type", JStr "image"); ("text", JStr "ignored")];
                         JObj [("type", JStr "text"); ("text", JStr "are running. ")]]
                        eq_refl eq_refl)).
  - reflexivity.
  - repeat constructor.
Defined.

(* ===================================================================== *)
(** ** Further properties: the cost of a call *)
(* ===================================================================== *)

Section Cost.

Context `{C : Collaborators}.
Implicit Types (w : World) (call : ToolCall).

Lemma atMost_ret {A} n (a : A) : atMost n (mret a).
Proof. intros w. cbn. lia. Qed.

Lemma atMost_throw {A} n e : atMost n (throw (A := A) e).
Proof. intros w. cbn. lia. Qed.

Lemma atMost_liftR {A} n (r : Res A) : atMost n (liftR r).
Proof. intros w. rewrite run_liftR. cbn. lia. Qed.

Lemma atMost_okM n call r options : atMost n (okM call r options).
Proof. apply atMost_liftR. Qed.

Lemma atMost_liftR_bind {A B} n (r : Res A) (k : A -> M B) :
  (forall a, atMost n (k a)) -> atMost n (liftR r ≫= k).
Proof.
  intros Hk w. rewrite run_bind, run_liftR. destruct r as [e|a]; [cbn; lia|].
  specialize (Hk a w). unfold eventsOf in *. destruct (k a w) as [[o w2] evs]. exact Hk.
Qed.

Lemma atMost_callApi_bind {A} n m ps (k : JsVal -> M A) :
  (forall body, atMost n (k body)) -> atMost (S n) (callApi m ps ≫= k).
Proof.
  intros Hk w. rewrite run_bind. unfold callApi.
  destruct (backend _ _) as [[e|body] c1]; [cbn; lia|].
  match goal with |- context [k body ?w1] => specialize (Hk body w1) end.
  unfold eventsOf in *. destruct (k body _) as [[o w2] evs]. cbn in *. lia.
Qed.

Lemma atMost_weaken {A} n n' (m : M A) : (n <= n')%nat -> atMost n m -> atMost n' m.
Proof. intros Hle Hm w. specialize (Hm w). lia. Qed.

End Cost.

(** One step of a proof that a computation leaves at most so many events. *)
Ltac step_cost :=
  match goal with
  | |- atMost _ (mret _) => apply atMost_ret
  | |- atMost _ (throw _) => apply atMost_throw
  | |- atMost _ (okM _ _ _) => apply atMost_okM
  | |- atMost _ (mbind _ (liftR _)) => apply atMost_liftR_bind; intros
  | |- atMost _ (mbind _ (callApi _ _)) => apply atMost_callApi_bind; intros
  | |- atMost _ (if ?b then _ else _) => destruct b
  | |- atMost _ (match ?x with _ => _ end) => destruct x
  end.

Section CostOfACall.

Context `{C : Collaborators}.
Implicit Types (w : World) (call : ToolCall).

Lemma executeToolBody_cost call ns imgs mr :
  atMost 2 (executeToolBody call ns imgs mr)
  /\ (isMutating (tool call) = false -> atMost 1 (executeToolBody call ns imgs mr)).
Proof.
  unfold executeToolBody.
  destruct (toolOfString (tool call)) as [t|] eqn:Ht.
  2: { split; [|intros _]; apply atMost_ret. }
  apply toolOfString_Some in Ht. split.
  - destruct t; repeat step_cost.
  - intros Hm. rewrite Ht in Hm. destruct t; try discriminate Hm; repeat step_cost.
Qed.

Lemma invoked_length (evs : list Event) : (length (invoked evs) <= length evs)%nat.
Proof.
  induction evs as [|e evs IH]; [reflexivity|].
  destruct e;
    first [change (invoked (EvApi call :: evs)) with (call :: invoked evs)
          |match goal with |- context [invoked (?e :: evs)] =>
             change (invoked (e :: evs)) with (invoked evs) end];
    cbn [length]; lia.
Qed.

(** X20. What a call costs the cluster: [executeTool] makes at most two
    backend invocations for a call, and at most one for a call whose tool
    is not mutating. *)
Theorem executeTool_invokes_backend_at_most_twice
        call (ns : gset string) (imgs : list string) (mr : Z) w :
  let calls := invoked (eventsOf (executeTool call ns imgs mr w)) in
  (length calls <= 2)%nat
  /\ (isMutating (tool call) = false -> (length calls <= 1)%nat).
Proof.
  intros calls. subst calls. rewrite executeTool_events.
  change (invoked (EvExecuteTool call :: ?evs)) with (invoked evs).
  destruct (executeToolBody_cost call ns imgs mr) as [Htwo Hone].
  pose proof (invoked_length (eventsOf (executeToolBody call ns imgs mr w))) as Hlen.
  split.
  - specialize (Htwo w). lia.
  - intros Hm. specialize (Hone Hm w). lia.
Qed.

End CostOfACall.

Lemma executeTool_invokes_backend_at_most_twice_witness :
  let call := {| tool := "listNamespacedPod"; args := [("namespace", JStr "dev")] |} in
  (length (invoked (eventsOf (executeTool (C := Demo.collaborators) call {["dev"]} [] 20
                                          (Demo.world [])))) <= 1)%nat.
Proof.
  intros call.
  apply (proj2 (executeTool_invokes_backend_at_most_twice
                  (C := Demo.collaborators) call {["dev"]} [] 20 (Demo.world []))).
  reflexivity.
Defined.

(* ===================================================================== *)
(** ** Further properties: from the listing of namespaces to the pods *)
(* ===================================================================== *)

Lemma filter_truthy (l : list JsVal) : Forall (fun v => truthy v = true) (List.filter truthy l).
Proof.
  apply List.Forall_forall. intros v Hv. apply List.filter_In in Hv. tauto.
Qed.

Section NamespaceListing.

Context `{C : Collaborators}.
Implicit Types (w : World).

(** X21. A successful [listNamespaces] result is a list of names: its
    [result] is an array without empty or missing entries. So the second
    step of the fallback planner for "all pods", which maps over it,
    does not throw on it and plans one [listNamespacedPod] call per
    name. *)
Theorem listNamespaces_result_feeds_planner (a : JsObject) (ns : gset string)
        (imgs : list string) (mr : Z) w (r : ToolResult) :
  let call := {| tool := "listNamespaces"; args := a |} in
  outcomeOf (executeTool call ns imgs mr w) = Returned (Some r) ->
  rok r = true ->
  exists names,
    result r = JArr names
    /\ Forall (fun n => truthy n = true) names
    /\ forall (userText defaultNamespace : string) (rest : History),
        includes (toLowerCase userText) "pod" = true ->
        includes (toLowerCase userText) "all" = true ->
        fallbackPlan userText defaultNamespace (Some r :: rest) =
        inr {| summary := "List pods in all namespaces";
               toolCalls := List.map (fun n => {| tool := "listNamespacedPod";
                                                  args := [("namespace", n)] |}) names;
               done := true |}.
Proof.
  intros call Hrun Hok.
  assert (Hshape : rtool r = "listNamespaces"
                   /\ exists names, result r = JArr names
                                    /\ Forall (fun n => truthy n = true) names).
  { revert Hrun. rewrite executeTool_run. unfold executeToolBody.
    change (toolOfString (tool call)) with (Some listNamespaces). cbv iota beta.
    rewrite run_bind. unfold callApi.
    destruct (backend _ _) as [[e|res] c1].
    { unfold outcomeOf. cbn [fst]. intros H. injection H as <-. discriminate Hok. }
    unfold okM. rewrite run_liftR.
    destruct (getProp res "items") as [e|items]; cbn [mbind Res_bind].
    { unfold outcomeOf. cbn [fst]. intros H. injection H as <-. discriminate Hok. }
    destruct (arrayItems items "map") as [e|l]; cbn [mbind Res_bind].
    { unfold outcomeOf. cbn [fst]. intros H. injection H as <-. discriminate Hok. }
    destruct (mapR _ l) as [e|names]; cbn [mbind Res_bind mret Res_ret ok].
    { unfold outcomeOf. cbn [fst]. intros H. injection H as <-. discriminate Hok. }
    unfold outcomeOf. cbn [fst]. intros H. injection H as <-. cbn [rtool result].
    split; [reflexivity|]. eexists. split; [reflexivity|apply filter_truthy]. }
  destruct Hshape as (Htool & names & Hresult & Hnames).
  exists names. split; [exact Hresult|]. split; [exact Hnames|].
  intros userText defaultNamespace rest Hpod Hall.
  unfold fallbackPlan, podsOfNamespaces. rewrite Htool, Hpod, Hall, Hresult. reflexivity.
Qed.

End NamespaceListing.

Lemma listNamespaces_result_feeds_planner_witness :
  let call := {| tool := "listNamespaces"; args := [] |} in
  let r := {| rtool := "listNamespaces"; rargs := []; rok := true;
              result := JArr [JStr "dev"; JStr "qa"] |} in
  outcomeOf (executeTool (C := Demo.stocked) call {["dev"]} [] 20 Demo.shop) =
  Returned (Some r)
  /\ Forall (fun n => truthy n = true) [JStr "dev"; JStr "qa"]
  /\ fallbackPlan "show all pods" "dev" [Some r] =
     inr {| summary := "List pods in all namespaces";
            toolCalls :=
              [{| tool := "listNamespacedPod"; args := [("namespace", JStr "dev")] |};
               {| tool := "listNamespacedPod"; args := [("namespace", JStr "qa")] |}];
            done := true |}.
Proof.
  intros call r.
  destruct (listNamespaces_result_feeds_planner
              (C := Demo.stocked) [] {["dev"]} [] 20 Demo.shop r eq_refl eq_refl)
    as (names & Hnames & Htruthy & Hplan).
  injection Hnames as <-.
  split; [reflexivity|]. split; [exact Htruthy|].
  apply (Hplan "show all pods" "dev" []); reflexivity.
Defined.

(* ===================================================================== *)
(** ** Further properties: who talks to whom *)
(* ===================================================================== *)

Section Frames.

Context `{C : Collaborators}.
Implicit Types (w : World) (env : Env).

Lemma leaves_ret {A X} (f : World -> X) (a : A) : leaves f (mret a).
Proof. intros w. reflexivity. Qed.

Lemma leaves_throw {A X} (f : World -> X) e : leaves f (throw (A := A) e).
Proof. intros w. reflexivity. Qed.

Lemma leaves_conclude {A X} (f : World -> X) (o : Outcome A) : leaves f (conclude o).
Proof. intros w. reflexivity. Qed.

Lemma leaves_liftR {A X} (f : World -> X) (r : Res A) : leaves f (liftR r).
Proof. intros w. rewrite run_liftR. reflexivity. Qed.

Lemma leaves_okM {X} (f : World -> X) call r options : leaves f (okM call r options).
Proof. apply leaves_liftR. Qed.

Lemma leaves_emit {X} (f : World -> X) ev : leaves f (emit ev).
Proof. intros w. reflexivity. Qed.

Lemma leaves_bind {A B X} (f : World -> X) (m : M A) (k : A -> M B) :
  leaves f m -> (forall a, leaves f (k a)) -> leaves f (m ≫= k).
Proof.
  intros Hm Hk w. rewrite run_bind. specialize (Hm w). unfold stateOf in *.
  destruct (m w) as [[[a|e|] w1] evs1]; cbn [fst snd] in *; try exact Hm.
  specialize (Hk a w1). destruct (k a w1) as [[o w2] evs2]. cbn in *.
  rewrite Hk. exact Hm.
Qed.

Lemma leaves_callApi_oracle m ps : leaves oracle (callApi m ps).
Proof. intros w. unfold callApi. destruct (backend _ _) as [[e|body] c1]; reflexivity. Qed.

Lemma leaves_selectModels_cluster family : leaves cluster (selectModels family).
Proof.
  intros w. unfold selectModels. destruct (selectChatModels _ _) as [[e|ms] o1]; reflexivity.
Qed.

Lemma leaves_send_cluster model messages : leaves cluster (send model messages).
Proof.
  intros w. unfold send. destruct (sendRequest _ _ _) as [[e|resp] o1]; reflexivity.
Qed.

Lemma leaves_endOfStream {X} (f : World -> X) resp : leaves f (endOfStream resp).
Proof. unfold endOfStream. destruct (failure resp); [apply leaves_throw|apply leaves_ret]. Qed.

Lemma leaves_streamChunks {X} (f : World -> X) cs acc : leaves f (streamChunks cs acc).
Proof. intros w. rewrite run_streamChunks. reflexivity. Qed.

End Frames.

(** One step of a proof that a computation leaves a component as it is. *)
Ltac step_leaves :=
  match goal with
  | |- leaves _ (mbind _ _) => apply leaves_bind; [|intros]
  | |- leaves _ (mret _) => apply leaves_ret
  | |- leaves _ (throw _) => apply leaves_throw
  | |- leaves _ (conclude _) => apply leaves_conclude
  | |- leaves _ (liftR _) => apply leaves_liftR
  | |- leaves _ (okM _ _ _) => apply leaves_okM
  | |- leaves _ (emit _) => apply leaves_emit
  | |- leaves _ (callApi _ _) => apply leaves_callApi_oracle
  | |- leaves _ (selectModels _) => apply leaves_selectModels_cluster
  | |- leaves _ (send _ _) => apply leaves_send_cluster
  | |- leaves _ (endOfStream _) => apply leaves_endOfStream
  | |- leaves _ (streamChunks _ _) => apply leaves_streamChunks
  | |- leaves _ (if ?b then _ else _) => destruct b
  | |- leaves _ (match ?x with _ => _ end) => destruct x
  end.

Section WhoTalksToWhom.

Context `{C : Collaborators}.
Implicit Types (w : World) (env : Env).

Lemma executeToolBody_oracle call ns imgs mr :
  leaves oracle (executeToolBody call ns imgs mr).
Proof.
  unfold executeToolBody.
  destruct (toolOfString (tool call)) as [t|]; [|apply leaves_ret].
  destruct t; repeat step_leaves.
Qed.

Lemma oracle_events (evs : list Event) :
  forallb isChunkOrOracleEvent evs = true -> executed evs = [] /\ invoked evs = [].
Proof.
  induction evs as [|e evs IH]; [split; reflexivity|].
  cbn [forallb]. intros H. apply andb_true_iff in H. destruct H as [He Hrest].
  destruct e; try discriminate He; exact (IH Hrest).
Qed.

(** X22. The dispatcher and the language model are kept apart. What
    [executeTool] does is its entry followed by backend invocations only,
    and it leaves the state of the language model and the stored pending
    actions as they are. The planner and the formatter call no tool and
    no backend method, and leave the cluster and the stored pending
    actions as they are. *)
Theorem dispatcher_and_model_are_kept_apart env (call : ToolCall) (ns : gset string)
        (imgs : list string) (mr : Z) (userText summary family : string)
        (ctx : ExtensionConfig) (results : History) w :
  let dispatched := executeTool call ns imgs mr w in
  let planned := planWithLm env userText ctx results family w in
  let formatted := formatWithLm env userText summary results family w in
  (toolBlock call (eventsOf dispatched)
   /\ oracle (stateOf dispatched) = oracle w
   /\ pendingBySession (stateOf dispatched) = pendingBySession w)
  /\ (executed (eventsOf planned) = [] /\ invoked (eventsOf planned) = []
      /\ cluster (stateOf planned) = cluster w
      /\ pendingBySession (stateOf planned) = pendingBySession w)
  /\ (executed (eventsOf formatted) = [] /\ invoked (eventsOf formatted) = []
      /\ cluster (stateOf formatted) = cluster w
      /\ pendingBySession (stateOf formatted) = pendingBySession w).
Proof.
  intros dispatched planned formatted. split; [|split].
  - destruct (executeTool_block call ns imgs mr w) as [Hblock Hpending].
    split; [exact Hblock|]. split; [|exact Hpending].
    subst dispatched. rewrite executeTool_run.
    pose proof (executeToolBody_oracle call ns imgs mr w) as Ho. unfold stateOf in *.
    destruct (executeToolBody call ns imgs mr w) as [[[res|e|] w1] evs]; exact Ho.
  - destruct (planWithLm_run env userText ctx results family w)
      as (o & w' & oevs & Hrun & Hevs & Hpending).
    assert (Hcluster : leaves cluster (planWithLm env userText ctx results family))
      by (unfold planWithLm; repeat step_leaves).
    specialize (Hcluster w). fold planned in Hcluster, Hrun.
    rewrite Hrun in *. unfold eventsOf, stateOf in *. cbn [fst snd] in *.
    assert (Hwork : forallb isChunkOrOracleEvent oevs = true).
    { eapply forallb_weaken; [|exact Hevs]. intros [] H; try discriminate H; reflexivity. }
    destruct (oracle_events oevs Hwork) as [He Hi].
    repeat split; assumption.
  - destruct (formatWithLm_run env userText summary results family w)
      as (o & w' & fevs & Hrun & Hevs & Hpending & _).
    assert (Hcluster : leaves cluster (formatWithLm env userText summary results family))
      by (unfold formatWithLm; repeat step_leaves).
    specialize (Hcluster w). fold formatted in Hcluster, Hrun.
    rewrite Hrun in *. unfold eventsOf, stateOf in *. cbn [fst snd] in *.
    destruct (oracle_events fevs Hevs) as [He Hi].
    repeat split; assumption.
Qed.

End WhoTalksToWhom.

Section ReadOnlyPlans.

Context `{C : Collaborators}.
Implicit Types (w : World) (env : Env).

Lemma filter_none {A} (f : A -> bool) (l : list A) :
  Forall (fun x => f x = false) l -> List.filter f l = [].
Proof.
  induction 1 as [|x l Hx _ IH]; [reflexivity|]. cbn [List.filter]. rewrite Hx. exact IH.
Qed.

(** X23. A plan that is done and changes nothing. When the first plan
    of a run is marked done and holds no mutating call, [runAgentLoop]
    executes its calls in order, makes no further planner call, and hands
    the summary of the plan and the history extended by the results of
    the calls to the formatter: the run ends as the formatter ends, with
    the stored pending actions as they were. *)
Theorem done_plan_without_changes_is_formatted env (userText family : string)
        (init : option History) w (plan : Plan) (w1 : World) (pevs : list Event) :
  planWithLm env userText (cfg env) (copyOrEmpty init) family w = (Returned plan, w1, pevs) ->
  done plan = true ->
  Forall (fun c => isMutating (tool c) = false) (toolCalls plan) ->
  exists (rs : History) (blocks : list (list Event)) (w2 : World),
    Forall2 toolBlock (toolCalls plan) blocks
    /\ Forall2 resultFor (toolCalls plan) rs
    /\ pendingBySession w2 = pendingBySession w1
    /\ let formatted :=
         formatWithLm env userText (summary plan) (copyOrEmpty init ++ rs) family w2 in
       let run := runAgentLoop env userText family init w in
       eventsOf run = pevs ++ concat blocks ++ eventsOf formatted
       /\ stateOf run = stateOf formatted
       /\ outcomeOf run = match outcomeOf formatted with
                          | Returned _ => Returned tt
                          | Threw e => Threw e
                          | Stuck => Stuck
                          end.
Proof.
  intros Hplan Hdone Hreads.
  assert (Hsplit : splitToolCalls (toolCalls plan) = (toolCalls plan, [])).
  { unfold splitToolCalls. f_equal.
    - apply filter_all. eapply Forall_impl; [exact Hreads|].
      intros c Hc. cbn beta in Hc. rewrite Hc. reflexivity.
    - apply filter_none. exact Hreads. }
  assert (Hstart : forall k : option Plan -> M LoopExit,
             (tryPlan env userText (copyOrEmpty init) family ≫= k) w =
             let '(o, w', evs) := k (Some plan) w1 in (o, w', pevs ++ evs)).
  { intros k. rewrite run_bind. unfold tryPlan, tryCatch. rewrite run_bind, Hplan.
    change ((mret (Some plan) : M (option Plan)) w1)
      with (Returned (Some plan), w1, @nil Event).
    cbv iota beta zeta. rewrite app_nil_r. reflexivity. }
  destruct (toolCalls plan) as [|c0 calls] eqn:Hcalls.
  - exists [], [], w1. split; [constructor|]. split; [constructor|]. split; [reflexivity|].
    cbv zeta. rewrite app_nil_r. cbn [concat app].
    unfold runAgentLoop, MAX_ITERATIONS. rewrite run_bind, agentLoop_step.
    change (0 <? MAX_ITERATIONS)%nat with true. cbv iota.
    rewrite Hstart, Hcalls, Hdone. cbn [length Nat.eqb andb].
    change ((mret (ExitLoop 1 (copyOrEmpty init) (summary plan)) : M LoopExit) w1)
      with (Returned (ExitLoop 1 (copyOrEmpty init) (summary plan)), w1, @nil Event).
    cbv iota beta zeta. rewrite app_nil_r.
    rewrite run_bind. change (10 <=? 1)%nat with false. cbv iota.
    cbv [mret M_ret]. cbv iota beta zeta. cbn [app]. rewrite run_bind.
    unfold eventsOf, stateOf, outcomeOf.
    destruct (formatWithLm env userText (summary plan) (copyOrEmpty init) family w1)
      as [[[f|e|] w'] fevs]; cbn [fst snd]; rewrite ?app_nil_r; repeat split.
  - destruct (executeReadonlyCalls_run (c0 :: calls) (cfg env) (copyOrEmpty init) w1)
      as (rs & blocks & w2 & Hrun & Hblocks & Hresults & Hpending).
    exists rs, blocks, w2. split; [exact Hblocks|]. split; [exact Hresults|].
    split; [exact Hpending|]. cbv zeta.
    unfold runAgentLoop, MAX_ITERATIONS. rewrite run_bind, agentLoop_step.
    change (0 <? MAX_ITERATIONS)%nat with true. cbv iota.
    rewrite Hstart, Hcalls, Hdone. cbn [length Nat.eqb andb].
    rewrite Hsplit. cbv iota beta.
    rewrite run_bind, Hrun. cbn [length Nat.ltb Nat.leb].
    change ((mret (ExitLoop 1 (copyOrEmpty init ++ rs) (summary plan)) : M LoopExit) w2)
      with (Returned (ExitLoop 1 (copyOrEmpty init ++ rs) (summary plan)), w2, @nil Event).
    cbv iota beta zeta. rewrite app_nil_r.
    rewrite run_bind. change (10 <=? 1)%nat with false. cbv iota.
    cbv [mret M_ret]. cbv iota beta zeta. cbn [app]. rewrite run_bind.
    unfold eventsOf, stateOf, outcomeOf.
    destruct (formatWithLm env userText (summary plan) (copyOrEmpty init ++ rs) family w2)
      as [[[f|e|] w'] fevs]; cbn [fst snd]; rewrite ?app_nil_r, <- ?app_assoc;
      repeat split.
Qed.

End ReadOnlyPlans.

Lemma done_plan_without_changes_is_formatted_witness :
  let plan := {| summary := "List all namespaces";
                 toolCalls := [{| tool := "listNamespaces"; args := [] |}];
                 done := true |} in
  let run := runAgentLoop (C := Demo.collaborators) Demo.env "What namespaces exist?"
                          "gpt-4o" None (Demo.world []) in
  exists (rs : History) (blocks : list (list Event)) (w2 : World),
    Forall2 toolBlock (toolCalls plan) blocks
    /\ Forall2 resultFor (toolCalls plan) rs
    /\ pendingBySession w2 = pendingBySession (Demo.world [])
    /\ let formatted :=
         formatWithLm (C := Demo.collaborators) Demo.env "What namespaces exist?"
                      (summary plan) ([] ++ rs) "gpt-4o" w2 in
       eventsOf run =
       [EvPlanWithLm "What namespaces exist?" [];
        EvSendRequest "copilot" [UserRequest "What namespaces exist?"; AssistantContext]]
       ++ concat blocks ++ eventsOf formatted
       /\ stateOf run = stateOf formatted
       /\ outcomeOf run = match outcomeOf formatted with
                          | Returned _ => Returned tt
                          | Threw e => Threw e
                          | Stuck => Stuck
                          end.
Proof.
  intros plan run.
  apply (done_plan_without_changes_is_formatted
           (C := Demo.collaborators) Demo.env "What namespaces exist?" "gpt-4o" None
           (Demo.world []) plan (Demo.world [])
           [EvPlanWithLm "What namespaces exist?" [];
            EvSendRequest "copilot" [UserRequest "What namespaces exist?";
                                     AssistantContext]]).
  - reflexivity.
  - reflexivity.
  - repeat constructor.
Defined.

(* ===================================================================== *)
(** ** Further properties: services and deployments *)
(* ===================================================================== *)

(** [service.spec.k = x], done when [b] holds, on an object whose [spec]
    is an object. *)
Lemma setPath_spec_if (b : bool) (o spec : JsObject) (k : string) (x : JsVal) :
  field o "spec" = JObj spec ->
  let spec' := if b then setField spec k x else spec in
  let o' := if b then setField o "spec" (JObj spec') else o in
  (if b then setPath (JObj o) ["spec"; k] x else inr (JObj o)) = inr (JObj o')
  /\ field o' "spec" = JObj spec'
  /\ forall k', k' <> "spec" -> field o' k' = field o k'.
Proof.
  intros Hspec spec' o'. subst spec' o'. destruct b.
  - cbn [setPath getProp nullish prop mbind Res_bind]. rewrite Hspec.
    cbn [setProp mbind Res_bind]. split; [reflexivity|]. split.
    + apply field_setField_eq.
    + intros k' Hk'. apply field_setField_ne. congruence.
  - split; [reflexivity|]. split; [exact Hspec|]. reflexivity.
Qed.

(** X24. [updateService] changes the fields it is given. Without a
    selector, port, target port and type the call is refused with "No
    service fields to update" before any backend invocation. Otherwise the
    service is read and then replaced, once each. In the replacement,
    [spec.type] and [spec.selector] are those of the call where the call
    gives them and as read otherwise; when the call gives a port or a
    target port, [spec.ports] becomes the one entry made of them (the
    port defaulting to 80, the target port to the port), whatever ports
    the service had; every property outside [spec] is as read. *)
Theorem updateService_changes_given_fields `{C : Collaborators}
        (a : JsObject) (ns : gset string) (imgs : list string) (mr : Z) (w : World)
        (o spec : JsObject) (c1 : Cluster) :
  let call := {| tool := "updateService"; args := a |} in
  let selector := field a "selector" in
  let port := field a "port" in
  let targetPort := field a "targetPort" in
  let type := field a "type" in
  let run := executeTool call ns imgs mr w in
  let read := {| method := CoreV1_readNamespacedService;
                 params := [field a "name"; field a "namespace"] |} in
  (truthy selector || truthy port || truthy targetPort || truthy type = false ->
   run = (Returned (Some (failed call (Error "No service fields to update"))), w,
          [EvExecuteTool call]))
  /\ (truthy selector || truthy port || truthy targetPort || truthy type = true ->
      backend read (cluster w) = (inr (JObj o), c1) ->
      field o "spec" = JObj spec ->
      exists service spec',
        invoked (eventsOf run) =
        [read; {| method := CoreV1_replaceNamespacedService;
                  params := [field a "name"; field a "namespace"; JObj service] |}]
        /\ field service "spec" = JObj spec'
        /\ field spec' "type" = (if truthy type then type else field spec "type")
        /\ field spec' "selector" =
           (if truthy selector then selector else field spec "selector")
        /\ field spec' "ports" =
           (if truthy port || truthy targetPort
            then JArr [JObj [("port", coalesce port (JNum 80));
                             ("targetPort", coalesce (coalesce targetPort port) (JNum 80))]]
            else field spec "ports")
        /\ (forall k, k <> "spec" -> field service k = field o k)).
Proof.
  intros call selector port targetPort type run read. subst run.
  assert (Hguard : negb (truthy selector) && negb (truthy port) && negb (truthy targetPort)
                   && negb (truthy type)
                   = negb (truthy selector || truthy port || truthy targetPort || truthy type))
    by (destruct (truthy selector), (truthy port), (truthy targetPort), (truthy type);
        reflexivity).
  split.
  - intros Hnone. rewrite executeTool_run. unfold executeToolBody.
    change (toolOfString (tool call)) with (Some updateService). cbv iota beta.
    change (field (args call)) with (field a).
    fold selector port targetPort type. rewrite Hguard, Hnone. reflexivity.
  - intros Hsome Hread Hspec.
    set (ports := JArr [JObj [("port", coalesce port (JNum 80));
                              ("targetPort", coalesce (coalesce targetPort port) (JNum 80))]]).
    destruct (setPath_spec_if (truthy type) o spec "type" type Hspec)
      as (Hstep1 & Hspec1 & Hrest1).
    cbv zeta in Hstep1, Hspec1, Hrest1.
    set (spec1 := if truthy type then setField spec "type" type else spec) in *.
    set (o1 := if truthy type then setField o "spec" (JObj spec1) else o) in *.
    destruct (setPath_spec_if (truthy selector) o1 spec1 "selector" selector Hspec1)
      as (Hstep2 & Hspec2 & Hrest2).
    cbv zeta in Hstep2, Hspec2, Hrest2.
    set (spec2 := if truthy selector then setField spec1 "selector" selector else spec1) in *.
    set (o2 := if truthy selector then setField o1 "spec" (JObj spec2) else o1) in *.
    destruct (setPath_spec_if (truthy port || truthy targetPort) o2 spec2 "ports" ports Hspec2)
      as (Hstep3 & Hspec3 & Hrest3).
    cbv zeta in Hstep3, Hspec3, Hrest3.
    set (spec3 := if truthy port || truthy targetPort
                  then setField spec2 "ports" ports else spec2) in *.
    set (o3 := if truthy port || truthy targetPort
               then setField o2 "spec" (JObj spec3) else o2) in *.
    exists o3, spec3. split; [|split; [exact Hspec3|split; [|split; [|split]]]].
    + rewrite executeTool_events. unfold executeToolBody.
      change (toolOfString (tool call)) with (Some updateService). cbv iota beta.
      change (field (args call)) with (field a).
      fold selector port targetPort type. rewrite Hguard, Hsome. cbn [negb].
      rewrite (events_callApi_ok _ _ _ _ _ _ Hread).
      rewrite (events_liftR_ok _ (JObj o3)).
      * rewrite events_callApi_then by (intros; apply keeps_liftR). reflexivity.
      * unfold initPath. cbn [getPath getProp nullish prop mbind Res_bind].
        rewrite Hspec. cbn [truthy mbind Res_bind].
        rewrite Hstep1. cbn [mbind Res_bind].
        rewrite Hstep2. cbn [mbind Res_bind].
        fold ports. exact Hstep3.
    + subst spec3 spec2 spec1.
      destruct (truthy port || truthy targetPort), (truthy selector), (truthy type);
        rewrite ?field_setField_ne by discriminate; rewrite ?field_setField_eq; reflexivity.
    + subst spec3 spec2 spec1.
      destruct (truthy port || truthy targetPort), (truthy selector), (truthy type);
        rewrite ?field_setField_ne by discriminate; rewrite ?field_setField_eq; reflexivity.
    + subst spec3.
      destruct (truthy port || truthy targetPort); [apply field_setField_eq|].
      subst spec2 spec1.
      destruct (truthy selector), (truthy type);
        rewrite ?field_setField_ne by discriminate; reflexivity.
    + intros k Hk. rewrite (Hrest3 k Hk), (Hrest2 k Hk), (Hrest1 k Hk). reflexivity.
Qed.

Lemma updateService_changes_given_fields_witness :
  let a := [("namespace", JStr "dev"); ("name", JStr "web"); ("targetPort", JNum 3000)] in
  let call := {| tool := "updateService"; args := a |} in
  exists service spec',
    invoked (eventsOf (executeTool (C := Demo.stocked) call {["dev"]} [] 20 Demo.shop)) =
    [{| method := CoreV1_readNamespacedService; params := [JStr "web"; JStr "dev"] |};
     {| method := CoreV1_replaceNamespacedService;
        params := [JStr "web"; JStr "dev"; JObj service] |}]
    /\ field service "spec" = JObj spec'
    /\ field spec' "type" = JStr "ClusterIP"
    /\ field spec' "ports" =
       JArr [JObj [("port", JNum 80); ("targetPort", JNum 3000)]].
Proof.
  intros a call.
  destruct (proj2 (updateService_changes_given_fields
                     (C := Demo.stocked) a {["dev"]} [] 20 Demo.shop
                     [("metadata", JObj [("name", JStr "web"); ("namespace", JStr "dev")]);
                      ("spec",
                       JObj [("type", JStr "ClusterIP");
                             ("selector", JObj [("app", JStr "web")]);
                             ("ports", JArr [JObj [("port", JNum 8080)];
                                             JObj [("port", JNum 9090)]])])]
                     [("type", JStr "ClusterIP");
                      ("selector", JObj [("app", JStr "web")]);
                      ("ports", JArr [JObj [("port", JNum 8080)];
                                      JObj [("port", JNum 9090)]])]
                     1%nat)
                  eq_refl eq_refl eq_refl)
    as (service & spec' & Hcalls & Hspec & Htype & _ & Hports & _).
  exists service, spec'. repeat split; assumption.
Defined.

(** X25. [updateDeploymentImage] changes the image of the first
    container only. For a deployment that has containers, it reads the
    deployment and replaces it, once each, and in the replacement the
    first container has the image of the call, the other containers are
    as read, and so is every property outside [spec]. For a deployment
    without containers the call fails with "No containers found to
    update" after the read, and nothing is replaced. *)
Theorem updateDeploymentImage_changes_first_container `{C : Collaborators}
        (a : JsObject) (ns : gset string) (imgs : list string) (mr : Z) (w : World)
        (o spec template podSpec : JsObject) (c1 : Cluster) :
  let call := {| tool := "updateDeploymentImage"; args := a |} in
  let run := executeTool call ns imgs mr w in
  let read := {| method := AppsV1_readNamespacedDeployment;
                 params := [field a "name"; field a "namespace"] |} in
  backend read (cluster w) = (inr (JObj o), c1) ->
  field o "spec" = JObj spec ->
  field spec "template" = JObj template ->
  field template "spec" = JObj podSpec ->
  (forall first others,
      field podSpec "containers" = JArr (JObj first :: others) ->
      exists deployment,
        invoked (eventsOf run) =
        [read; {| method := AppsV1_replaceNamespacedDeployment;
                  params := [field a "name"; field a "namespace"; JObj deployment] |}]
        /\ getPath (JObj deployment) ["spec"; "template"; "spec"; "containers"] =
           inr (JArr (JObj (setField first "image" (field a "image")) :: others))
        /\ (forall k, k <> "spec" -> field deployment k = field o k))
  /\ (field podSpec "containers" = JArr [] \/ nullish (field podSpec "containers") = true ->
      outcomeOf run =
      Returned (Some (failed call (Error "No containers found to update")))
      /\ invoked (eventsOf run) = [read]).
Proof.
  intros call run read Hread Hspec Htemplate HpodSpec. subst run.
  assert (Hcontainers :
            getThenOpt (JObj o) "spec" ["template"; "spec"; "containers"]
            = inr (field podSpec "containers")).
  { unfold getThenOpt. cbn [getProp nullish prop mbind Res_bind mret Res_ret fold_left].
    rewrite Hspec. cbn [optProp nullish prop]. rewrite Htemplate.
    cbn [optProp nullish prop]. rewrite HpodSpec. reflexivity. }
  split.
  - intros first others Hcs.
    set (containers := JArr (JObj (setField first "image" (field a "image")) :: others)).
    set (podSpec' := setField podSpec "containers" containers).
    set (template' := setField template "spec" (JObj podSpec')).
    set (spec' := setField spec "template" (JObj template')).
    exists (setField o "spec" (JObj spec')).
    split; [|split].
    + rewrite executeTool_events. unfold executeToolBody.
      change (toolOfString (tool call)) with (Some updateDeploymentImage). cbv iota beta.
      change (field (args call)) with (field a).
      rewrite (events_callApi_ok _ _ _ _ _ _ Hread).
      rewrite (events_liftR_ok _ (JObj (setField o "spec" (JObj spec')))).
      * rewrite events_callApi_then by (intros; apply keeps_liftR). reflexivity.
      * rewrite Hcontainers, Hcs. cbn [mbind Res_bind coalesce nullish].
        assert (Hlen : truthy (prop (JArr (JObj first :: others)) "length") = true)
          by (cbn [prop String.eqb Ascii.eqb Bool.eqb truthy length];
              rewrite Nat2Z.inj_succ; apply negb_true_iff, Z.eqb_neq; lia).
        rewrite Hlen. cbn [negb].
        assert (Hset : setPath (JArr (JObj first :: others)) ["0"; "image"] (field a "image")
                       = inr containers) by reflexivity.
        rewrite Hset. cbn [mbind Res_bind].
        unfold initPath. cbn [getPath getProp nullish prop mbind Res_bind].
        rewrite Hspec. cbn [truthy mbind Res_bind getProp nullish prop].
        rewrite Hspec. cbn [truthy mbind Res_bind getProp nullish prop].
        rewrite Htemplate. cbn [truthy mbind Res_bind getProp nullish prop].
        rewrite Hspec. cbn [truthy mbind Res_bind getProp nullish prop].
        rewrite Htemplate. cbn [truthy mbind Res_bind getProp nullish prop].
        rewrite HpodSpec. cbn [truthy mbind Res_bind getProp nullish prop].
        cbn [setPath getProp nullish prop mbind Res_bind setProp].
        rewrite Hspec. cbn [mbind Res_bind getProp nullish prop setProp].
        rewrite Htemplate. cbn [mbind Res_bind getProp nullish prop setProp].
        rewrite HpodSpec. reflexivity.
    + cbn [getPath getProp nullish prop mbind Res_bind].
      rewrite field_setField_eq. cbn [getProp nullish prop mbind Res_bind].
      subst spec'. rewrite field_setField_eq. cbn [getProp nullish prop mbind Res_bind].
      subst template'. rewrite field_setField_eq. cbn [getProp nullish prop mbind Res_bind].
      subst podSpec'. rewrite field_setField_eq. reflexivity.
    + intros k Hk. apply field_setField_ne. congruence.
  - intros Hnone.
    assert (Hempty : truthy (prop (coalesce (field podSpec "containers") (JArr [])) "length")
                     = false).
    { destruct Hnone as [->|Hnull]; [reflexivity|].
      unfold coalesce. rewrite Hnull. reflexivity. }
    assert (Hbody :
              executeToolBody call ns imgs mr w =
              (Threw (Error "No containers found to update"),
               {| pendingBySession := pendingBySession w; cluster := c1; oracle := oracle w |},
               [EvApi read])).
    { unfold executeToolBody.
      change (toolOfString (tool call)) with (Some updateDeploymentImage). cbv iota beta.
      change (field (args call)) with (field a).
      rewrite run_bind. unfold callApi. fold read. rewrite Hread.
      rewrite run_bind, run_liftR, Hcontainers. cbn [mbind Res_bind].
      rewrite Hempty. reflexivity. }
    rewrite executeTool_run, Hbody. split; reflexivity.
Qed.

Lemma updateDeploymentImage_changes_first_container_witness :
  let a := [("namespace", JStr "dev"); ("name", JStr "web"); ("image", JStr "nginx:1.27")] in
  let call := {| tool := "updateDeploymentImage"; args := a |} in
  exists deployment,
    invoked (eventsOf (executeTool (C := Demo.stocked) call {["dev"]} [] 20 Demo.shop)) =
    [{| method := AppsV1_readNamespacedDeployment; params := [JStr "web"; JStr "dev"] |};
     {| method := AppsV1_replaceNamespacedDeployment;
        params := [JStr "web"; JStr "dev"; JObj deployment] |}]
    /\ getPath (JObj deployment) ["spec"; "template"; "spec"; "containers"] =
       inr (JArr [JObj [("name", JStr "main"); ("image", JStr "nginx:1.27")];
                  JObj [("name", JStr "sidecar"); ("image", JStr "envoy:1.30")]]).
Proof.
  intros a call.
  destruct (proj1 (updateDeploymentImage_changes_first_container
                     (C := Demo.stocked) a {["dev"]} [] 20 Demo.shop
                     [("metadata", JObj [("name", JStr "web"); ("namespace", JStr "dev")]);
                      ("spec",
                       JObj [("replicas", JNum 1);
                             ("template",
                              JObj [("spec",
                                     JObj [("containers",
                                            JArr [JObj [("name", JStr "main");
                                                        ("image", JStr "nginx:1.25")];
                                                  JObj [("name", JStr "sidecar");
                                                        ("image", JStr "envoy:1.30")]])])])])]
                     [("replicas", JNum 1);
                      ("template",
                       JObj [("spec",
                              JObj [("containers",
                                     JArr [JObj [("name", JStr "main");
                                                 ("image", JStr "nginx:1.25")];
                                           JObj [("name", JStr "sidecar");
                                                 ("image", JStr "envoy:1.30")]])])])]
                     [("spec",
                       JObj [("containers",
                              JArr [JObj [("name", JStr "main");
                                          ("image", JStr "nginx:1.25")];
                                    JObj [("name", JStr "sidecar");
                                          ("image", JStr "envoy:1.30")]])])]
                     [("containers",
                       JArr [JObj [("name", JStr "main"); ("image", JStr "nginx:1.25")];
                             JObj [("name", JStr "sidecar"); ("image", JStr "envoy:1.30")]])]
                     1%nat eq_refl eq_refl eq_refl eq_refl)
                  [("name", JStr "main"); ("image", JStr "nginx:1.25")]
                  [JObj [("name", JStr "sidecar"); ("image", JStr "envoy:1.30")]]
                  eq_refl)
    as (deployment & Hcalls & Hcontainers & _).
  exists deployment. split; [exact Hcalls|exact Hcontainers].
Defined.

(** X26. The deployment that [createDeployment] sends selects its own pods:
    the labels of its pod template are the labels its selector matches,
    both the one label [app] with the name of the call. It is created
    with the replicas of the call, one when the call gives none, and
    whatever [maxReplicas] is; the one container exposes a port only
    when the call gives one. *)
Theorem createDeployment_selects_its_own_pods `{C : Collaborators}
        (a : JsObject) (ns : gset string) (imgs : list string) (mr : Z) (w : World) :
  let call := {| tool := "createDeployment"; args := a |} in
  exists deployment,
    invoked (eventsOf (executeTool call ns imgs mr w)) =
    [{| method := AppsV1_createNamespacedDeployment;
        params := [field a "namespace"; deployment] |}]
    /\ getPath deployment ["spec"; "selector"; "matchLabels"] =
       inr (JObj [("app", field a "name")])
    /\ getPath deployment ["spec"; "template"; "metadata"; "labels"] =
       inr (JObj [("app", field a "name")])
    /\ getPath deployment ["metadata"; "name"] = inr (field a "name")
    /\ getPath deployment ["spec"; "replicas"] =
       inr (if nullish (field a "replicas") then JNum 1 else field a "replicas")
    /\ getPath deployment ["spec"; "template"; "spec"; "containers"; "0"; "ports"] =
       inr (if truthy (field a "port")
            then JArr [JObj [("containerPort", field a "port")]]
            else JUndefined).
Proof.
  intros call. eexists. split.
  - rewrite executeTool_events. unfold executeToolBody.
    change (toolOfString (tool call)) with (Some createDeployment). cbv iota beta.
    change (field (args call)) with (field a).
    rewrite events_callApi_then by (intros; apply keeps_liftR). reflexivity.
  - repeat split; reflexivity.
Qed.

(* ===================================================================== *)
(** ** Further properties: the result history *)
(* ===================================================================== *)





Section ResultHistory.

Context `{C : Collaborators}.
Implicit Types (w : World) (env : Env).




End ResultHistory.

(** X28. [listNamespacedEvent] does not look at [podName]: whatever the
    call gives for it, the one backend invocation is the same, with the
    namespace of the call (or [default]) as namespace and in the field
    selector, and so are the success and the payload of the result. *)
Theorem listNamespacedEvent_ignores_podName `{C : Collaborators}
        (a : JsObject) (podName : JsVal) (ns : gset string) (imgs : list string) (mr : Z)
        (w : World) :
  let call (args : JsObject) := {| tool := "listNamespacedEvent"; args := args |} in
  let payload (run : Outcome (option ToolResult) * World * list Event) :=
    match outcomeOf run with
    | Returned (Some r) => Some (rok r, result r)
    | _ => None
    end in
  let namespace := orElse (field a "namespace") (JStr "default") in
  let narrowed := executeTool (call (setField a "podName" podName)) ns imgs mr w in
  let plain := executeTool (call a) ns imgs mr w in
  invoked (eventsOf plain) =
  [{| method := CoreV1_listNamespacedEvent;
      params := [namespace; JUndefined; JUndefined; JUndefined;
                 JStr ("involvedObject.namespace=" +:+ toString namespace)] |}]
  /\ invoked (eventsOf narrowed) = invoked (eventsOf plain)
  /\ payload narrowed = payload plain
  /\ stateOf narrowed = stateOf plain.
Proof.
  intros call payload namespace narrowed plain.
  assert (Hns : field (setField a "podName" podName) "namespace" = field a "namespace")
    by (apply field_setField_ne; discriminate).
  assert (Hplain : invoked (eventsOf plain) =
                   [{| method := CoreV1_listNamespacedEvent;
                       params := [namespace; JUndefined; JUndefined; JUndefined;
                                  JStr ("involvedObject.namespace=" +:+ toString namespace)] |}]).
  { subst plain. rewrite executeTool_events. unfold executeToolBody.
    change (toolOfString (tool (call a))) with (Some listNamespacedEvent). cbv iota beta.
    change (field (args (call a))) with (field a).
    rewrite events_callApi_then by (intros; apply keeps_liftR). reflexivity. }
  split; [exact Hplain|]. split; [|split].
  - rewrite Hplain. subst narrowed. rewrite executeTool_events. unfold executeToolBody.
    change (toolOfString (tool (call (setField a "podName" podName))))
      with (Some listNamespacedEvent). cbv iota beta.
    change (field (args (call (setField a "podName" podName))))
      with (field (setField a "podName" podName)).
    rewrite Hns. rewrite events_callApi_then by (intros; apply keeps_liftR). reflexivity.
  - subst payload narrowed plain. cbv beta. rewrite !executeTool_run. unfold executeToolBody.
    change (toolOfString (tool (call (setField a "podName" podName))))
      with (Some listNamespacedEvent).
    change (toolOfString (tool (call a))) with (Some listNamespacedEvent). cbv iota beta.
    change (field (args (call (setField a "podName" podName))))
      with (field (setField a "podName" podName)).
    change (field (args (call a))) with (field a).
    rewrite Hns, !run_bind. unfold callApi.
    destruct (backend _ _) as [[e|res] c1]; [reflexivity|].
    unfold okM. rewrite !run_liftR.
    match goal with |- context [mbind _ ?r] => destruct r as [e|v] end; reflexivity.
  - subst narrowed plain. rewrite !executeTool_run. unfold executeToolBody.
    change (toolOfString (tool (call (setField a "podName" podName))))
      with (Some listNamespacedEvent).
    change (toolOfString (tool (call a))) with (Some listNamespacedEvent). cbv iota beta.
    change (field (args (call (setField a "podName" podName))))
      with (field (setField a "podName" podName)).
    change (field (args (call a))) with (field a).
    rewrite Hns, !run_bind. unfold callApi.
    destruct (backend _ _) as [[e|res] c1]; [reflexivity|].
    unfold okM. rewrite !run_liftR.
    match goal with |- context [mbind _ ?r] => destruct r as [e|v] end; reflexivity.
Qed.
